(** * AutoBudget ML service: a shallow embedding of [ml-service/app/main.py]

    The four analysis endpoints ([train_spending_model], [predict_expenses],
    [detect_anomalies], [forecast_income]) are embedded as functions in a small
    state-and-exception monad.  The state is what the process shares between
    requests: numpy's global random generator, the warnings numpy emits and
    the log.

    Python floats are idealised as real numbers ([R]): sums, means, the
    population standard deviation and the least-squares slope are the exact
    mathematical ones, and [round(x, 2)] is rounding half to even on the
    exact value.  [pd.to_datetime] is a parameter of the handlers, taken on
    the whole date column as pandas takes it; sorting by date keeps rows
    with equal dates in request order. *)

From Stdlib Require Import Reals Lra Lia ZArith List Bool Permutation Sorted.
From Stdlib Require Import Ascii String DecimalString.
From Stdlib Require OrderedTypeEx.
Import ListNotations.

Local Open Scope string_scope.
Local Open Scope list_scope.

(** ** Text helpers: [str(int)] and zero-padded fields *)

Definition str_nat (n : nat) : string :=
  NilZero.string_of_uint (Nat.to_uint n).

Definition str_Z (z : Z) : string :=
  match z with
  | Zneg p => "-" ++ str_nat (Pos.to_nat p)
  | _ => str_nat (Z.to_nat z)
  end.

Fixpoint zeros (n : nat) : string :=
  match n with
  | O => ""
  | S n' => "0" ++ zeros n'
  end.

(** [zfill w z]: the decimal digits of [z], left-padded with zeros to width [w]. *)
Definition zfill (w : nat) (z : Z) : string :=
  let s := str_Z z in
  zeros (w - String.length s) ++ s.

(** ** numpy *)

Module np.

Local Open Scope R_scope.

(** [np.sum]: accumulate from the left, starting at 0. *)
Definition sum (a : list R) : R := fold_left Rplus a 0.

(** [np.mean] *)
Definition mean (a : list R) : R := sum a / INR (List.length a).

(** [np.std] with the default [ddof=0]: the population standard deviation,
    [sqrt(mean(abs(a - a.mean())**2))]. *)
Definition std (a : list R) : R :=
  sqrt (mean (map (fun x => Rsqr (Rabs (x - mean a))) a)).

(** [np.arange(n)] *)
Definition arange (n : nat) : list R := map INR (seq 0 n).

(** [np.polyfit(x, y, 1)]: the coefficients [slope; intercept] of the
    least-squares line, from the normal equations. *)
Definition polyfit1 (x y : list R) : R * R :=
  let n := INR (List.length x) in
  let sx := sum x in
  let sy := sum y in
  let sxx := sum (map (fun a => a * a) x) in
  let sxy := sum (map (fun p => fst p * snd p) (combine x y)) in
  let slope := (n * sxy - sx * sy) / (n * sxx - sx * sx) in
  (slope, (sy - slope * sx) / n).

End np.

(** Python's [round(x, 2)]: to the nearest multiple of 0.01, ties to the even
    multiple. *)
Definition round_half_even (x : R) : Z :=
  let f := Zfloor x in
  let d := (x - IZR f)%R in
  if Rlt_dec d (1 / 2) then f
  else if Rlt_dec (1 / 2) d then (f + 1)%Z
  else if Z.even f then f else (f + 1)%Z.

Definition round2 (x : R) : R := (IZR (round_half_even (x * 100)) / 100)%R.

(** ** pandas: timestamps, monthly periods, frames *)

Record Timestamp := {
  year : Z; month : Z; day : Z;
  hour : Z; minute : Z; second : Z
}.

(** [Timestamp.isoformat()] *)
Definition isoformat (t : Timestamp) : string :=
  zfill 4 (year t) ++ "-" ++ zfill 2 (month t) ++ "-" ++ zfill 2 (day t)
  ++ "T" ++ zfill 2 (hour t) ++ ":" ++ zfill 2 (minute t) ++ ":" ++ zfill 2 (second t).

(** Chronological order, as a single number of seconds (months and days
    weighted so that the order is the lexicographic one on valid dates). *)
Definition ts_key (t : Timestamp) : Z :=
  (((((year t * 12 + (month t - 1)) * 31 + (day t - 1)) * 24 + hour t) * 60
    + minute t) * 60 + second t)%Z.

Definition ts_leb (a b : Timestamp) : bool := (ts_key a <=? ts_key b)%Z.

(** A [Period] of frequency ['M'] is its ordinal: months since 1970-01. *)
Definition Period := Z.

(** [.dt.to_period('M')] *)
Definition to_period_M (t : Timestamp) : Period :=
  ((year t - 1970) * 12 + (month t - 1))%Z.

(** [str(period)], e.g. ["2024-03"] *)
Definition str_period (p : Period) : string :=
  zfill 4 (1970 + p / 12)%Z ++ "-" ++ zfill 2 (p mod 12 + 1)%Z.

(** A record with the four fields of the request's [Transaction]; the type of
    the date column changes from [str] to [Timestamp] under [pd.to_datetime]. *)
Record TransactionOf (D : Type) := {
  amount : R;
  date : D;
  category : string;
  type : string
}.
Arguments amount {D} _.
Arguments date {D} _.
Arguments category {D} _.
Arguments type {D} _.

Definition Transaction := TransactionOf string.
Definition Row := TransactionOf Timestamp.
Definition DataFrame := list Row.

Record TransactionData := { transactions : list Transaction }.

(** Stable insertion sort: [sort_values] keeps the input order of rows with
    equal keys. *)
Fixpoint insert_by {A} (leb : A -> A -> bool) (x : A) (l : list A) : list A :=
  match l with
  | [] => [x]
  | y :: l' => if leb x y then x :: l else y :: insert_by leb x l'
  end.

Definition sort_by {A} (leb : A -> A -> bool) (l : list A) : list A :=
  fold_right (insert_by leb) [] l.

(** [df.sort_values('date')] *)
Definition sort_values_date (df : DataFrame) : DataFrame :=
  sort_by (fun a b => ts_leb (date a) (date b)) df.

(** [Series.unique()]: distinct values in order of first appearance. *)
Fixpoint unique {A} (eqb : A -> A -> bool) (l : list A) : list A :=
  match l with
  | [] => []
  | x :: l' => x :: filter (fun y => negb (eqb y x)) (unique eqb l')
  end.

(** The month column added by [df['month'] = df['date'].dt.to_period('M')]. *)
Definition row_month (r : Row) : Period := to_period_M (date r).

(** [df[df['type'] == kind]] *)
Definition of_type (kind : string) (df : DataFrame) : DataFrame :=
  filter (fun r => type r =? kind) df.

(** [df.groupby('month')['amount'].sum().reset_index()]: one row per distinct
    month, months ascending, each with the sum of its rows' amounts. *)
Definition groupby_month_sum (df : DataFrame) : list (Period * R) :=
  map (fun m => (m, np.sum (map amount (filter (fun r => (row_month r =? m)%Z) df))))
      (sort_by Z.leb (unique Z.eqb (map row_month df))).

(** [df.groupby('category')['amount'].mean()]: one entry per distinct
    category, categories ascending, each with the mean of its rows' amounts. *)
Definition groupby_category_mean (df : DataFrame) : list (string * R) :=
  map (fun c => (c, np.mean (map amount (filter (fun r => category r =? c) df))))
      (sort_by String.leb (unique String.eqb (map category df))).

(** [series.tail(n)] *)
Definition tail {A} (n : nat) (l : list A) : list A :=
  skipn (List.length l - n) l.

(** [series.max()] on a column of months with at least one entry. *)
Definition period_max (months : list Period) : Period :=
  match months with
  | [] => 0%Z
  | m :: ms => fold_left Z.max ms m
  end.

(** [df['month'].max()] *)
Definition month_max (df : DataFrame) : Period := period_max (map row_month df).

(** ** The process state and the handler monad *)

Inductive Exception :=
| HTTPException (status_code : Z) (detail : string)
| ValueError (msg : string)
| IndexError (msg : string).

(** [str(e)]; for [HTTPException] this is Starlette's ["{status_code}: {detail}"]. *)
Definition str_exc (e : Exception) : string :=
  match e with
  | HTTPException c d => str_Z c ++ ": " ++ d
  | ValueError m => m
  | IndexError m => m
  end.

Inductive RuntimeWarning := DivideByZero.
Inductive LogLevel := INFO | ERROR.

(** What a handler can read or change besides its argument: the draws numpy's
    global generator will return next (as standard normal samples), the
    warnings emitted so far and the log. *)
Record World := {
  random_state : nat -> R;
  warned : list RuntimeWarning;
  logged : list (LogLevel * string)
}.

Inductive Outcome (A : Type) :=
| Return (a : A)
| Raised (e : Exception).
Arguments Return {A} _.
Arguments Raised {A} _.

Definition Run (A : Type) : Type := World -> Outcome A * World.

Definition ret {A} (a : A) : Run A := fun w => (Return a, w).

Definition bind {A B} (c : Run A) (k : A -> Run B) : Run B :=
  fun w =>
    match c w with
    | (Return a, w') => k a w'
    | (Raised e, w') => (Raised e, w')
    end.

Definition raise {A} (e : Exception) : Run A := fun w => (Raised e, w).

(** [try: body except Exception as e: handler(e)] *)
Definition try_except {A} (body : Run A) (handler : Exception -> Run A) : Run A :=
  fun w =>
    match body w with
    | (Return a, w') => (Return a, w')
    | (Raised e, w') => handler e w'
    end.

Declare Scope run_scope.
Delimit Scope run_scope with run.
Notation "x <- c ;; k" := (bind c (fun x => k))
  (at level 61, c at next level, right associativity) : run_scope.
Notation "c ;; k" := (bind c (fun _ => k))
  (at level 61, right associativity) : run_scope.

Local Open Scope run_scope.

Definition logger (lvl : LogLevel) (msg : string) : Run unit :=
  fun w => (Return tt,
            {| random_state := random_state w;
               warned := warned w;
               logged := logged w ++ [(lvl, msg)] |}).

Definition warn (x : RuntimeWarning) : Run unit :=
  fun w => (Return tt,
            {| random_state := random_state w;
               warned := warned w ++ [x];
               logged := logged w |}).

(** [np.random.normal(loc, scale)]: consumes one draw of the global generator. *)
Definition np_random_normal (loc scale : R) : Run R :=
  fun w => (Return (loc + scale * random_state w O)%R,
            {| random_state := fun n => random_state w (S n);
               warned := warned w;
               logged := logged w |}).

(** [a / d] on an array: numpy does not raise on a zero divisor, it warns. *)
Definition np_divide (a : list R) (d : R) : Run (list R) :=
  (if Req_dec_T d 0 then warn DivideByZero else ret tt) ;;
  ret (map (fun x => (x / d)%R) a).

(** [df.iloc[idx]] *)
Definition iloc (df : DataFrame) (idx : nat) : Run Row :=
  match nth_error df idx with
  | Some r => ret r
  | None => raise (IndexError "single positional indexer is out-of-bounds")
  end.

(** ** Response models *)

(** The entries of [PredictionResponse.predictions]: the summary written by
    [train_spending_model], or one projected month of [predict_expenses]. *)
Inductive Prediction :=
| SpendingSummary (average_monthly_spending recent_trend prediction_confidence : R)
| MonthProjection (month_label : string) (total_predicted_expenses : R)
                  (by_category : list (string * R)).

Record PredictionResponse := {
  predictions : list Prediction;
  model_accuracy : option R;
  prediction_message : string
}.

Inductive Severity := high | medium.

Record Anomaly := {
  anomaly_date : string;
  anomaly_amount : R;
  anomaly_category : string;
  z_score : R;
  expected_min : R;
  expected_max : R;
  severity : Severity
}.

Record AnomalyResponse := {
  anomalies : list Anomaly;
  total_anomalies : nat;
  anomaly_message : string
}.

Record ForecastPoint := {
  forecast_month : string;
  predicted_income : R;
  confidence_lower : R;
  confidence_upper : R
}.

Record ForecastResponse := {
  forecast : list ForecastPoint;
  confidence_interval : option (list (string * list R));
  forecast_message : string
}.

(** ** The endpoints *)

Section Endpoints.

(** [pd.to_datetime] on the date column.  pandas reads the column as a
    whole (from pandas 2.0 it settles on one format from the first row and
    reads every row with it), so the parser is taken on the list of the
    column's strings: it gives the text of the exception pandas raises, or
    one timestamp per row.  The parser is pandas' own and is left open here. *)
Variable to_datetime : list string -> string + list Timestamp.

(** [df['date'] = ...]: the rows with the parsed column in the place of
    their date strings. *)
Definition set_dates (ts : list Transaction) (ds : list Timestamp) : DataFrame :=
  map (fun td => {| amount := amount (fst td); date := snd td;
                    category := category (fst td); type := type (fst td) |})
      (combine ts ds).

(** [df = pd.DataFrame([t.dict() for t in data.transactions])] followed by
    [df['date'] = pd.to_datetime(df['date'])]: the whole column is parsed,
    whatever the rows' types, before any row is selected. *)
Definition parse_dates (ts : list Transaction) : string + DataFrame :=
  match to_datetime (map date ts) with
  | inl msg => inl msg
  | inr ds => inr (set_dates ts ds)
  end.

Definition load_frame (ts : list Transaction) : Run DataFrame :=
  match parse_dates ts with
  | inl msg => raise (ValueError msg)
  | inr df => ret df
  end.

(** [if not data.transactions: raise HTTPException(status_code=400, ...)] *)
Definition require_transactions (data : TransactionData) : Run unit :=
  match transactions data with
  | [] => raise (HTTPException 400 "No transaction data provided")
  | _ :: _ => ret tt
  end.

(** [except Exception as e: logger.error(...); raise HTTPException(500, str(e))] *)
Definition server_error {A} (what : string) (e : Exception) : Run A :=
  logger ERROR (what ++ str_exc e) ;;
  raise (HTTPException 500 (str_exc e)).

(** *** POST /api/ml/train-spending-model *)

Definition train_spending_model (data : TransactionData) : Run PredictionResponse :=
  try_except
    (require_transactions data ;;
     df <- load_frame (transactions data) ;;
     let df := sort_values_date (of_type "expense" df) in
     if (List.length df <? 3)%nat then
       ret {| predictions := [];
              model_accuracy := None;
              prediction_message :=
                "Insufficient data for training. Need at least 3 transactions." |}
     else
       let monthly_spending := groupby_month_sum df in
       if (List.length monthly_spending <? 2)%nat then
         ret {| predictions := [];
                model_accuracy := None;
                prediction_message := "Need at least 2 months of data for training" |}
       else
         let avg_spending := np.mean (map snd monthly_spending) in
         let recent_trend := np.mean (tail 3 (map snd monthly_spending)) in
         let predictions := [SpendingSummary avg_spending recent_trend (75 / 100)%R] in
         logger INFO ("Model trained with " ++ str_nat (List.length df) ++ " transactions") ;;
         ret {| predictions := predictions;
                model_accuracy := Some (75 / 100)%R;
                prediction_message := "Model trained successfully" |})
    (server_error "Error training model: ").

(** *** POST /api/ml/predict-expenses

    The handler also builds [monthly_by_category] (sums by month and
    category) and never reads it; it is left out. *)

(** [month_predictions[category] = predicted_amount] on a dict kept as an
    association list in insertion order. *)
Fixpoint dict_set (d : list (string * R)) (k : string) (v : R) : list (string * R) :=
  match d with
  | [] => [(k, v)]
  | (k', v') :: d' => if k' =? k then (k, v) :: d' else (k', v') :: dict_set d' k v
  end.

(** The inner loop [for category, avg_amount in category_avg.items()],
    carrying [month_predictions] and [total]. *)
Fixpoint project_categories (items : list (string * R))
         (month_predictions : list (string * R)) (total : R)
  : Run (list (string * R) * R) :=
  match items with
  | [] => ret (month_predictions, total)
  | (category, avg_amount) :: items' =>
      eps <- np_random_normal 0 (1 / 10) ;;
      let predicted_amount := (avg_amount * (1 + eps))%R in
      project_categories items'
        (dict_set month_predictions category predicted_amount)
        (total + predicted_amount)%R
  end.

(** One turn of [for i in range(1, 4)]. *)
Definition project_month (category_avg : list (string * R)) (last_month : Period)
           (i : Z) : Run Prediction :=
  let next_month := (last_month + i)%Z in
  mt <- project_categories category_avg [] 0%R ;;
  ret (MonthProjection (str_period next_month)
         (round2 (snd mt))
         (map (fun kv => (fst kv, round2 (snd kv))) (fst mt))).

Fixpoint for_each {A B} (f : A -> Run B) (l : list A) : Run (list B) :=
  match l with
  | [] => ret []
  | a :: l' => b <- f a ;; bs <- for_each f l' ;; ret (b :: bs)
  end.

Definition predict_expenses (data : TransactionData) : Run PredictionResponse :=
  try_except
    (require_transactions data ;;
     df <- load_frame (transactions data) ;;
     let df := sort_values_date (of_type "expense" df) in
     if (List.length df <? 3)%nat then
       ret {| predictions := [];
              model_accuracy := None;
              prediction_message :=
                "Insufficient data for predictions. Need at least 3 transactions." |}
     else
       let category_avg := groupby_category_mean df in
       let last_month := month_max df in
       predictions <- for_each (project_month category_avg last_month) [1; 2; 3]%Z ;;
       logger INFO ("Generated predictions for "
                    ++ str_nat (List.length predictions) ++ " months") ;;
       ret {| predictions := predictions;
              model_accuracy := Some (80 / 100)%R;
              prediction_message := "Predictions generated successfully" |})
    (server_error "Error predicting expenses: ").

(** *** POST /api/ml/detect-anomalies *)

(** [enumerate(l)] *)
Definition enumerate {A} (l : list A) : list (nat * A) :=
  combine (seq 0 (List.length l)) l.

(** The innermost loop [for idx, z_score in enumerate(z_scores)]. *)
Fixpoint flag_outliers (category_df : DataFrame) (mean std : R)
         (zs : list (nat * R)) (anomalies : list Anomaly) : Run (list Anomaly) :=
  match zs with
  | [] => ret anomalies
  | (idx, z) :: zs' =>
      if Rgt_dec z 2 then
        transaction <- iloc category_df idx ;;
        flag_outliers category_df mean std zs'
          (anomalies ++
             [{| anomaly_date := isoformat (date transaction);
                 anomaly_amount := amount transaction;
                 anomaly_category := category transaction;
                 z_score := z;
                 expected_min := (mean - 2 * std)%R;
                 expected_max := (mean + 2 * std)%R;
                 severity := if Rgt_dec z 3 then high else medium |}])
      else flag_outliers category_df mean std zs' anomalies
  end.

(** The body of [for category in df['category'].unique()]. *)
Definition scan_category (df : DataFrame) (category_ : string)
           (anomalies : list Anomaly) : Run (list Anomaly) :=
  let category_df := filter (fun r => category r =? category_) df in
  if (List.length category_df <? 3)%nat then ret anomalies
  else
    let amounts := map amount category_df in
    let mean := np.mean amounts in
    let std := np.std amounts in
    if Req_dec_T std 0 then ret anomalies
    else
      q <- np_divide (map (fun a => (a - mean)%R) amounts) std ;;
      let z_scores := map Rabs q in
      flag_outliers category_df mean std (enumerate z_scores) anomalies.

Fixpoint scan_categories (df : DataFrame) (cats : list string)
         (anomalies : list Anomaly) : Run (list Anomaly) :=
  match cats with
  | [] => ret anomalies
  | c :: cats' =>
      anomalies' <- scan_category df c anomalies ;;
      scan_categories df cats' anomalies'
  end.

Definition detect_anomalies (data : TransactionData) : Run AnomalyResponse :=
  try_except
    (require_transactions data ;;
     df <- load_frame (transactions data) ;;
     let df := sort_values_date (of_type "expense" df) in
     if (List.length df <? 5)%nat then
       ret {| anomalies := [];
              total_anomalies := 0;
              anomaly_message := "Need at least 5 transactions for anomaly detection" |}
     else
       anomalies <- scan_categories df (unique String.eqb (map category df)) [] ;;
       logger INFO ("Detected " ++ str_nat (List.length anomalies) ++ " anomalies") ;;
       ret {| anomalies := anomalies;
              total_anomalies := List.length anomalies;
              anomaly_message :=
                "Detected " ++ str_nat (List.length anomalies)
                ++ " anomalous transactions" |})
    (server_error "Error detecting anomalies: ").

(** *** POST /api/ml/forecast-income *)

(** One turn of [for i in range(1, 4)]. *)
Definition forecast_point (avg_income trend : R) (n : nat) (last_month : Period)
           (i : Z) : ForecastPoint :=
  let next_month := (last_month + i)%Z in
  let predicted_income := (avg_income + trend * (INR n + IZR i))%R in
  let confidence_margin := (avg_income * (1 / 10))%R in
  {| forecast_month := str_period next_month;
     predicted_income := round2 predicted_income;
     confidence_lower := round2 (predicted_income - confidence_margin);
     confidence_upper := round2 (predicted_income + confidence_margin) |}.

Definition forecast_income (data : TransactionData) : Run ForecastResponse :=
  try_except
    (require_transactions data ;;
     df <- load_frame (transactions data) ;;
     let df := sort_values_date (of_type "income" df) in
     if (List.length df <? 3)%nat then
       ret {| forecast := [];
              confidence_interval := None;
              forecast_message :=
                "Insufficient income data for forecasting. Need at least 3 income transactions." |}
     else
       let monthly_income := groupby_month_sum df in
       if (List.length monthly_income <? 2)%nat then
         ret {| forecast := [];
                confidence_interval := None;
                forecast_message := "Need at least 2 months of income data" |}
       else
         let incomes := map snd monthly_income in
         let avg_income := np.mean incomes in
         let x := np.arange (List.length incomes) in
         let trend := fst (np.polyfit1 x incomes) in
         let last_month := period_max (map fst monthly_income) in
         let forecast :=
           map (forecast_point avg_income trend (List.length incomes) last_month)
               [1; 2; 3]%Z in
         logger INFO ("Generated income forecast for "
                      ++ str_nat (List.length forecast) ++ " months") ;;
         ret {| forecast := forecast;
                confidence_interval := None;
                forecast_message := "Income forecast generated successfully" |})
    (server_error "Error forecasting income: ").

End Endpoints.

(** ** A date parser for running the endpoints: ISO dates ["YYYY-MM-DD"] *)

Definition digit (c : ascii) : option Z :=
  let n := nat_of_ascii c in
  if ((48 <=? n) && (n <=? 57))%nat then Some (Z.of_nat (n - 48)) else None.

Fixpoint number (cs : list ascii) (acc : Z) : option Z :=
  match cs with
  | [] => Some acc
  | c :: cs' =>
      match digit c with
      | Some d => number cs' (acc * 10 + d)%Z
      | None => None
      end
  end.

Definition iso_date (s : string) : option Timestamp :=
  match list_ascii_of_string s with
  | [y1; y2; y3; y4; "-"%char; m1; m2; "-"%char; d1; d2] =>
      match number [y1; y2; y3; y4] 0, number [m1; m2] 0, number [d1; d2] 0 with
      | Some y, Some m, Some d =>
          if ((1 <=? m) && (m <=? 12) && (1 <=? d) && (d <=? 31))%Z
          then Some {| year := y; month := m; day := d;
                       hour := 0; minute := 0; second := 0 |}
          else None
      | _, _, _ => None
      end
  | _ => None
  end.

(** A [pd.to_datetime] that reads every string of the column on its own, as
    pandas does on a column whose strings all have one format: the first
    string that does not parse is reported. *)
Fixpoint each (parse : string -> option Timestamp) (col : list string)
  : string + list Timestamp :=
  match col with
  | [] => inr []
  | s :: col' =>
      match parse s with
      | None => inl ("Unknown datetime string format, unable to parse: " ++ s)%string
      | Some d =>
          match each parse col' with
          | inl msg => inl msg
          | inr ds => inr (d :: ds)
          end
      end
  end.

Definition iso_dates : list string -> string + list Timestamp := each iso_date.

Definition tx (a : R) (d c k : string) : Transaction :=
  {| amount := a; date := d; category := c; type := k |}.

(** A world in which every draw of the generator is 0. *)
Definition quiet_world : World :=
  {| random_state := fun _ => 0%R; warned := []; logged := [] |}.

(** ** The quantities the specification speaks of *)

(** The plain sum and arithmetic mean of a list of numbers. *)
Definition Rsum (l : list R) : R := fold_right Rplus 0%R l.

Definition arith_mean (l : list R) : R := (Rsum l / INR (List.length l))%R.

(** Population standard deviation: the root of the mean squared deviation. *)
Definition pop_std (l : list R) : R :=
  sqrt (Rsum (map (fun x => ((x - arith_mean l) * (x - arith_mean l))%R) l)
        / INR (List.length l)).

(** The last [n] elements, or all of them when there are fewer. *)
Definition last_n {A} (n : nat) (l : list A) : list A := rev (firstn n (rev l)).

(** Sum of the amounts of the rows that fall in month [m]. *)
Definition month_total (rows : DataFrame) (m : Period) : R :=
  Rsum (map amount (filter (fun r => (row_month r =? m)%Z) rows)).

(** The amounts of the rows of one category. *)
Definition category_amounts (rows : DataFrame) (c : string) : list R :=
  map amount (filter (fun r => category r =? c) rows).

(** Slope of the ordinary-least-squares line through the points
    [(0, y0), (1, y1), ...]: covariance over variance. *)
Definition indices (n : nat) : list R := map INR (seq 0 n).

Definition ols_slope (ys : list R) : R :=
  let xs := indices (List.length ys) in
  let xbar := arith_mean xs in
  let ybar := arith_mean ys in
  (Rsum (map (fun p => ((fst p - xbar) * (snd p - ybar))%R) (combine xs ys))
   / Rsum (map (fun x => ((x - xbar) * (x - xbar))%R) xs))%R.

(** Squared error of the line [a * x + b] on the points [(x_i, y_i)]. *)
Definition squared_error (a b : R) (xs ys : list R) : R :=
  Rsum (map (fun p => ((snd p - (a * fst p + b)) * (snd p - (a * fst p + b)))%R)
            (combine xs ys)).

(** The z-score of an amount within a list of amounts. *)
Definition z_of (amounts : list R) (a : R) : R :=
  (Rabs (a - arith_mean amounts) / pop_std amounts)%R.

(** The world after [n] draws of the generator. *)
Definition after_draws (n : nat) (w : World) : World :=
  {| random_state := fun k => random_state w (n + k);
     warned := warned w;
     logged := logged w |}.

(** Projected amounts before rounding: each category's mean times one plus
    its own noise term, the noise terms being a tenth of successive draws. *)
Fixpoint perturbed (draws : nat -> R) (means : list (string * R)) : list (string * R) :=
  match means with
  | [] => []
  | (c, avg) :: means' =>
      (c, (avg * (1 + (0 + 1 / 10 * draws O)))%R)
        :: perturbed (fun k => draws (S k)) means'
  end.

(** A projected month as reported: the total and the per-category amounts,
    each rounded to cents on its own. *)
Definition reported (label : string) (amounts : list (string * R)) : Prediction :=
  MonthProjection label
    (round2 (Rsum (map snd amounts)))
    (map (fun kv => (fst kv, round2 (snd kv))) amounts).

(** The anomaly record of a row, given the amounts of its category. *)
Definition anomaly_of (amounts : list R) (t : Row) : Anomaly :=
  let z := z_of amounts (amount t) in
  {| anomaly_date := isoformat (date t);
     anomaly_amount := amount t;
     anomaly_category := category t;
     z_score := z;
     expected_min := (arith_mean amounts - 2 * pop_std amounts)%R;
     expected_max := (arith_mean amounts + 2 * pop_std amounts)%R;
     severity := if Rgt_dec z 3 then high else medium |}.

(** A row is an outlier of its category when the category has at least 3
    rows, a nonzero population standard deviation, and the row's z-score
    exceeds 2. *)
Definition outlier (rows : DataFrame) (t : Row) : Prop :=
  let amounts := category_amounts rows (category t) in
  In t rows /\ (3 <= List.length amounts)%nat /\ pop_std amounts <> 0%R
  /\ (z_of amounts (amount t) > 2)%R.

(** The rows of category [c] for which detect-anomalies adds a record, in
    the order of [df], and their records. *)
Definition flagged_rows (df : DataFrame) (c : string) : DataFrame :=
  let amounts := category_amounts df c in
  if (List.length amounts <? 3)%nat then []
  else if Req_dec_T (pop_std amounts) 0 then []
  else filter (fun t => if Rgt_dec (z_of amounts (amount t)) 2 then true else false)
              (filter (fun r => category r =? c) df).

Definition category_records (df : DataFrame) (c : string) : list Anomaly :=
  map (anomaly_of (category_amounts df c)) (flagged_rows df c).

(** [pd.to_datetime] accepts the date column of the request. *)
Definition all_dates_parse (to_datetime : list string -> string + list Timestamp)
           (ts : list Transaction) : bool :=
  match to_datetime (map date ts) with
  | inl _ => false
  | inr _ => true
  end.

(** A handler's outcome is an exception. *)
Definition raised {A} (o : Outcome A) : Prop :=
  match o with
  | Return _ => False
  | Raised _ => True
  end.

(** ** Sample requests *)

(** Three expenses over two months and one salary. *)
Definition household : TransactionData :=
  {| transactions :=
       [tx 100 "2024-01-05" "food" "expense";
        tx 50 "2024-02-07" "rent" "expense";
        tx 30 "2024-01-09" "food" "expense";
        tx 1000 "2024-01-01" "salary" "income"] |}.

(** The same expenses, without the salary. *)
Definition household_expenses : TransactionData :=
  {| transactions :=
       [tx 100 "2024-01-05" "food" "expense";
        tx 50 "2024-02-07" "rent" "expense";
        tx 30 "2024-01-09" "food" "expense"] |}.

(** The household's transactions followed by one that is neither an expense
    nor an income. *)
Definition household_and_transfer : TransactionData :=
  {| transactions :=
       transactions household ++ [tx 5 "2024-03-01" "savings" "transfer"] |}.

(** One expense, alone and next to a salary whose date is not a date. *)
Definition lone_expense : TransactionData :=
  {| transactions := [tx 12 "2024-01-05" "food" "expense"] |}.

Definition lone_expense_undated_salary : TransactionData :=
  {| transactions :=
       [tx 12 "2024-01-05" "food" "expense";
        tx 1000 "not-a-date" "salary" "income"] |}.

(** The household's transactions sent in the opposite order. *)
Definition household_reversed : TransactionData :=
  {| transactions := rev (transactions household) |}.

(** Six grocery bills, one of them ten times the others. *)
Definition groceries : TransactionData :=
  {| transactions :=
       [tx 10 "2024-01-01" "food" "expense";
        tx 10 "2024-01-02" "food" "expense";
        tx 10 "2024-01-03" "food" "expense";
        tx 10 "2024-01-04" "food" "expense";
        tx 10 "2024-01-05" "food" "expense";
        tx 100 "2024-01-06" "food" "expense"] |}.

(** Six rents of the same amount. *)
Definition rents : TransactionData :=
  {| transactions :=
       [tx 500 "2024-01-01" "rent" "expense";
        tx 500 "2024-02-01" "rent" "expense";
        tx 500 "2024-03-01" "rent" "expense";
        tx 500 "2024-04-01" "rent" "expense";
        tx 500 "2024-05-01" "rent" "expense";
        tx 500 "2024-06-01" "rent" "expense"] |}.

(** Monthly incomes 100, 200, 300. *)
Definition steady_income : TransactionData :=
  {| transactions :=
       [tx 100 "2024-01-15" "salary" "income";
        tx 200 "2024-02-15" "salary" "income";
        tx 300 "2024-03-15" "salary" "income"] |}.

(** Three expenses of less than half a cent each. *)
Definition small_amounts : TransactionData :=
  {| transactions :=
       [tx (4 / 1000) "2024-01-05" "a" "expense";
        tx (4 / 1000) "2024-01-06" "b" "expense";
        tx (4 / 1000) "2024-01-07" "c" "expense"] |}.

(** Monthly incomes 1, 2, 2. *)
Definition rising_income : TransactionData :=
  {| transactions :=
       [tx 1 "2024-01-15" "salary" "income";
        tx 2 "2024-02-15" "salary" "income";
        tx 2 "2024-03-15" "salary" "income"] |}.

Definition on_day (a : R) (y m d : Z) (c k : string) : Row :=
  {| amount := a;
     date := {| year := y; month := m; day := d;
                hour := 0; minute := 0; second := 0 |};
     category := c; type := k |}.

(** The frames these requests parse to. *)
Definition household_frame : DataFrame :=
  [on_day 100 2024 1 5 "food" "expense";
   on_day 50 2024 2 7 "rent" "expense";
   on_day 30 2024 1 9 "food" "expense";
   on_day 1000 2024 1 1 "salary" "income"].

Definition household_and_transfer_frame : DataFrame :=
  household_frame ++ [on_day 5 2024 3 1 "savings" "transfer"].

Definition household_expenses_frame : DataFrame :=
  [on_day 100 2024 1 5 "food" "expense";
   on_day 50 2024 2 7 "rent" "expense";
   on_day 30 2024 1 9 "food" "expense"].

Definition groceries_frame : DataFrame :=
  [on_day 10 2024 1 1 "food" "expense";
   on_day 10 2024 1 2 "food" "expense";
   on_day 10 2024 1 3 "food" "expense";
   on_day 10 2024 1 4 "food" "expense";
   on_day 10 2024 1 5 "food" "expense";
   on_day 100 2024 1 6 "food" "expense"].

Definition rising_income_frame : DataFrame :=
  [on_day 1 2024 1 15 "salary" "income";
   on_day 2 2024 2 15 "salary" "income";
   on_day 2 2024 3 15 "salary" "income"].

Definition rents_frame : DataFrame :=
  [on_day 500 2024 1 1 "rent" "expense";
   on_day 500 2024 2 1 "rent" "expense";
   on_day 500 2024 3 1 "rent" "expense";
   on_day 500 2024 4 1 "rent" "expense";
   on_day 500 2024 5 1 "rent" "expense";
   on_day 500 2024 6 1 "rent" "expense"].

Definition steady_income_frame : DataFrame :=
  [on_day 100 2024 1 15 "salary" "income";
   on_day 200 2024 2 15 "salary" "income";
   on_day 300 2024 3 15 "salary" "income"].

Definition lone_expense_frame : DataFrame :=
  [on_day 12 2024 1 5 "food" "expense"].

(** * Properties *)

(** ** Lists: sorting, distinct values, filters *)

Section ListFacts.

Context {A : Type}.

Lemma insert_by_perm (leb : A -> A -> bool) (x : A) (l : list A) :
  Permutation (insert_by leb x l) (x :: l).
Proof.
  induction l as [|y l IH]; simpl.
  - apply Permutation_refl.
  - destruct (leb x y).
    + apply Permutation_refl.
    + apply perm_trans with (y :: x :: l).
      * now apply perm_skip.
      * apply perm_swap.
Qed.

Lemma sort_by_perm (leb : A -> A -> bool) (l : list A) :
  Permutation (sort_by leb l) l.
Proof.
  induction l as [|x l IH]; simpl.
  - apply perm_nil.
  - eapply perm_trans; [apply insert_by_perm|]. now apply perm_skip.
Qed.

Lemma sort_by_length (leb : A -> A -> bool) (l : list A) :
  List.length (sort_by leb l) = List.length l.
Proof. apply Permutation_length, sort_by_perm. Qed.

Lemma sort_by_In (leb : A -> A -> bool) (l : list A) (x : A) :
  In x (sort_by leb l) <-> In x l.
Proof.
  split; apply Permutation_in;
    [apply sort_by_perm | apply Permutation_sym, sort_by_perm].
Qed.

Lemma filter_perm (f : A -> bool) (l l' : list A) :
  Permutation l l' -> Permutation (filter f l) (filter f l').
Proof.
  induction 1 as [| x l l' _ IH | x y l | l l' l'' _ IH1 _ IH2]; simpl.
  - apply perm_nil.
  - destruct (f x); [now apply perm_skip | exact IH].
  - destruct (f x), (f y);
      solve [apply perm_swap | apply Permutation_refl].
  - now apply perm_trans with (filter f l').
Qed.

Variable eqb : A -> A -> bool.
Hypothesis eqb_eq : forall x y, eqb x y = true <-> x = y.

Lemma unique_In (l : list A) (x : A) : In x (unique eqb l) <-> In x l.
Proof.
  induction l as [|y l IH]; simpl; [tauto|].
  rewrite filter_In, IH. split.
  - intros [H | [H _]]; auto.
  - intros [H | H]; auto.
    destruct (eqb x y) eqn:E.
    + left. symmetry. now apply eqb_eq.
    + right. split; [exact H | reflexivity].
Qed.

Lemma unique_NoDup (l : list A) : NoDup (unique eqb l).
Proof.
  induction l as [|y l IH]; simpl; constructor.
  - rewrite filter_In. intros [_ H].
    assert (E : eqb y y = true) by now apply eqb_eq.
    rewrite E in H. discriminate.
  - now apply NoDup_filter.
Qed.

(** Two different values in a list leave at least two distinct ones. *)
Lemma unique_two (l : list A) (a b : A) :
  In a l -> In b l -> a <> b -> (2 <= List.length (unique eqb l))%nat.
Proof.
  intros Ha Hb Hab.
  apply unique_In in Ha. apply unique_In in Hb.
  pose proof (unique_NoDup l) as Hnd.
  destruct (unique eqb l) as [|x [|y u]]; simpl in *.
  - contradiction.
  - destruct Ha as [<-|[]], Hb as [<-|[]]. now elim Hab.
  - lia.
Qed.

Lemma tail_last_n (n : nat) (l : list A) : tail n l = last_n n l.
Proof.
  unfold tail, last_n. rewrite firstn_rev, rev_involutive. reflexivity.
Qed.

End ListFacts.

(** Sorting distinct integers gives a strictly increasing list. *)
Lemma insert_Z_sorted (x : Z) (l : list Z) :
  StronglySorted Z.lt l -> ~ In x l -> StronglySorted Z.lt (insert_by Z.leb x l).
Proof.
  induction 1 as [|y l Hs IH Hy]; intros Hx; simpl.
  - repeat constructor.
  - destruct (Z.leb_spec x y) as [Hle|Hlt].
    + assert (x < y)%Z by (simpl in Hx; lia).
      constructor; [now constructor|].
      constructor; [assumption|].
      eapply Forall_impl; [|exact Hy]. simpl. intros; lia.
    + constructor.
      * apply IH. simpl in Hx. tauto.
      * rewrite Forall_forall in *. intros z Hz.
        apply (Permutation_in _ (insert_by_perm Z.leb x l)) in Hz.
        destruct Hz as [<-|Hz]; [lia | now apply Hy].
  Qed.

Lemma sort_Z_sorted (l : list Z) :
  NoDup l -> StronglySorted Z.lt (sort_by Z.leb l).
Proof.
  induction 1 as [|x l Hx _ IH]; simpl.
  - constructor.
  - apply insert_Z_sorted; [exact IH|]. now rewrite sort_by_In.
Qed.

(** ** Numbers: sums, means, deviations, rounding *)

Section Numbers.

Local Open Scope R_scope.

Lemma fold_left_Rplus (l : list R) (a : R) : fold_left Rplus l a = a + Rsum l.
Proof.
  revert a. induction l as [|x l IH]; intros a; simpl.
  - lra.
  - rewrite IH. lra.
Qed.

Lemma np_sum_Rsum (l : list R) : np.sum l = Rsum l.
Proof. unfold np.sum. rewrite fold_left_Rplus. lra. Qed.

Lemma np_mean_arith (l : list R) : np.mean l = arith_mean l.
Proof. unfold np.mean, arith_mean. now rewrite np_sum_Rsum. Qed.

Lemma np_std_pop (l : list R) : np.std l = pop_std l.
Proof.
  unfold np.std, pop_std. rewrite !np_mean_arith. unfold arith_mean at 1.
  rewrite length_map. do 3 f_equal.
  apply map_ext. intros x. rewrite <- Rsqr_abs. reflexivity.
Qed.

Lemma Rsum_perm (l l' : list R) : Permutation l l' -> Rsum l = Rsum l'.
Proof. induction 1; simpl; lra. Qed.

Lemma arith_mean_perm (l l' : list R) :
  Permutation l l' -> arith_mean l = arith_mean l'.
Proof.
  intros H. unfold arith_mean.
  now rewrite (Rsum_perm _ _ H), (Permutation_length H).
Qed.

Lemma pop_std_perm (l l' : list R) :
  Permutation l l' -> pop_std l = pop_std l'.
Proof.
  intros H. unfold pop_std.
  rewrite (arith_mean_perm _ _ H), (Permutation_length H).
  do 2 f_equal. apply Rsum_perm. now apply Permutation_map.
Qed.

Lemma Rsum_nonneg (l : list R) : Forall (fun x => 0 <= x) l -> 0 <= Rsum l.
Proof. induction 1; simpl; lra. Qed.

Lemma pop_std_nonneg (l : list R) : 0 <= pop_std l.
Proof. apply sqrt_pos. Qed.

(** The code takes [|(a - mean) / std|]; with a positive [std] that is the
    z-score [|a - mean| / std]. *)
Lemma abs_quotient (x s : R) : 0 <= s -> s <> 0 -> Rabs (x / s) = Rabs x / s.
Proof.
  intros Hs Hs0. unfold Rdiv. rewrite Rabs_mult.
  rewrite (Rabs_pos_eq (/ s)); [reflexivity|].
  left. apply Rinv_0_lt_compat. lra.
Qed.

(** [round_half_even] away from ties: the nearest integer. *)
Lemma round_half_even_near (x : R) (z : Z) :
  IZR z - 1 / 2 < x < IZR z + 1 / 2 -> round_half_even x = z.
Proof.
  intros [Hlo Hhi]. unfold round_half_even.
  pose proof (Zfloor_bound x) as [Hf1 Hf2].
  destruct (Rlt_dec (x - IZR (Zfloor x)) (1 / 2)) as [Hd|Hd].
  - apply Z.le_antisymm.
    + apply Z.lt_succ_r. apply lt_IZR. rewrite succ_IZR. lra.
    + apply Z.lt_succ_r. apply lt_IZR. rewrite succ_IZR. lra.
  - assert (Hz : (Zfloor x + 1 = z)%Z).
    { apply Z.le_antisymm.
      - apply Z.lt_succ_r. apply lt_IZR. rewrite succ_IZR, plus_IZR. lra.
      - apply Z.lt_succ_r. apply lt_IZR. rewrite succ_IZR, plus_IZR. lra. }
    destruct (Rlt_dec (1 / 2) (x - IZR (Zfloor x))) as [Hd'|Hd'].
    + exact Hz.
    + exfalso. rewrite <- Hz, plus_IZR in Hlo. lra.
Qed.

Lemma round2_near (x : R) (z : Z) :
  IZR z - 1 / 2 < x * 100 < IZR z + 1 / 2 -> round2 x = IZR z / 100.
Proof. intros H. unfold round2. now rewrite (round_half_even_near _ z). Qed.

Lemma Rabs_le_bounds (a b : R) : Rabs a <= b -> - b <= a <= b.
Proof. unfold Rabs. destruct (Rcase_abs a); lra. Qed.

(** Rounding to cents moves a value by at most half a cent. *)
Lemma round_half_even_error (x : R) :
  Rabs (IZR (round_half_even x) - x) <= 1 / 2.
Proof.
  unfold round_half_even.
  pose proof (Zfloor_bound x) as [Hf1 Hf2].
  destruct (Rlt_dec (x - IZR (Zfloor x)) (1 / 2)) as [Hd|Hd].
  - apply Rabs_le. lra.
  - destruct (Rlt_dec (1 / 2) (x - IZR (Zfloor x))) as [Hd'|Hd'].
    + rewrite plus_IZR. apply Rabs_le. lra.
    + destruct (Z.even (Zfloor x)); rewrite ?plus_IZR; apply Rabs_le; lra.
Qed.

Lemma round2_error (x : R) : Rabs (round2 x - x) <= 5 / 1000.
Proof.
  unfold round2. pose proof (round_half_even_error (x * 100)) as H.
  apply Rabs_le_bounds in H. apply Rabs_le. lra.
Qed.

End Numbers.

(** ** Frames: grouping by month and by category *)

Lemma sorted_rows_perm (kind : string) (df : DataFrame) :
  Permutation (sort_values_date (of_type kind df)) (of_type kind df).
Proof. apply sort_by_perm. Qed.

(** Monthly sums do not depend on the order of the rows: grouping any
    reordering [df] of [rows] lists the months of [rows] in increasing order,
    each with the total of its rows. *)
Lemma groupby_month_sum_spec (df rows : DataFrame) :
  Permutation df rows ->
  exists months : list Period,
    StronglySorted Z.lt months /\
    (forall m, In m months <-> exists r, In r rows /\ row_month r = m) /\
    groupby_month_sum df = map (fun m => (m, month_total rows m)) months.
Proof.
  intros Hp.
  exists (sort_by Z.leb (unique Z.eqb (map row_month df))).
  split; [|split].
  - apply sort_Z_sorted, unique_NoDup, Z.eqb_eq.
  - intros m. rewrite sort_by_In, (unique_In _ Z.eqb_eq), in_map_iff.
    split; intros [r [H1 H2]]; exists r.
    + split; [|exact H1]. eapply Permutation_in; eassumption.
    + split; [tauto|]. eapply Permutation_in; [apply Permutation_sym|]; apply Hp || tauto.
  - unfold groupby_month_sum. apply map_ext. intros m.
    rewrite np_sum_Rsum. unfold month_total. f_equal.
    apply Rsum_perm, Permutation_map, filter_perm, Hp.
Qed.

Lemma groupby_month_sum_length (df : DataFrame) :
  List.length (groupby_month_sum df)
  = List.length (unique Z.eqb (map row_month df)).
Proof. unfold groupby_month_sum. now rewrite length_map, sort_by_length. Qed.

(** Rows in two different months give at least two monthly sums. *)
Lemma two_months (df rows : DataFrame) (a b : Row) :
  Permutation df rows -> In a rows -> In b rows -> row_month a <> row_month b ->
  (2 <= List.length (groupby_month_sum df))%nat.
Proof.
  intros Hp Ha Hb Hab. rewrite groupby_month_sum_length.
  apply (unique_two Z.eqb Z.eqb_eq) with (a := row_month a) (b := row_month b);
    [apply in_map | apply in_map | exact Hab];
    (eapply Permutation_in; [apply Permutation_sym, Hp | assumption]).
Qed.

(** Category means likewise: the categories of [rows] in increasing order,
    without repetition, each with the mean of its amounts. *)
Lemma groupby_category_mean_spec (df rows : DataFrame) :
  Permutation df rows ->
  exists cats : list string,
    NoDup cats /\
    (forall c, In c cats <-> exists r, In r rows /\ category r = c) /\
    groupby_category_mean df
    = map (fun c => (c, arith_mean (category_amounts rows c))) cats.
Proof.
  intros Hp.
  exists (sort_by String.leb (unique String.eqb (map category df))).
  split; [|split].
  - eapply Permutation_NoDup; [apply Permutation_sym, sort_by_perm|].
    apply unique_NoDup, String.eqb_eq.
  - intros c. rewrite sort_by_In, (unique_In _ String.eqb_eq), in_map_iff.
    split; intros [r [H1 H2]]; exists r.
    + split; [|exact H1]. eapply Permutation_in; eassumption.
    + split; [tauto|]. eapply Permutation_in; [apply Permutation_sym|]; apply Hp || tauto.
  - unfold groupby_category_mean. apply map_ext. intros c.
    rewrite np_mean_arith. unfold category_amounts. f_equal.
    apply arith_mean_perm, Permutation_map, filter_perm, Hp.
Qed.

(** [df['month'].max()] is the latest month of a non-empty frame. *)
Lemma fold_max_spec (ms : list Z) (m : Z) :
  (In (fold_left Z.max ms m) (m :: ms)) /\
  (forall x, In x (m :: ms) -> (x <= fold_left Z.max ms m)%Z).
Proof.
  revert m. induction ms as [|y ms IH]; intros m; simpl.
  - split; [now left|]. intros x [<-|[]]. lia.
  - destruct (IH (Z.max m y)) as [H1 H2]. split.
    + destruct H1 as [H1|H1]; [|now right; right].
      rewrite <- H1. destruct (Z.max_spec m y) as [[_ ->]|[_ ->]]; auto.
    + intros x Hx. pose proof (H2 (Z.max m y) (or_introl eq_refl)) as H3.
      destruct Hx as [<-|[<-|Hx]]; [lia | lia | apply H2; now right].
Qed.

Lemma month_max_spec (df rows : DataFrame) :
  Permutation df rows -> rows <> [] ->
  (exists r, In r rows /\ row_month r = month_max df) /\
  (forall r, In r rows -> (row_month r <= month_max df)%Z).
Proof.
  intros Hp Hne.
  assert (Hdf : df <> []).
  { intros ->. apply Permutation_nil in Hp. contradiction. }
  unfold month_max, period_max. destruct df as [|r0 df]; [contradiction|]. simpl map.
  destruct (fold_max_spec (map row_month df) (row_month r0)) as [H1 H2].
  change (row_month r0 :: map row_month df) with (map row_month (r0 :: df)) in *.
  split.
  - apply in_map_iff in H1. destruct H1 as [r [E Hr]].
    exists r. split; [|exact E]. eapply Permutation_in; eassumption.
  - intros r Hr. apply H2. apply in_map.
    eapply Permutation_in; [apply Permutation_sym|]; eassumption.
Qed.

(** ** The handlers *)

Section Handlers.

Variable to_datetime : list string -> string + list Timestamp.

Local Open Scope run_scope.

(** A request with at least one transaction, all of whose dates parse,
    reaches the analysis with the parsed frame. *)
Lemma handler_prelude {A} (data : TransactionData) (df : DataFrame)
      (k : DataFrame -> Run A) (h : Exception -> Run A) (w : World) :
  transactions data <> [] ->
  parse_dates to_datetime (transactions data) = inr df ->
  try_except
    (require_transactions data ;; df <- load_frame to_datetime (transactions data) ;; k df)
    h w
  = try_except (k df) h w.
Proof.
  intros Hne Hp. unfold try_except, bind, require_transactions, load_frame.
  destruct (transactions data); [contradiction|].
  unfold ret at 1. cbv beta iota. rewrite Hp. reflexivity.
Qed.

(** An empty request raises the 400 inside the [try] block, so the handler
    of the [except] clause receives it. *)
Lemma handler_empty {A} (data : TransactionData)
      (k : DataFrame -> Run A) (h : Exception -> Run A) (w : World) :
  transactions data = [] ->
  try_except
    (require_transactions data ;; df <- load_frame to_datetime (transactions data) ;; k df)
    h w
  = h (HTTPException 400 "No transaction data provided") w.
Proof.
  intros He. unfold try_except, bind, require_transactions.
  rewrite He. reflexivity.
Qed.

(** A date column that pandas rejects ends in the [except] clause as well. *)
Lemma handler_bad_date {A} (data : TransactionData) (bad : string)
      (k : DataFrame -> Run A) (h : Exception -> Run A) (w : World) :
  transactions data <> [] ->
  parse_dates to_datetime (transactions data) = inl bad ->
  try_except
    (require_transactions data ;; df <- load_frame to_datetime (transactions data) ;; k df)
    h w
  = h (ValueError bad) w.
Proof.
  intros Hne Hp. unfold try_except, bind, require_transactions, load_frame.
  destruct (transactions data); [contradiction|].
  unfold ret at 1. cbv beta iota. rewrite Hp. reflexivity.
Qed.

Lemma empty_or_not (data : TransactionData) :
  transactions data = [] \/ transactions data <> [].
Proof. destruct (transactions data); [left | right]; congruence. Qed.

Lemma nonempty_of_rows (kind : string) (data : TransactionData)
      (df : DataFrame) (n : nat) :
  parse_dates to_datetime (transactions data) = inr df ->
  (S n <= List.length (of_type kind df))%nat ->
  transactions data <> [].
Proof.
  intros Hp Hn E. unfold parse_dates in Hp. rewrite E in Hp. simpl in Hp.
  destruct (to_datetime []); [discriminate|]. injection Hp as <-.
  simpl in Hn. lia.
Qed.

(** *** Empty requests *)

(** C1, on the code: the four handlers raise the 400 [HTTPException] inside
    their own [try] block, whose [except Exception] clause catches it and
    raises a 500 in its place.  An empty transaction list therefore yields
    status 500 (a generic server error), not a 4xx validation failure. *)
Theorem empty_request_is_server_error (w : World) :
  let empty := {| transactions := [] |} in
  let err := fun A : Type =>
    @Raised A (HTTPException 500 "400: No transaction data provided") in
  fst (train_spending_model to_datetime empty w) = err _ /\
  fst (predict_expenses to_datetime empty w) = err _ /\
  fst (detect_anomalies to_datetime empty w) = err _ /\
  fst (forecast_income to_datetime empty w) = err _.
Proof. repeat split. Qed.

(** *** train-spending-model *)

(** C2: with at least 3 expenses lying in at least 2 distinct months (and
    every date of the request parsing), train-spending-model answers with
    exactly one record; its average is the arithmetic mean of the
    per-month expense totals, months taken in increasing order, and its
    recent trend is the mean of the last 3 of those totals (all of them
    when there are fewer than 3 months). *)
Theorem train_spending_model_summary
        (data : TransactionData) (df : DataFrame) (w : World) :
  parse_dates to_datetime (transactions data) = inr df ->
  (3 <= List.length (of_type "expense" df))%nat ->
  (exists a b, In a (of_type "expense" df) /\ In b (of_type "expense" df)
               /\ row_month a <> row_month b) ->
  exists months : list Period,
    StronglySorted Z.lt months /\
    (forall m, In m months <->
               exists r, In r (of_type "expense" df) /\ row_month r = m) /\
    let sums := map (month_total (of_type "expense" df)) months in
    fst (train_spending_model to_datetime data w)
    = Return {| predictions :=
                  [SpendingSummary (arith_mean sums)
                                   (arith_mean (last_n 3 sums))
                                   (75 / 100)%R];
                model_accuracy := Some (75 / 100)%R;
                prediction_message := "Model trained successfully" |}.
Proof.
  intros Hp Hlen (a & b & Ha & Hb & Hab).
  pose proof (sorted_rows_perm "expense" df) as Hperm.
  destruct (groupby_month_sum_spec _ _ Hperm) as (months & Hs & Hin & Hg).
  exists months. split; [exact Hs|]. split; [exact Hin|].
  cbv zeta. unfold train_spending_model.
  rewrite (handler_prelude data df) by
    (eauto using nonempty_of_rows).
  pose proof (two_months _ _ a b Hperm Ha Hb Hab) as H2.
  assert (H3 : (3 <= List.length (sort_values_date (of_type "expense" df)))%nat).
  { unfold sort_values_date. now rewrite sort_by_length. }
  apply Nat.ltb_ge in H2, H3.
  unfold try_except, bind, logger, ret. rewrite H3, H2. cbn [fst].
  rewrite !np_mean_arith, tail_last_n, Hg, map_map. cbn [snd].
  reflexivity.
Qed.

(** *** predict-expenses *)

Lemma dict_set_fresh (d : list (string * R)) (k : string) (v : R) :
  ~ In k (map fst d) -> dict_set d k v = d ++ [(k, v)].
Proof.
  induction d as [|[k' v'] d IH]; simpl; intros Hk; [reflexivity|].
  destruct (String.eqb_spec k' k) as [->|_]; [exfalso; apply Hk; now left|].
  rewrite IH; [reflexivity|]. intros H. apply Hk. now right.
Qed.

(** The inner loop appends one perturbed amount per category, adds them up
    and consumes one draw for each. *)
Lemma project_categories_run (items acc : list (string * R)) (total : R) (w : World) :
  NoDup (map fst items) ->
  (forall c, In c (map fst items) -> ~ In c (map fst acc)) ->
  project_categories items acc total w
  = (Return (acc ++ perturbed (random_state w) items,
             (total + Rsum (map snd (perturbed (random_state w) items)))%R),
     after_draws (List.length items) w).
Proof.
  revert acc total w.
  induction items as [|[c a] items IH]; intros acc total w Hnd Hfresh.
  - destruct w. simpl. unfold ret, after_draws. simpl.
    rewrite app_nil_r, Rplus_0_r. reflexivity.
  - simpl in Hnd. inversion Hnd as [|? ? Hc Hnd']; subst.
    cbn [project_categories]. unfold bind, np_random_normal.
    rewrite IH.
    + cbn [random_state perturbed map snd Rsum fold_right].
      rewrite dict_set_fresh by (apply Hfresh; now left).
      rewrite <- app_assoc. cbn [app].
      apply f_equal2; [|reflexivity].
      apply f_equal. apply f_equal2; [reflexivity|]. unfold Rsum. lra.
    + exact Hnd'.
    + intros c' Hc'. rewrite dict_set_fresh by (apply Hfresh; now left).
      rewrite map_app, in_app_iff. cbn [map fst In].
      intros [H|[H|[]]].
      * apply (Hfresh c'); [now right | exact H].
      * subst. contradiction.
Qed.

Lemma project_month_run (items : list (string * R)) (last : Period) (i : Z) (w : World) :
  NoDup (map fst items) ->
  project_month items last i w
  = (Return (reported (str_period (last + i)%Z) (perturbed (random_state w) items)),
     after_draws (List.length items) w).
Proof.
  intros Hnd. unfold project_month, bind.
  rewrite project_categories_run by (auto; intros c _ []).
  unfold ret, reported. cbn [fst snd app]. rewrite Rplus_0_l. reflexivity.
Qed.

Lemma perturbed_quiet (draws : nat -> R) (means : list (string * R)) :
  (forall k, draws k = 0%R) -> perturbed draws means = means.
Proof.
  revert draws. induction means as [|[c a] means IH]; intros draws H; simpl.
  - reflexivity.
  - rewrite IH by (intros k; apply H). rewrite H.
    do 2 f_equal. lra.
Qed.

(** What predict-expenses computes once it has at least 3 expenses: the
    latest expense month, the categories met among the expenses, and for
    each of the next three months the category means perturbed by that
    month's draws. *)
Lemma predict_expenses_run (data : TransactionData) (df : DataFrame) :
  parse_dates to_datetime (transactions data) = inr df ->
  (3 <= List.length (of_type "expense" df))%nat ->
  exists (last : Period) (cats : list string),
    (exists r, In r (of_type "expense" df) /\ row_month r = last) /\
    (forall r, In r (of_type "expense" df) -> (row_month r <= last)%Z) /\
    NoDup cats /\
    (forall c, In c cats <->
               exists r, In r (of_type "expense" df) /\ category r = c) /\
    let means :=
      map (fun c => (c, arith_mean (category_amounts (of_type "expense" df) c)))
          cats in
    let n := List.length cats in
    groupby_category_mean (sort_values_date (of_type "expense" df)) = means /\
    forall w : World,
      fst (predict_expenses to_datetime data w)
      = Return
          {| predictions :=
               [reported (str_period (last + 1)%Z)
                         (perturbed (random_state w) means);
                reported (str_period (last + 2)%Z)
                         (perturbed (fun k => random_state w (n + k)%nat) means);
                reported (str_period (last + 3)%Z)
                         (perturbed (fun k => random_state w (n + (n + k))%nat) means)];
             model_accuracy := Some (80 / 100)%R;
             prediction_message := "Predictions generated successfully" |}.
Proof.
  intros Hp Hlen.
  pose proof (sorted_rows_perm "expense" df) as Hperm.
  destruct (groupby_category_mean_spec _ _ Hperm) as (cats & Hnd & Hin & Hg).
  assert (Hne : of_type "expense" df <> []).
  { destruct (of_type "expense" df); [simpl in Hlen; lia | discriminate]. }
  destruct (month_max_spec _ _ Hperm Hne) as [Hmax1 Hmax2].
  exists (month_max (sort_values_date (of_type "expense" df))), cats.
  repeat (split; [assumption|]).
  intros w. unfold predict_expenses.
  rewrite (handler_prelude data df) by (eauto using nonempty_of_rows).
  assert (H3 : (3 <= List.length (sort_values_date (of_type "expense" df)))%nat).
  { unfold sort_values_date. now rewrite sort_by_length. }
  apply Nat.ltb_ge in H3.
  unfold try_except. unfold bind at 1. rewrite H3.
  assert (Hk : NoDup (map fst (groupby_category_mean
                                 (sort_values_date (of_type "expense" df))))).
  { rewrite Hg, map_map. cbn [fst]. now rewrite map_id. }
  cbn [for_each]. unfold bind.
  rewrite !project_month_run by exact Hk.
  unfold ret, logger. cbn [fst]. rewrite Hg, !length_map.
  reflexivity.
Qed.

(** The noise changes the amounts, not the keys. *)
Lemma perturbed_keys (draws : nat -> R) (means : list (string * R)) :
  map fst (perturbed draws means) = map fst means.
Proof.
  revert draws. induction means as [|[c a] means IH]; intros draws; simpl;
    [reflexivity | now rewrite IH].
Qed.

(** Each perturbed amount is its mean times one plus a tenth of a draw. *)
Lemma perturbed_noise (draws : nat -> R) (means : list (string * R)) :
  Forall2 (fun cv cm =>
             exists k, snd cv = (snd cm * (1 + (0 + 1 / 10 * draws k)))%R)
          (perturbed draws means) means.
Proof.
  revert draws. induction means as [|[c a] means IH]; intros draws; simpl.
  - constructor.
  - constructor.
    + exists 0%nat. reflexivity.
    + eapply Forall2_impl; [|apply IH].
      intros cv cm [k Hk]. exists (S k). exact Hk.
Qed.

(** C3: with at least 3 expenses (and every date of the request parsing),
    predict-expenses answers, whatever the generator draws, with the three
    months that follow the latest expense month, in order; each month's
    [by_category] has exactly the categories met among the expenses, once
    each; the amount the loop computes for a category is the mean of that
    category's expense amounts times one plus the noise term, a tenth of a
    draw, and it is reported rounded to cents.  When the noise term is 0
    the amount computed is therefore the mean itself. *)
Theorem predict_expenses_unperturbed
        (data : TransactionData) (df : DataFrame) :
  parse_dates to_datetime (transactions data) = inr df ->
  (3 <= List.length (of_type "expense" df))%nat ->
  exists (last : Period) (cats : list string),
    (exists r, In r (of_type "expense" df) /\ row_month r = last) /\
    (forall r, In r (of_type "expense" df) -> (row_month r <= last)%Z) /\
    NoDup cats /\
    (forall c, In c cats <->
               exists r, In r (of_type "expense" df) /\ category r = c) /\
    let means :=
      map (fun c => (c, arith_mean (category_amounts (of_type "expense" df) c)))
          cats in
    forall w : World,
    exists m1 m2 m3 : list (string * R),
      fst (predict_expenses to_datetime data w)
      = Return
          {| predictions :=
               map (fun im =>
                      MonthProjection
                        (str_period (last + fst im)%Z)
                        (round2 (Rsum (map snd (snd im))))
                        (map (fun kv => (fst kv, round2 (snd kv))) (snd im)))
                   [(1, m1); (2, m2); (3, m3)]%Z;
             model_accuracy := Some (80 / 100)%R;
             prediction_message := "Predictions generated successfully" |} /\
      Forall (fun m =>
                map fst m = cats /\
                Forall2 (fun cv cm =>
                           exists k,
                             snd cv
                             = (snd cm * (1 + (0 + 1 / 10 * random_state w k)))%R)
                        m means)
             [m1; m2; m3] /\
      ((forall k, random_state w k = 0%R) ->
       m1 = means /\ m2 = means /\ m3 = means /\
       fst (project_categories
              (groupby_category_mean (sort_values_date (of_type "expense" df)))
              [] 0%R w)
       = Return (means, Rsum (map snd means))).
Proof.
  intros Hp Hlen.
  destruct (predict_expenses_run data df Hp Hlen)
    as (last & cats & H1 & H2 & H3 & H4 & Hg & Hrun).
  exists last, cats. repeat (split; [assumption|]).
  cbv zeta in *. intros w.
  set (means := map (fun c => (c, arith_mean
                                    (category_amounts (of_type "expense" df) c)))
                    cats) in *.
  set (n := List.length cats) in *.
  assert (Hkeys : forall draws, map fst (perturbed draws means) = cats).
  { intros draws. rewrite perturbed_keys. unfold means.
    rewrite map_map. cbn [fst]. apply map_id. }
  assert (Hnoise : forall later : nat -> nat,
             Forall2 (fun cv cm =>
                        exists k,
                          snd cv
                          = (snd cm * (1 + (0 + 1 / 10 * random_state w k)))%R)
                     (perturbed (fun k => random_state w (later k)) means)
                     means).
  { intros later. eapply Forall2_impl; [|apply perturbed_noise].
    intros cv cm [k Hk]. exists (later k). exact Hk. }
  exists (perturbed (random_state w) means),
         (perturbed (fun k => random_state w (n + k)%nat) means),
         (perturbed (fun k => random_state w (n + (n + k))%nat) means).
  split; [rewrite Hrun; reflexivity|]. split.
  - repeat constructor; try apply Hkeys.
    + apply (Hnoise (fun k => k)).
    + apply (Hnoise (fun k => (n + k)%nat)).
    + apply (Hnoise (fun k => (n + (n + k))%nat)).
  - intros Hq.
    rewrite !perturbed_quiet by (intros k; apply Hq).
    repeat (split; [reflexivity|]).
    rewrite project_categories_run.
    + cbn [fst app]. rewrite Hg, perturbed_quiet by exact Hq.
      now rewrite Rplus_0_l.
    + rewrite Hg. unfold means. rewrite map_map. cbn [fst]. now rewrite map_id.
    + intros c _ [].
Qed.

(** *** detect-anomalies *)

Lemma skipn_cons_nth {A} (k : nat) (l : list A) (x : A) (r : list A) :
  skipn k l = x :: r -> nth_error l k = Some x /\ skipn (S k) l = r.
Proof.
  revert l. induction k as [|k IH]; intros l H.
  - destruct l; simpl in H; [discriminate|]. injection H as -> ->. auto.
  - destruct l as [|y l]; [discriminate|]. simpl in H. now apply IH.
Qed.

(** The innermost loop keeps, in row order, a record for every row whose
    score exceeds 2; [iloc] always finds the row. *)
Lemma flag_outliers_run (cdf : DataFrame) (mean std : R) (zf : Row -> R) :
  forall (rows : DataFrame) (k : nat) (acc : list Anomaly) (w : World),
    skipn k cdf = rows ->
    flag_outliers cdf mean std
      (combine (seq k (List.length rows)) (map zf rows)) acc w
    = (Return
         (acc ++
            map (fun t =>
                   {| anomaly_date := isoformat (date t);
                      anomaly_amount := amount t;
                      anomaly_category := category t;
                      z_score := zf t;
                      expected_min := (mean - 2 * std)%R;
                      expected_max := (mean + 2 * std)%R;
                      severity := if Rgt_dec (zf t) 3 then high else medium |})
                (filter (fun t => if Rgt_dec (zf t) 2 then true else false) rows)),
       w).
Proof.
  induction rows as [|t rows IH]; intros k acc w Hk.
  - simpl. now rewrite app_nil_r.
  - destruct (skipn_cons_nth _ _ _ _ Hk) as [Hn Hk'].
    cbn [List.length seq map combine flag_outliers filter].
    destruct (Rgt_dec (zf t) 2) as [Hz|Hz].
    + unfold bind, iloc. rewrite Hn. unfold ret at 1.
      rewrite (IH (S k)) by exact Hk'.
      cbn [map]. rewrite <- app_assoc. reflexivity.
    + now rewrite (IH (S k)) by exact Hk'.
Qed.

(** One category: nothing is divided by zero, the world is left as it was,
    and the records added are exactly those of the category's outliers. *)
Lemma scan_category_run (df rows : DataFrame) (c : string) :
  Permutation df rows ->
  exists found : list Anomaly,
    (forall acc w, scan_category df c acc w = (Return (acc ++ found), w)) /\
    (forall r, In r found <->
               exists t, outlier rows t /\ category t = c
                         /\ r = anomaly_of (category_amounts rows c) t).
Proof.
  intros Hp. unfold scan_category.
  set (cdf := filter (fun r => category r =? c) df).
  assert (Hperm : Permutation (map amount cdf) (category_amounts rows c)).
  { apply Permutation_map, filter_perm, Hp. }
  assert (Hlen : List.length cdf = List.length (category_amounts rows c)).
  { rewrite <- (Permutation_length Hperm). now rewrite length_map. }
  assert (Hmean : np.mean (map amount cdf) = arith_mean (category_amounts rows c)).
  { rewrite np_mean_arith. now apply arith_mean_perm. }
  assert (Hstd : np.std (map amount cdf) = pop_std (category_amounts rows c)).
  { rewrite np_std_pop. now apply pop_std_perm. }
  assert (Hnot : forall t, outlier rows t -> category t = c ->
                           (3 <= List.length cdf)%nat /\ np.std (map amount cdf) <> 0%R).
  { intros t (_ & H3 & Hs & _) <-. rewrite Hlen, Hstd. auto. }
  destruct (List.length cdf <? 3)%nat eqn:E3.
  { exists []. split; [intros; unfold ret; now rewrite app_nil_r|].
    intros r. split; [intros []|]. intros (t & Ho & Hc & _).
    apply Nat.ltb_lt in E3. destruct (Hnot t Ho Hc). lia. }
  destruct (Req_dec_T (np.std (map amount cdf)) 0) as [E0|E0].
  { exists []. split; [intros; unfold ret; now rewrite app_nil_r|].
    intros r. split; [intros []|]. intros (t & Ho & Hc & _).
    destruct (Hnot t Ho Hc). contradiction. }
  apply Nat.ltb_ge in E3.
  set (zf := fun t : Row =>
               Rabs ((amount t - np.mean (map amount cdf))
                     / np.std (map amount cdf))%R).
  eexists. split.
  - intros acc w. unfold np_divide.
    destruct (Req_dec_T (np.std (map amount cdf)) 0) as [E0'|_]; [contradiction|].
    unfold bind, ret, enumerate. cbv beta iota.
    rewrite !map_map, length_map.
    apply (flag_outliers_run cdf _ _ zf cdf 0 acc w). reflexivity.
  - intros r. rewrite in_map_iff.
    assert (Hz : forall t, zf t = z_of (category_amounts rows c) (amount t)).
    { intros t. unfold zf, z_of. rewrite Hmean, Hstd.
      apply abs_quotient; [apply pop_std_nonneg | now rewrite <- Hstd]. }
    split.
    + intros (t & <- & Ht). apply filter_In in Ht. destruct Ht as [Ht Hgt].
      destruct (Rgt_dec (zf t) 2) as [Hgt'|]; [|discriminate].
      unfold cdf in Ht. apply filter_In in Ht. destruct Ht as [Ht Hc].
      apply String.eqb_eq in Hc.
      exists t. split; [|split; [exact Hc|]].
      * unfold outlier. rewrite Hc, <- Hlen, <- Hstd, <- Hz.
        repeat split; auto. eapply Permutation_in; eassumption.
      * unfold anomaly_of. cbv zeta. now rewrite Hz, Hmean, Hstd.
    + intros (t & (Ht & _ & _ & Hgt) & Hc & ->). exists t. split.
      * unfold anomaly_of. cbv zeta. now rewrite Hz, Hmean, Hstd.
      * apply filter_In. rewrite Hc in Hgt. rewrite <- Hz in Hgt. split.
        -- unfold cdf. apply filter_In. split.
           ++ eapply Permutation_in; [apply Permutation_sym|]; eassumption.
           ++ now apply String.eqb_eq.
        -- destruct (Rgt_dec (zf t) 2); [reflexivity | contradiction].
Qed.

Lemma scan_categories_run (df rows : DataFrame) (cats : list string) :
  Permutation df rows ->
  exists found : list Anomaly,
    (forall acc w, scan_categories df cats acc w = (Return (acc ++ found), w)) /\
    (forall r, In r found <->
               exists t, outlier rows t /\ In (category t) cats
                         /\ r = anomaly_of (category_amounts rows (category t)) t).
Proof.
  intros Hp. induction cats as [|c cats (rest & Hrun & Hin)].
  - exists []. split.
    + intros acc w. simpl. unfold ret. now rewrite app_nil_r.
    + intros r. simpl. split; [tauto | intros (t & _ & H & _); exact H].
  - destruct (scan_category_run df rows c Hp) as (here & Hrun1 & Hin1).
    exists (here ++ rest). split.
    + intros acc w. cbn [scan_categories]. unfold bind.
      rewrite Hrun1, Hrun, app_assoc. reflexivity.
    + intros r. rewrite in_app_iff, Hin1, Hin. split.
      * intros [(t & Ho & <- & ->) | (t & Ho & Hc & ->)]; exists t.
        -- split; [exact Ho|]. split; [now left | reflexivity].
        -- split; [exact Ho|]. split; [now right | reflexivity].
      * intros (t & Ho & Hc & ->). destruct Hc as [Hc|Hc].
        -- left. exists t. rewrite Hc. auto.
        -- right. exists t. auto.
Qed.

(** Every way detect-anomalies can end: the same outcome in every world,
    no warning added, and in a response the count agrees with the list. *)
Lemma detect_anomalies_outcome (data : TransactionData) :
  exists out : Outcome AnomalyResponse,
    (forall w, fst (detect_anomalies to_datetime data w) = out /\
               warned (snd (detect_anomalies to_datetime data w)) = warned w /\
               random_state (snd (detect_anomalies to_datetime data w))
               = random_state w) /\
    match out with
    | Return resp => total_anomalies resp = List.length (anomalies resp)
    | Raised _ => True
    end.
Proof.
  unfold detect_anomalies.
  destruct (empty_or_not data) as [Et|Hne].
  { exists (Raised (HTTPException 500 "400: No transaction data provided")).
    split; [|exact I].
    intros w. rewrite handler_empty by exact Et. repeat split; reflexivity. }
  destruct (parse_dates to_datetime (transactions data)) as [bad|df] eqn:Ep.
  { exists (Raised (HTTPException 500 (str_exc (ValueError bad)))).
    split; [|exact I].
    intros w. rewrite (handler_bad_date data bad) by assumption.
    repeat split; reflexivity. }
  destruct (List.length (sort_values_date (of_type "expense" df)) <? 5)%nat eqn:E5.
  { exists (Return {| anomalies := [];
                      total_anomalies := 0;
                      anomaly_message :=
                        "Need at least 5 transactions for anomaly detection" |}).
    split; [|reflexivity].
    intros w. rewrite (handler_prelude data df) by assumption.
    unfold try_except. rewrite E5. repeat split; reflexivity. }
  destruct (scan_categories_run
              (sort_values_date (of_type "expense" df))
              (of_type "expense" df)
              (unique String.eqb
                      (map category (sort_values_date (of_type "expense" df))))
              (sorted_rows_perm _ _)) as (found & Hrun & _).
  exists (Return {| anomalies := found;
                    total_anomalies := List.length found;
                    anomaly_message :=
                      "Detected " ++ str_nat (List.length found)
                      ++ " anomalous transactions" |}).
  split; [|reflexivity].
  intros w. rewrite (handler_prelude data df) by assumption.
  unfold try_except, bind. rewrite E5, Hrun. repeat split; reflexivity.
Qed.

(** What detect-anomalies answers once it has at least 5 expenses. *)
Lemma detect_anomalies_run (data : TransactionData) (df : DataFrame) :
  parse_dates to_datetime (transactions data) = inr df ->
  (5 <= List.length (of_type "expense" df))%nat ->
  exists found : list Anomaly,
    (forall w,
        fst (detect_anomalies to_datetime data w)
        = Return {| anomalies := found;
                    total_anomalies := List.length found;
                    anomaly_message :=
                      "Detected " ++ str_nat (List.length found)
                      ++ " anomalous transactions" |}) /\
    (forall r, In r found <->
               exists t, outlier (of_type "expense" df) t
                         /\ r = anomaly_of
                                  (category_amounts (of_type "expense" df) (category t))
                                  t).
Proof.
  intros Hp Hlen.
  pose proof (sorted_rows_perm "expense" df) as Hperm.
  destruct (scan_categories_run _ _
              (unique String.eqb
                      (map category (sort_values_date (of_type "expense" df))))
              Hperm) as (found & Hrun & Hin).
  exists found. split.
  - intros w. unfold detect_anomalies.
    rewrite (handler_prelude data df) by (eauto using nonempty_of_rows).
    assert (H5 : (5 <= List.length (sort_values_date (of_type "expense" df)))%nat).
    { unfold sort_values_date. now rewrite sort_by_length. }
    apply Nat.ltb_ge in H5.
    unfold try_except, bind. rewrite H5, Hrun. reflexivity.
  - intros r. rewrite Hin. split.
    + intros (t & Ho & _ & ->). eauto.
    + intros (t & Ho & ->). exists t.
      split; [exact Ho|]. split; [|reflexivity].
      apply (unique_In _ String.eqb_eq), in_map.
      eapply Permutation_in; [apply Permutation_sym, Hperm|]. apply Ho.
Qed.

(** C4: with at least 5 expenses (and every date of the request parsing),
    the records detect-anomalies returns are exactly those of the expense
    rows whose category has at least 3 expenses, a nonzero population
    standard deviation, and whose z-score [|amount - mean| / std] within
    the category exceeds 2; each record carries that z-score, severity
    high exactly when it exceeds 3 (medium otherwise) and the range
    [mean - 2 std, mean + 2 std]. *)
Theorem detect_anomalies_flags_outliers
        (data : TransactionData) (df : DataFrame) (w : World) :
  parse_dates to_datetime (transactions data) = inr df ->
  (5 <= List.length (of_type "expense" df))%nat ->
  exists resp : AnomalyResponse,
    fst (detect_anomalies to_datetime data w) = Return resp /\
    forall r : Anomaly,
      In r (anomalies resp) <->
      exists t : Row,
        let amounts := category_amounts (of_type "expense" df) (category t) in
        let z := (Rabs (amount t - arith_mean amounts) / pop_std amounts)%R in
        (In t (of_type "expense" df) /\ (3 <= List.length amounts)%nat
         /\ pop_std amounts <> 0%R /\ (z > 2)%R) /\
        r = {| anomaly_date := isoformat (date t);
               anomaly_amount := amount t;
               anomaly_category := category t;
               z_score := z;
               expected_min := (arith_mean amounts - 2 * pop_std amounts)%R;
               expected_max := (arith_mean amounts + 2 * pop_std amounts)%R;
               severity := if Rgt_dec z 3 then high else medium |}.
Proof.
  intros Hp Hlen.
  destruct (detect_anomalies_run data df Hp Hlen) as (found & Hrun & Hin).
  eexists. split; [apply Hrun|]. exact Hin.
Qed.

(** C6: whatever the request, detect-anomalies never divides by a zero
    standard deviation (it adds no numpy warning to the process state), and
    every record it returns belongs to a category with at least 3 expenses
    and a nonzero population standard deviation. *)
Theorem detect_anomalies_guards (data : TransactionData) (w : World) :
  warned (snd (detect_anomalies to_datetime data w)) = warned w /\
  match fst (detect_anomalies to_datetime data w) with
  | Return resp =>
      forall r : Anomaly,
        In r (anomalies resp) ->
        exists df : DataFrame,
          parse_dates to_datetime (transactions data) = inr df /\
          let amounts :=
            category_amounts (of_type "expense" df) (anomaly_category r) in
          (3 <= List.length amounts)%nat /\ pop_std amounts <> 0%R
  | Raised _ => True
  end.
Proof.
  split.
  - destruct (detect_anomalies_outcome data) as (out & Hout & _).
    apply (Hout w).
  - unfold detect_anomalies at 1.
    destruct (empty_or_not data) as [Et|Hne].
    { rewrite handler_empty by exact Et. exact I. }
    destruct (parse_dates to_datetime (transactions data)) as [bad|df] eqn:Hp.
    { rewrite (handler_bad_date data bad) by assumption. exact I. }
    destruct (List.length (sort_values_date (of_type "expense" df)) <? 5)%nat eqn:E5.
    { rewrite (handler_prelude data df) by assumption.
      unfold try_except. rewrite E5. intros r []. }
    apply Nat.ltb_ge in E5. unfold sort_values_date in E5.
    rewrite sort_by_length in E5.
    destruct (detect_anomalies_run data df Hp E5) as (found & Hrun & Hin).
    fold (detect_anomalies to_datetime data). rewrite Hrun.
    intros r Hr. apply Hin in Hr. destruct Hr as (t & (_ & H3 & Hs & _) & ->).
    exists df. split; [reflexivity|]. split; assumption.
Qed.

(** C8: in every response of detect-anomalies, the shortfall response
    included, [total_anomalies] is the length of [anomalies]. *)
Theorem detect_anomalies_count
        (data : TransactionData) (w : World) (resp : AnomalyResponse) :
  fst (detect_anomalies to_datetime data w) = Return resp ->
  total_anomalies resp = List.length (anomalies resp).
Proof.
  intros H.
  destruct (detect_anomalies_outcome data) as (out & Hout & Hcount).
  destruct (Hout w) as [E _]. rewrite H in E. subst out. exact Hcount.
Qed.

End Handlers.

(** ** The least-squares line *)

Section LeastSquares.

Local Open Scope R_scope.

Lemma map_fst_combine (xs ys : list R) :
  List.length xs = List.length ys -> map fst (combine xs ys) = xs.
Proof.
  revert ys. induction xs as [|x xs IH]; intros [|y ys] H; simpl in *;
    try discriminate; [reflexivity|]. now rewrite IH by lia.
Qed.

Lemma map_snd_combine (xs ys : list R) :
  List.length xs = List.length ys -> map snd (combine xs ys) = ys.
Proof.
  revert ys. induction xs as [|x xs IH]; intros [|y ys] H; simpl in *;
    try discriminate; [reflexivity|]. now rewrite IH by lia.
Qed.

(** Sums of centred products and of squared residuals, written with the
    five sums of the normal equations. *)
Lemma centred_products (ps : list (R * R)) (a b : R) :
  Rsum (map (fun p => (fst p - a) * (snd p - b)) ps)
  = Rsum (map (fun p => fst p * snd p) ps)
    - a * Rsum (map snd ps) - b * Rsum (map fst ps)
    + INR (List.length ps) * a * b.
Proof.
  induction ps as [|[x y] ps IH].
  - simpl. ring.
  - cbn [map Rsum fold_right fst snd List.length]. unfold Rsum in *.
    rewrite IH, S_INR. ring.
Qed.

Lemma centred_squares (xs : list R) (a : R) :
  Rsum (map (fun x => (x - a) * (x - a)) xs)
  = Rsum (map (fun x => x * x) xs) - 2 * a * Rsum xs
    + INR (List.length xs) * a * a.
Proof.
  induction xs as [|x xs IH].
  - simpl. ring.
  - cbn [map Rsum fold_right List.length]. unfold Rsum in *.
    rewrite IH, S_INR. ring.
Qed.

Lemma residual_squares (ps : list (R * R)) (a b : R) :
  Rsum (map (fun p => (snd p - (a * fst p + b)) * (snd p - (a * fst p + b))) ps)
  = Rsum (map (fun p => snd p * snd p) ps)
    - 2 * a * Rsum (map (fun p => fst p * snd p) ps)
    - 2 * b * Rsum (map snd ps)
    + a * a * Rsum (map (fun p => fst p * fst p) ps)
    + 2 * a * b * Rsum (map fst ps)
    + INR (List.length ps) * b * b.
Proof.
  induction ps as [|[x y] ps IH].
  - simpl. ring.
  - cbn [map Rsum fold_right fst snd List.length]. unfold Rsum in *.
    rewrite IH, S_INR. ring.
Qed.

Lemma squares_nonneg {A} (f : A -> R) (l : list A) :
  0 <= Rsum (map (fun x => f x * f x) l).
Proof.
  apply Rsum_nonneg. apply Forall_forall. intros y Hy.
  apply in_map_iff in Hy. destruct Hy as (x & <- & _). nra.
Qed.

Lemma map_square_fst (xs ys : list R) :
  List.length xs = List.length ys ->
  Rsum (map (fun p => fst p * fst p) (combine xs ys))
  = Rsum (map (fun x => x * x) xs).
Proof.
  intros H. rewrite <- (map_fst_combine xs ys H) at 2.
  now rewrite map_map.
Qed.

(** The indices [0, 1, ..., n-1] with [n >= 2] are not all equal, so their
    centred sum of squares is positive. *)
Lemma indices_length (n : nat) : List.length (indices n) = n.
Proof. unfold indices. now rewrite length_map, length_seq. Qed.

Lemma indices_spread (n : nat) (c : R) :
  (2 <= n)%nat -> 0 < Rsum (map (fun x => (x - c) * (x - c)) (indices n)).
Proof.
  intros Hn. destruct n as [|[|n]]; try lia.
  unfold indices. cbn [seq map Rsum fold_right].
  pose proof (squares_nonneg (fun x => x - c) (map INR (seq 2 n))) as H.
  unfold Rsum in H. change (INR 0) with 0. change (INR 1) with 1. nra.
Qed.

(** numpy's slope on the index abscissae is covariance over variance. *)
Lemma polyfit1_slope (ys : list R) :
  (2 <= List.length ys)%nat ->
  fst (np.polyfit1 (np.arange (List.length ys)) ys) = ols_slope ys.
Proof.
  intros Hn. unfold np.polyfit1, ols_slope, np.arange. cbn [fst].
  fold (indices (List.length ys)).
  set (xs := indices (List.length ys)).
  assert (Hl : List.length xs = List.length ys) by apply indices_length.
  pose proof (indices_spread (List.length ys) (arith_mean xs) Hn) as Hpos.
  fold xs in Hpos.
  rewrite !np_sum_Rsum.
  rewrite centred_products, centred_squares in *.
  rewrite map_fst_combine, map_snd_combine in * by exact Hl.
  rewrite length_combine, Hl, Nat.min_id.
  unfold arith_mean in *. rewrite Hl in *.
  assert (Hn0 : 0 < INR (List.length ys)) by (apply lt_0_INR; lia).
  set (n := INR (List.length ys)) in *.
  set (sx := Rsum xs) in *. set (sy := Rsum ys) in *.
  set (sxx := Rsum (map (fun x => x * x) xs)) in *.
  set (sxy := Rsum (map (fun p => fst p * snd p) (combine xs ys))) in *.
  assert (Hd : sxx - 2 * (sx / n) * sx + n * (sx / n) * (sx / n)
               = (n * sxx - sx * sx) / n) by (field; lra).
  rewrite Hd in *.
  assert (Hd' : n * sxx - sx * sx <> 0).
  { intros E. rewrite E in Hpos. unfold Rdiv in Hpos. lra. }
  field. split; lra.
Qed.

Lemma line_squares (xs : list R) (a b : R) :
  Rsum (map (fun x => (a * x + b) * (a * x + b)) xs)
  = a * a * Rsum (map (fun x => x * x) xs) + 2 * a * b * Rsum xs
    + INR (List.length xs) * b * b.
Proof.
  induction xs as [|x xs IH].
  - simpl. ring.
  - cbn [map Rsum fold_right List.length]. unfold Rsum in *.
    rewrite IH, S_INR. ring.
Qed.

(** The line with slope [ols_slope] through the point of means has the
    least squared error among all lines. *)
Lemma ols_least_squares (ys : list R) (a b : R) :
  (2 <= List.length ys)%nat ->
  let xs := indices (List.length ys) in
  let slope := ols_slope ys in
  let intercept := arith_mean ys - slope * arith_mean xs in
  squared_error slope intercept xs ys <= squared_error a b xs ys.
Proof.
  intros Hn xs slope intercept.
  assert (Hl : List.length xs = List.length ys) by apply indices_length.
  pose proof (indices_spread (List.length ys) (arith_mean xs) Hn) as Hpos.
  fold xs in Hpos.
  pose proof (squares_nonneg (fun x => (a - slope) * x + (b - intercept)) xs) as Hq.
  cbv beta in Hq. rewrite line_squares in Hq.
  unfold squared_error. rewrite !residual_squares.
  rewrite map_square_fst, map_fst_combine, map_snd_combine by exact Hl.
  rewrite length_combine, Hl, Nat.min_id. rewrite Hl in Hq.
  assert (Hn0 : 0 < INR (List.length ys)) by (apply lt_0_INR; lia).
  assert (E2 : slope * Rsum xs + INR (List.length ys) * intercept = Rsum ys).
  { unfold intercept, arith_mean. rewrite Hl. field. lra. }
  assert (E1 : slope * Rsum (map (fun x => x * x) xs) + intercept * Rsum xs
               = Rsum (map (fun p => fst p * snd p) (combine xs ys))).
  { unfold intercept, slope, ols_slope. fold xs.
    rewrite centred_products, centred_squares in *.
    rewrite map_fst_combine, map_snd_combine by exact Hl.
    rewrite length_combine, Hl, Nat.min_id.
    unfold arith_mean in *. rewrite Hl in *.
    set (n := INR (List.length ys)) in *.
    set (sx := Rsum xs) in *. set (sy := Rsum ys) in *.
    set (sxx := Rsum (map (fun x => x * x) xs)) in *.
    set (sxy := Rsum (map (fun p => fst p * snd p) (combine xs ys))) in *.
    assert (Hd : sxx - 2 * (sx / n) * sx + n * (sx / n) * (sx / n)
                 = (n * sxx - sx * sx) / n) by (field; lra).
    rewrite Hd in *.
    assert (Hd' : n * sxx - sx * sx <> 0).
    { intros E. rewrite E in Hpos. unfold Rdiv in Hpos. lra. }
    field. split; lra. }
  rewrite <- E1, <- E2.
  set (sxx := Rsum (map (fun x => x * x) xs)) in *.
  set (sx := Rsum xs) in *.
  set (n := INR (List.length ys)) in *.
  set (syy := Rsum (map (fun p => snd p * snd p) (combine xs ys))).
  apply Rminus_le.
  match goal with
  | |- ?l - ?r <= 0 =>
      replace (l - r)
        with (- ((a - slope) * (a - slope) * sxx
                 + 2 * (a - slope) * (b - intercept) * sx
                 + n * (b - intercept) * (b - intercept))) by ring
  end.
  lra.
Qed.

End LeastSquares.

(** ** forecast-income, determinism and the other kind of transaction *)

Section Forecast.

Variable to_datetime : list string -> string + list Timestamp.

Local Open Scope run_scope.

(** The three forecast points, from the monthly totals, their number, their
    mean, the fitted slope and the latest month. *)
Lemma forecast_income_run (data : TransactionData) (df : DataFrame) :
  parse_dates to_datetime (transactions data) = inr df ->
  (3 <= List.length (of_type "income" df))%nat ->
  (exists a b, In a (of_type "income" df) /\ In b (of_type "income" df)
               /\ row_month a <> row_month b) ->
  exists (months : list Period) (last : Period),
    StronglySorted Z.lt months /\
    (forall m, In m months <->
               exists r, In r (of_type "income" df) /\ row_month r = m) /\
    (2 <= List.length months)%nat /\
    In last months /\
    (forall m, In m months -> (m <= last)%Z) /\
    let sums := map (month_total (of_type "income" df)) months in
    forall w : World,
      fst (forecast_income to_datetime data w)
      = Return
          {| forecast :=
               map (forecast_point (arith_mean sums) (ols_slope sums)
                                   (List.length months) last)
                   [1; 2; 3]%Z;
             confidence_interval := None;
             forecast_message := "Income forecast generated successfully" |}.
Proof.
  intros Hp Hlen (a & b & Ha & Hb & Hab).
  pose proof (sorted_rows_perm "income" df) as Hperm.
  destruct (groupby_month_sum_spec _ _ Hperm) as (months & Hs & Hin & Hg).
  pose proof (two_months _ _ a b Hperm Ha Hb Hab) as H2.
  assert (Hm2 : (2 <= List.length months)%nat).
  { rewrite Hg, length_map in H2. exact H2. }
  destruct months as [|m0 ms] eqn:Em; [simpl in Hm2; lia|].
  destruct (fold_max_spec ms m0) as [Hl1 Hl2].
  rewrite <- Em in *.
  exists months, (fold_left Z.max ms m0).
  split; [exact Hs|]. split; [exact Hin|]. split; [exact Hm2|].
  split; [now rewrite Em|]. split; [now rewrite Em|].
  cbv zeta. intros w. unfold forecast_income.
  rewrite (handler_prelude to_datetime data df) by
    (eauto using nonempty_of_rows).
  assert (H3 : (3 <= List.length (sort_values_date (of_type "income" df)))%nat).
  { unfold sort_values_date. now rewrite sort_by_length. }
  apply Nat.ltb_ge in H2, H3.
  unfold try_except, bind, logger, ret. rewrite H3, H2. cbn [fst].
  rewrite Hg, !map_map. cbn [fst snd]. rewrite map_id.
  rewrite np_mean_arith, polyfit1_slope, length_map by (now rewrite length_map).
  unfold period_max. rewrite Em. reflexivity.
Qed.

(** C5, as the code has it: with at least 3 incomes in at least 2 distinct
    months (and every date of the request parsing), forecast-income returns
    3 points for the 3 months after the latest income month.  With [n] the
    number of income months, [mean] the mean of the monthly totals and
    [trend] the least-squares slope of the totals against [0..n-1], the
    i-th forecast is [mean + trend * (n + i)] rounded to cents, and its
    bounds are that unrounded value minus and plus [0.1 * mean], each
    rounded to cents; the band is therefore [0.2 * mean] wide up to one
    cent of rounding. *)
Theorem forecast_income_points
        (data : TransactionData) (df : DataFrame) (w : World) :
  parse_dates to_datetime (transactions data) = inr df ->
  (3 <= List.length (of_type "income" df))%nat ->
  (exists a b, In a (of_type "income" df) /\ In b (of_type "income" df)
               /\ row_month a <> row_month b) ->
  exists (months : list Period) (last : Period),
    StronglySorted Z.lt months /\
    (forall m, In m months <->
               exists r, In r (of_type "income" df) /\ row_month r = m) /\
    In last months /\
    (forall m, In m months -> (m <= last)%Z) /\
    let sums := map (month_total (of_type "income" df)) months in
    let n := List.length months in
    let mean := arith_mean sums in
    let trend := ols_slope sums in
    (forall a b : R,
        (squared_error trend (mean - trend * arith_mean (indices n)) (indices n) sums
         <= squared_error a b (indices n) sums)%R) /\
    fst (forecast_income to_datetime data w)
    = Return
        {| forecast :=
             map (fun i =>
                    let predicted := (mean + trend * (INR n + IZR i))%R in
                    {| forecast_month := str_period (last + i)%Z;
                       predicted_income := round2 predicted;
                       confidence_lower := round2 (predicted - 1 / 10 * mean);
                       confidence_upper := round2 (predicted + 1 / 10 * mean) |})
                 [1; 2; 3]%Z;
           confidence_interval := None;
           forecast_message := "Income forecast generated successfully" |} /\
    forall resp p,
      fst (forecast_income to_datetime data w) = Return resp ->
      In p (forecast resp) ->
      (Rabs (confidence_upper p - confidence_lower p - 2 / 10 * mean) <= 1 / 100)%R.
Proof.
  intros Hp Hlen Hspan.
  destruct (forecast_income_run data df Hp Hlen Hspan)
    as (months & last & Hs & Hin & Hm2 & Hl1 & Hl2 & Hrun).
  exists months, last. repeat (split; [assumption|]).
  cbv zeta in *.
  assert (Hpoints :
            forall i,
              forecast_point
                (arith_mean (map (month_total (of_type "income" df)) months))
                (ols_slope (map (month_total (of_type "income" df)) months))
                (List.length months) last i
              = let mean := arith_mean (map (month_total (of_type "income" df)) months) in
                let predicted :=
                  (mean + ols_slope (map (month_total (of_type "income" df)) months)
                          * (INR (List.length months) + IZR i))%R in
                {| forecast_month := str_period (last + i)%Z;
                   predicted_income := round2 predicted;
                   confidence_lower := round2 (predicted - 1 / 10 * mean);
                   confidence_upper := round2 (predicted + 1 / 10 * mean) |}).
  { intros i. unfold forecast_point. cbv zeta.
    f_equal; f_equal; ring. }
  split; [|split].
  - intros a b.
    pose proof (ols_least_squares
                  (map (month_total (of_type "income" df)) months) a b) as H.
    rewrite length_map in H. apply H. exact Hm2.
  - rewrite Hrun. cbn [map]. rewrite !Hpoints. reflexivity.
  - intros resp p Hresp Hp'. rewrite Hrun in Hresp. injection Hresp as <-.
    assert (Hi : exists i,
               p = forecast_point
                     (arith_mean (map (month_total (of_type "income" df)) months))
                     (ols_slope (map (month_total (of_type "income" df)) months))
                     (List.length months) last i).
    { simpl in Hp'. destruct Hp' as [<-|[<-|[<-|[]]]]; eauto. }
    destruct Hi as (i & ->). rewrite Hpoints. cbv zeta.
    cbn [confidence_upper confidence_lower].
    match goal with
    | |- (Rabs (round2 ?u - round2 ?l - _) <= _)%R =>
        pose proof (round2_error u) as Hu; pose proof (round2_error l) as Hl
    end.
    apply Rabs_le_bounds in Hu, Hl. apply Rabs_le. lra.
Qed.

(** *** Determinism *)

Lemma try_ret {A} (x : A) (h : Exception -> Run A) (w : World) :
  try_except (ret x) h w = (Return x, w).
Proof. reflexivity. Qed.

Lemma try_log_ret {A} (lvl : LogLevel) (msg : string) (x : A)
      (h : Exception -> Run A) (w : World) :
  try_except (logger lvl msg ;; ret x) h w
  = (Return x,
     {| random_state := random_state w;
        warned := warned w;
        logged := logged w ++ [(lvl, msg)] |}).
Proof. reflexivity. Qed.

Lemma server_error_run {A} (what : string) (e : Exception) (w : World) :
  @server_error A what e w
  = (Raised (HTTPException 500 (str_exc e)),
     {| random_state := random_state w;
        warned := warned w;
        logged := logged w ++ [(ERROR, (what ++ str_exc e)%string)] |}).
Proof. reflexivity. Qed.




(** *** Transactions of the other kind *)

(** C9, as the code has it.  [pd.to_datetime] reads the whole date column
    before the rows of one kind are selected, so a transaction of the other
    kind can make the request fail, or change how pandas reads the dates of
    the analysed rows.  That is its only influence: for two non-empty
    requests whose date columns parse and whose expense rows are the same
    once parsed (amounts, timestamps and categories, in the same order),
    train-spending-model and detect-anomalies behave identically and
    predict-expenses is the same function of the generator's draws;
    likewise forecast-income for two requests whose income rows are the
    same once parsed. *)
Theorem other_kind_is_ignored
        (data1 data2 : TransactionData) (df1 df2 : DataFrame) (w : World) :
  transactions data1 <> [] ->
  transactions data2 <> [] ->
  parse_dates to_datetime (transactions data1) = inr df1 ->
  parse_dates to_datetime (transactions data2) = inr df2 ->
  (of_type "expense" df1 = of_type "expense" df2 ->
   train_spending_model to_datetime data1 w = train_spending_model to_datetime data2 w /\
   detect_anomalies to_datetime data1 w = detect_anomalies to_datetime data2 w /\
   predict_expenses to_datetime data1 w = predict_expenses to_datetime data2 w) /\
  (of_type "income" df1 = of_type "income" df2 ->
   forecast_income to_datetime data1 w = forecast_income to_datetime data2 w).
Proof.
  intros N1 N2 P1 P2. split; intros Hrows.
  - unfold train_spending_model, detect_anomalies, predict_expenses.
    rewrite !(handler_prelude to_datetime data1 df1) by assumption.
    rewrite !(handler_prelude to_datetime data2 df2) by assumption.
    rewrite Hrows. repeat split; reflexivity.
  - unfold forecast_income.
    rewrite (handler_prelude to_datetime data1 df1) by assumption.
    rewrite (handler_prelude to_datetime data2 df2) by assumption.
    rewrite Hrows. reflexivity.
Qed.

End Forecast.

(** ** Rounding in predict-expenses *)

(** Every month reported by predict-expenses is the rounding, amount by
    amount and of the total, of what one run of the category loop computed. *)
Lemma predict_expenses_reported (to_datetime : list string -> string + list Timestamp)
      (data : TransactionData) (w : World) (resp : PredictionResponse) (p : Prediction) :
  fst (predict_expenses to_datetime data w) = Return resp ->
  In p (predictions resp) ->
  exists (df : DataFrame) (label : string) (amounts : list (string * R)) (w' : World),
    parse_dates to_datetime (transactions data) = inr df /\
    fst (project_categories
           (groupby_category_mean (sort_values_date (of_type "expense" df)))
           [] 0%R w')
    = Return (amounts, Rsum (map snd amounts)) /\
    p = MonthProjection label
          (round2 (Rsum (map snd amounts)))
          (map (fun kv => (fst kv, round2 (snd kv))) amounts).
Proof.
  intros H Hp.
  destruct (empty_or_not data) as [Et|Hne].
  { unfold predict_expenses in H. rewrite (handler_empty to_datetime) in H by exact Et.
    discriminate H. }
  destruct (parse_dates to_datetime (transactions data)) as [bad|df] eqn:Ep.
  { unfold predict_expenses in H.
    rewrite (handler_bad_date to_datetime data bad) in H by assumption.
    discriminate H. }
  destruct (List.length (sort_values_date (of_type "expense" df)) <? 3)%nat eqn:E3.
  { unfold predict_expenses in H.
    rewrite (handler_prelude to_datetime data df) in H by assumption.
    rewrite E3 in H. injection H as <-. destruct Hp. }
  apply Nat.ltb_ge in E3. unfold sort_values_date in E3. rewrite sort_by_length in E3.
  destruct (predict_expenses_run to_datetime data df Ep E3)
    as (last & cats & _ & _ & Hnd & _ & Hg & Hrun).
  cbv zeta in Hg, Hrun. rewrite Hrun in H. injection H as <-.
  assert (Hloop : forall draws,
             fst (project_categories
                    (groupby_category_mean (sort_values_date (of_type "expense" df)))
                    [] 0%R
                    {| random_state := draws; warned := []; logged := [] |})
             = Return (perturbed draws (groupby_category_mean
                                          (sort_values_date (of_type "expense" df))),
                       Rsum (map snd (perturbed draws
                                        (groupby_category_mean
                                           (sort_values_date (of_type "expense" df))))))).
  { intros draws. rewrite project_categories_run.
    - cbn [fst random_state app]. now rewrite Rplus_0_l.
    - rewrite Hg, map_map. cbn [fst]. now rewrite map_id.
    - intros c _ []. }
  rewrite <- Hg in Hp.
  destruct Hp as [<-|[<-|[<-|[]]]];
    exists df; eexists; eexists; eexists;
    (split; [reflexivity|]); (split; [apply Hloop|]); reflexivity.
Qed.

(** ** The handlers on the sample requests *)

Ltac run_handler :=
  cbv -[Rplus Rmult Rdiv Rinv Rminus Ropp IZR INR round2 sqrt Rabs
        Rgt_dec Rlt_dec Req_dec_T];
  rewrite ?INR_IZR_INZ; cbn [Z.of_nat Pos.of_succ_nat Pos.succ].

Ltac round_to z :=
  match goal with
  | |- context [round2 ?x] => rewrite (round2_near x z) by (split; lra)
  end.

Lemma household_parses :
  parse_dates iso_dates (transactions household) = inr household_frame.
Proof. reflexivity. Qed.

Lemma household_expenses_parses :
  parse_dates iso_dates (transactions household_expenses) = inr household_expenses_frame.
Proof. reflexivity. Qed.

Lemma groceries_parses :
  parse_dates iso_dates (transactions groceries) = inr groceries_frame.
Proof. reflexivity. Qed.

Lemma rising_income_parses :
  parse_dates iso_dates (transactions rising_income) = inr rising_income_frame.
Proof. reflexivity. Qed.

(** Incomes 1, 2, 2: mean 5/3, slope 1/2, so the unrounded forecasts are
    11/3, 25/6 and 14/3 and the margin is 1/6. *)
Lemma rising_income_forecast (w : World) :
  fst (forecast_income iso_dates rising_income w)
  = Return
      {| forecast :=
           [{| forecast_month := "2024-04";
               predicted_income := (367 / 100)%R;
               confidence_lower := (350 / 100)%R;
               confidence_upper := (383 / 100)%R |};
            {| forecast_month := "2024-05";
               predicted_income := (417 / 100)%R;
               confidence_lower := (400 / 100)%R;
               confidence_upper := (433 / 100)%R |};
            {| forecast_month := "2024-06";
               predicted_income := (467 / 100)%R;
               confidence_lower := (450 / 100)%R;
               confidence_upper := (483 / 100)%R |}];
         confidence_interval := None;
         forecast_message := "Income forecast generated successfully" |}.
Proof.
  run_handler.
  repeat first [ round_to 367%Z | round_to 350%Z | round_to 383%Z
               | round_to 417%Z | round_to 400%Z | round_to 433%Z
               | round_to 467%Z | round_to 450%Z | round_to 483%Z ].
  reflexivity.
Qed.

(** Three categories of 0.004 each: every amount rounds to 0.00 while their
    sum 0.012 rounds to 0.01. *)
Lemma small_amounts_projection :
  fst (predict_expenses iso_dates small_amounts quiet_world)
  = Return
      {| predictions :=
           [MonthProjection "2024-02" (1 / 100)%R
              [("a", (0 / 100)%R); ("b", (0 / 100)%R); ("c", (0 / 100)%R)];
            MonthProjection "2024-03" (1 / 100)%R
              [("a", (0 / 100)%R); ("b", (0 / 100)%R); ("c", (0 / 100)%R)];
            MonthProjection "2024-04" (1 / 100)%R
              [("a", (0 / 100)%R); ("b", (0 / 100)%R); ("c", (0 / 100)%R)]];
         model_accuracy := Some (80 / 100)%R;
         prediction_message := "Predictions generated successfully" |}.
Proof.
  run_handler.
  repeat first [ round_to 1%Z | round_to 0%Z ].
  reflexivity.
Qed.


(** C5 as the specification words it (forecasts and bounds not rounded)
    fails on the incomes 1, 2, 2: whatever the months, three values
    [p], [p - m], [p + m] cannot be 3.67, 3.50 and 3.83. *)
Lemma forecast_income_unrounded_fails :
  ~ (exists (months : list Period) (last : Period),
        StronglySorted Z.lt months /\
        (forall m, In m months <->
                   exists r, In r (of_type "income" rising_income_frame)
                             /\ row_month r = m) /\
        In last months /\
        (forall m, In m months -> (m <= last)%Z) /\
        let sums := map (month_total (of_type "income" rising_income_frame)) months in
        let n := List.length months in
        let mean := arith_mean sums in
        let trend := ols_slope sums in
        fst (forecast_income iso_dates rising_income quiet_world)
        = Return
            {| forecast :=
                 map (fun i =>
                        let predicted := (mean + trend * (INR n + IZR i))%R in
                        {| forecast_month := str_period (last + i)%Z;
                           predicted_income := predicted;
                           confidence_lower := (predicted - 1 / 10 * mean)%R;
                           confidence_upper := (predicted + 1 / 10 * mean)%R |})
                     [1; 2; 3]%Z;
               confidence_interval := None;
               forecast_message := "Income forecast generated successfully" |}).
Proof.
  intros (months & last & _ & _ & _ & _ & Heq).
  cbv zeta in Heq. rewrite rising_income_forecast in Heq.
  cbn [map] in Heq. injection Heq as _ Hp Hl Hu _.
  lra.
Qed.

(** *** Instances *)

Lemma train_spending_model_summary_witness :
  exists months : list Period,
    StronglySorted Z.lt months /\
    (forall m, In m months <->
               exists r, In r (of_type "expense" household_frame) /\ row_month r = m) /\
    let sums := map (month_total (of_type "expense" household_frame)) months in
    fst (train_spending_model iso_dates household quiet_world)
    = Return {| predictions :=
                  [SpendingSummary (arith_mean sums)
                                   (arith_mean (last_n 3 sums))
                                   (75 / 100)%R];
                model_accuracy := Some (75 / 100)%R;
                prediction_message := "Model trained successfully" |}.
Proof.
  apply (train_spending_model_summary iso_dates household household_frame quiet_world).
  - reflexivity.
  - cbn. lia.
  - exists (on_day 100 2024 1 5 "food" "expense"),
           (on_day 50 2024 2 7 "rent" "expense").
    split; [cbn; auto|]. split; [cbn; auto|]. discriminate.
Defined.

(** The household's expenses, projected with a generator that draws 0. *)
Lemma predict_expenses_unperturbed_witness :
  exists (last : Period) (cats : list string),
    (exists r, In r (of_type "expense" household_frame) /\ row_month r = last) /\
    (forall r, In r (of_type "expense" household_frame) -> (row_month r <= last)%Z) /\
    NoDup cats /\
    (forall c, In c cats <->
               exists r, In r (of_type "expense" household_frame) /\ category r = c) /\
    let means :=
      map (fun c => (c, arith_mean (category_amounts (of_type "expense" household_frame) c)))
          cats in
    exists m1 m2 m3 : list (string * R),
      fst (predict_expenses iso_dates household quiet_world)
      = Return
          {| predictions :=
               map (fun im =>
                      MonthProjection
                        (str_period (last + fst im)%Z)
                        (round2 (Rsum (map snd (snd im))))
                        (map (fun kv => (fst kv, round2 (snd kv))) (snd im)))
                   [(1, m1); (2, m2); (3, m3)]%Z;
             model_accuracy := Some (80 / 100)%R;
             prediction_message := "Predictions generated successfully" |} /\
      Forall (fun m =>
                map fst m = cats /\
                Forall2 (fun cv cm =>
                           exists k,
                             snd cv
                             = (snd cm
                                * (1 + (0 + 1 / 10 * random_state quiet_world k)))%R)
                        m means)
             [m1; m2; m3] /\
      m1 = means /\ m2 = means /\ m3 = means /\
      fst (project_categories
             (groupby_category_mean (sort_values_date (of_type "expense" household_frame)))
             [] 0%R quiet_world)
      = Return (means, Rsum (map snd means)).
Proof.
  destruct (predict_expenses_unperturbed iso_dates household household_frame)
    as (last & cats & H1 & H2 & H3 & H4 & Hw).
  - reflexivity.
  - cbn. lia.
  - exists last, cats. repeat (split; [assumption|]).
    cbv zeta in *. destruct (Hw quiet_world) as (m1 & m2 & m3 & Hr & Hf & Hq).
    exists m1, m2, m3. split; [exact Hr|]. split; [exact Hf|].
    apply Hq. intros k. reflexivity.
Defined.

Lemma detect_anomalies_flags_outliers_witness :
  exists resp : AnomalyResponse,
    fst (detect_anomalies iso_dates groceries quiet_world) = Return resp /\
    forall r : Anomaly,
      In r (anomalies resp) <->
      exists t : Row,
        let amounts := category_amounts (of_type "expense" groceries_frame) (category t) in
        let z := (Rabs (amount t - arith_mean amounts) / pop_std amounts)%R in
        (In t (of_type "expense" groceries_frame) /\ (3 <= List.length amounts)%nat
         /\ pop_std amounts <> 0%R /\ (z > 2)%R) /\
        r = {| anomaly_date := isoformat (date t);
               anomaly_amount := amount t;
               anomaly_category := category t;
               z_score := z;
               expected_min := (arith_mean amounts - 2 * pop_std amounts)%R;
               expected_max := (arith_mean amounts + 2 * pop_std amounts)%R;
               severity := if Rgt_dec z 3 then high else medium |}.
Proof.
  apply (detect_anomalies_flags_outliers iso_dates groceries groceries_frame quiet_world).
  - reflexivity.
  - cbn. lia.
Defined.

Lemma forecast_income_points_witness :
  exists (months : list Period) (last : Period),
    StronglySorted Z.lt months /\
    (forall m, In m months <->
               exists r, In r (of_type "income" rising_income_frame) /\ row_month r = m) /\
    In last months /\
    (forall m, In m months -> (m <= last)%Z) /\
    let sums := map (month_total (of_type "income" rising_income_frame)) months in
    let n := List.length months in
    let mean := arith_mean sums in
    let trend := ols_slope sums in
    (forall a b : R,
        (squared_error trend (mean - trend * arith_mean (indices n)) (indices n) sums
         <= squared_error a b (indices n) sums)%R) /\
    fst (forecast_income iso_dates rising_income quiet_world)
    = Return
        {| forecast :=
             map (fun i =>
                    let predicted := (mean + trend * (INR n + IZR i))%R in
                    {| forecast_month := str_period (last + i)%Z;
                       predicted_income := round2 predicted;
                       confidence_lower := round2 (predicted - 1 / 10 * mean);
                       confidence_upper := round2 (predicted + 1 / 10 * mean) |})
                 [1; 2; 3]%Z;
           confidence_interval := None;
           forecast_message := "Income forecast generated successfully" |} /\
    forall resp p,
      fst (forecast_income iso_dates rising_income quiet_world) = Return resp ->
      In p (forecast resp) ->
      (Rabs (confidence_upper p - confidence_lower p - 2 / 10 * mean) <= 1 / 100)%R.
Proof.
  apply (forecast_income_points iso_dates rising_income rising_income_frame quiet_world).
  - reflexivity.
  - cbn. lia.
  - exists (on_day 1 2024 1 15 "salary" "income"),
           (on_day 2 2024 2 15 "salary" "income").
    split; [cbn; auto|]. split; [cbn; auto|]. discriminate.
Defined.

(** The shortfall response: three expenses are too few to look for anomalies. *)
Lemma detect_anomalies_count_witness :
  let shortfall :=
    {| anomalies := [];
       total_anomalies := 0;
       anomaly_message := "Need at least 5 transactions for anomaly detection" |} in
  fst (detect_anomalies iso_dates household quiet_world) = Return shortfall /\
  total_anomalies shortfall = List.length (anomalies shortfall).
Proof.
  split.
  - reflexivity.
  - apply (detect_anomalies_count iso_dates household quiet_world). reflexivity.
Defined.

(** A transfer after the household's transactions changes nothing for the
    expense analyses nor for the income forecast. *)
Lemma other_kind_is_ignored_witness :
  (train_spending_model iso_dates household quiet_world
   = train_spending_model iso_dates household_and_transfer quiet_world /\
   detect_anomalies iso_dates household quiet_world
   = detect_anomalies iso_dates household_and_transfer quiet_world /\
   predict_expenses iso_dates household quiet_world
   = predict_expenses iso_dates household_and_transfer quiet_world) /\
  forecast_income iso_dates household quiet_world
  = forecast_income iso_dates household_and_transfer quiet_world.
Proof.
  destruct (other_kind_is_ignored iso_dates household household_and_transfer
              household_frame household_and_transfer_frame quiet_world)
    as [Hexpense Hincome].
  - discriminate.
  - discriminate.
  - reflexivity.
  - reflexivity.
  - split; [apply Hexpense | apply Hincome]; reflexivity.
Defined.

(** C9 as stated fails when a transaction of the other kind carries a date
    that does not parse: the two requests below are non-empty and have the
    same expenses, yet the first is answered (with the shortfall response)
    and the second ends in a server error, because the whole date column is
    parsed before the expenses are selected. *)
Lemma unparseable_date_of_other_kind :
  transactions lone_expense <> [] /\
  transactions lone_expense_undated_salary <> [] /\
  filter (fun t => type t =? "expense") (transactions lone_expense)
  = filter (fun t => type t =? "expense") (transactions lone_expense_undated_salary) /\
  fst (train_spending_model iso_dates lone_expense quiet_world)
  = Return {| predictions := [];
              model_accuracy := None;
              prediction_message :=
                "Insufficient data for training. Need at least 3 transactions." |} /\
  (exists detail,
      fst (train_spending_model iso_dates lone_expense_undated_salary quiet_world)
      = Raised (HTTPException 500 detail)) /\
  fst (train_spending_model iso_dates lone_expense quiet_world)
  <> fst (train_spending_model iso_dates lone_expense_undated_salary quiet_world) /\
  fst (detect_anomalies iso_dates lone_expense quiet_world)
  <> fst (detect_anomalies iso_dates lone_expense_undated_salary quiet_world).
Proof.
  split; [discriminate|]. split; [discriminate|]. split; [reflexivity|].
  split; [reflexivity|]. split; [eexists; reflexivity|].
  split; discriminate.
Qed.

(** *** A flagged bill *)

(** Among the bills 10, 10, 10, 10, 10, 100 the last one lies
    [sqrt 5 > 2] standard deviations above the mean 25, and is reported. *)
Lemma groceries_outlier :
  outlier (of_type "expense" groceries_frame) (on_day 100 2024 1 6 "food" "expense").
Proof.
  unfold outlier. cbn [category on_day].
  assert (Ea : category_amounts (of_type "expense" groceries_frame) "food"
               = [10; 10; 10; 10; 10; 100]%R) by reflexivity.
  rewrite Ea.
  assert (Em : arith_mean [10; 10; 10; 10; 10; 100]%R = 25%R).
  { unfold arith_mean, Rsum. simpl. lra. }
  assert (Es : pop_std [10; 10; 10; 10; 10; 100]%R = sqrt 1125).
  { unfold pop_std. rewrite Em. f_equal. unfold Rsum. simpl. lra. }
  assert (Hlo : (0 < sqrt 1125)%R) by (apply sqrt_lt_R0; lra).
  assert (Hhi : (sqrt 1125 < 75 / 2)%R).
  { rewrite <- (sqrt_square (75 / 2)) by lra. apply sqrt_lt_1_alt. lra. }
  split; [cbn; auto 10|]. split; [simpl; lia|]. split; [rewrite Es; lra|].
  unfold z_of. rewrite Em, Es. cbn [amount on_day].
  replace (100 - 25)%R with 75%R by lra. rewrite Rabs_pos_eq by lra.
  apply Rlt_gt. apply (Rmult_lt_reg_r (sqrt 1125)); [exact Hlo|].
  unfold Rdiv. rewrite Rmult_assoc, Rinv_l by lra. lra.
Qed.

Lemma groceries_anomaly_reported :
  exists resp : AnomalyResponse,
    fst (detect_anomalies iso_dates groceries quiet_world) = Return resp /\
    In (anomaly_of (category_amounts (of_type "expense" groceries_frame) "food")
                   (on_day 100 2024 1 6 "food" "expense"))
       (anomalies resp).
Proof.
  destruct (detect_anomalies_run iso_dates groceries groceries_frame)
    as (found & Hrun & Hin); [reflexivity | cbn; lia |].
  eexists. split; [apply Hrun|]. cbn [anomalies]. apply Hin.
  exists (on_day 100 2024 1 6 "food" "expense").
  split; [apply groceries_outlier | reflexivity].
Qed.

(** *** Small data sets *)

(** The mean projected for a category is the mean of its transactions'
    amounts: for the two food bills of January, 65, where the month's food
    total is 130. *)
Lemma food_mean_is_per_transaction :
  arith_mean (category_amounts (of_type "expense" household_frame) "food") = 65%R /\
  month_total (filter (fun r => category r =? "food")
                      (of_type "expense" household_frame))
              648%Z = 130%R.
Proof.
  split.
  - unfold arith_mean, category_amounts, Rsum. simpl. lra.
  - unfold month_total, Rsum. simpl. lra.
Qed.

(** Incomes 100, 200, 300 rise by exactly 100 a month. *)
Lemma steady_rise_slope : ols_slope [100; 200; 300]%R = 100%R.
Proof.
  unfold ols_slope, indices, arith_mean, Rsum. simpl. field_simplify; lra.
Qed.

(** Among the amounts 10, 10, 10, 10, 100 the mean is 28 and the population
    standard deviation 36, so the z-score of 100 is exactly 2: it does not
    exceed the threshold. *)
Lemma four_tens_and_a_hundred :
  z_of [10; 10; 10; 10; 100]%R 100%R = 2%R /\
  ~ (z_of [10; 10; 10; 10; 100]%R 100%R > 2)%R.
Proof.
  assert (Em : arith_mean [10; 10; 10; 10; 100]%R = 28%R).
  { unfold arith_mean, Rsum. simpl. lra. }
  assert (Es : pop_std [10; 10; 10; 10; 100]%R = 36%R).
  { unfold pop_std. rewrite Em.
    replace (Rsum _ / _)%R with (36 * 36)%R by (unfold Rsum; simpl; lra).
    apply sqrt_square. lra. }
  assert (Ez : z_of [10; 10; 10; 10; 100]%R 100%R = 2%R).
  { unfold z_of. rewrite Em, Es.
    replace (100 - 28)%R with 72%R by lra. rewrite Rabs_pos_eq by lra. lra. }
  split; [exact Ez|]. rewrite Ez. lra.
Qed.

(** * Further properties of the handlers *)

Section Failures.

Variable to_datetime : list string -> string + list Timestamp.

Local Open Scope run_scope.

Lemma all_dates_parse_frame (ts : list Transaction) :
  if all_dates_parse to_datetime ts
  then exists df, parse_dates to_datetime ts = inr df
  else exists bad, parse_dates to_datetime ts = inl bad.
Proof.
  unfold all_dates_parse, parse_dates.
  destruct (to_datetime (map date ts)) as [bad|ds]; eauto.
Qed.

(** With a non-empty request whose dates parse, each handler answers. *)
Lemma train_spending_model_answers (data : TransactionData) (df : DataFrame) (w : World) :
  transactions data <> [] ->
  parse_dates to_datetime (transactions data) = inr df ->
  exists resp, fst (train_spending_model to_datetime data w) = Return resp.
Proof.
  intros Hne Hp. unfold train_spending_model.
  rewrite (handler_prelude to_datetime data df) by assumption.
  destruct (List.length (sort_values_date (of_type "expense" df)) <? 3)%nat;
    [|destruct (List.length (groupby_month_sum
                               (sort_values_date (of_type "expense" df))) <? 2)%nat];
    rewrite ?try_ret, ?try_log_ret; eexists; reflexivity.
Qed.

Lemma forecast_income_answers (data : TransactionData) (df : DataFrame) (w : World) :
  transactions data <> [] ->
  parse_dates to_datetime (transactions data) = inr df ->
  exists resp, fst (forecast_income to_datetime data w) = Return resp.
Proof.
  intros Hne Hp. unfold forecast_income.
  rewrite (handler_prelude to_datetime data df) by assumption.
  destruct (List.length (sort_values_date (of_type "income" df)) <? 3)%nat;
    [|destruct (List.length (groupby_month_sum
                               (sort_values_date (of_type "income" df))) <? 2)%nat];
    rewrite ?try_ret, ?try_log_ret; eexists; reflexivity.
Qed.

Lemma predict_expenses_answers (data : TransactionData) (df : DataFrame) (w : World) :
  transactions data <> [] ->
  parse_dates to_datetime (transactions data) = inr df ->
  exists resp, fst (predict_expenses to_datetime data w) = Return resp.
Proof.
  intros Hne Hp.
  destruct (List.length (sort_values_date (of_type "expense" df)) <? 3)%nat eqn:E3.
  - unfold predict_expenses.
    rewrite (handler_prelude to_datetime data df) by assumption.
    rewrite E3, try_ret. eexists; reflexivity.
  - apply Nat.ltb_ge in E3. unfold sort_values_date in E3.
    rewrite sort_by_length in E3.
    destruct (predict_expenses_run to_datetime data df Hp E3)
      as (last & cats & _ & _ & _ & _ & _ & Hrun).
    eexists. apply Hrun.
Qed.

Lemma detect_anomalies_answers (data : TransactionData) (df : DataFrame) (w : World) :
  transactions data <> [] ->
  parse_dates to_datetime (transactions data) = inr df ->
  exists resp, fst (detect_anomalies to_datetime data w) = Return resp.
Proof.
  intros Hne Hp.
  destruct (List.length (sort_values_date (of_type "expense" df)) <? 5)%nat eqn:E5.
  - unfold detect_anomalies.
    rewrite (handler_prelude to_datetime data df) by assumption.
    rewrite E5, try_ret. eexists; reflexivity.
  - apply Nat.ltb_ge in E5. unfold sort_values_date in E5.
    rewrite sort_by_length in E5.
    destruct (detect_anomalies_run to_datetime data df Hp E5) as (found & Hrun & _).
    eexists. apply Hrun.
Qed.

(** X1: a handler ends in an exception exactly when the request has no
    transaction or [pd.to_datetime] rejects its date column; counts, months
    and amounts never make it fail (in particular [iloc] is never out of
    bounds). *)
Theorem handlers_fail_on_bad_requests_only (data : TransactionData) (w : World) :
  let bad_request :=
    transactions data = [] \/
    all_dates_parse to_datetime (transactions data) = false in
  (raised (fst (train_spending_model to_datetime data w)) <-> bad_request) /\
  (raised (fst (predict_expenses to_datetime data w)) <-> bad_request) /\
  (raised (fst (detect_anomalies to_datetime data w)) <-> bad_request) /\
  (raised (fst (forecast_income to_datetime data w)) <-> bad_request).
Proof.
  cbv zeta.
  pose proof (all_dates_parse_frame (transactions data)) as Hf.
  destruct (empty_or_not data) as [Et|Hne].
  { unfold train_spending_model, predict_expenses, detect_anomalies, forecast_income.
    rewrite !(handler_empty to_datetime) by exact Et.
    repeat split; intros _; simpl; auto. }
  destruct (all_dates_parse to_datetime (transactions data)).
  - destruct Hf as (df & Hp).
    destruct (train_spending_model_answers data df w Hne Hp) as (r1 & ->).
    destruct (predict_expenses_answers data df w Hne Hp) as (r2 & ->).
    destruct (detect_anomalies_answers data df w Hne Hp) as (r3 & ->).
    destruct (forecast_income_answers data df w Hne Hp) as (r4 & ->).
    simpl. repeat split; try tauto; intros [H|H]; congruence.
  - destruct Hf as (bad & Hp).
    unfold train_spending_model, predict_expenses, detect_anomalies, forecast_income.
    rewrite !(handler_bad_date to_datetime data bad) by assumption.
    repeat split; intros _; simpl; auto.
Qed.

(** The shape shared by the four handlers: when the analysis itself answers
    on every parsed frame, a failure can only come from the empty-list check
    or from the date column, and reaches the client as a logged 500. *)
Lemma wrapped_failure {A} (data : TransactionData) (k : DataFrame -> Run A)
      (what : string) (w : World) (e : Exception) :
  let handler :=
    try_except
      (require_transactions data ;;
       df <- load_frame to_datetime (transactions data) ;; k df)
      (server_error what) in
  (forall df, transactions data <> [] ->
              parse_dates to_datetime (transactions data) = inr df ->
              exists resp, fst (handler w) = Return resp) ->
  fst (handler w) = Raised e ->
  exists detail,
    e = HTTPException 500 detail /\
    logged (snd (handler w)) = logged w ++ [(ERROR, (what ++ detail)%string)].
Proof.
  cbv zeta. intros Hans H.
  pose proof (all_dates_parse_frame (transactions data)) as Hf.
  destruct (empty_or_not data) as [Et|Hne].
  { rewrite (handler_empty to_datetime) in * by exact Et.
    rewrite server_error_run in *. cbn [fst snd logged] in *.
    injection H as <-. eexists. split; reflexivity. }
  destruct (all_dates_parse to_datetime (transactions data)).
  - destruct Hf as (df & Hp). destruct (Hans df Hne Hp) as (r & Hr). congruence.
  - destruct Hf as (bad & Hp).
    rewrite (handler_bad_date to_datetime data bad) in * by assumption.
    rewrite server_error_run in *. cbn [fst snd logged] in *.
    injection H as <-. eexists. split; reflexivity.
Qed.

(** X2: whatever makes a handler fail, the client sees status 500, never a
    4xx, and the failure is logged once, at level ERROR, with the detail
    sent to the client. *)
Theorem handlers_raise_only_500 (data : TransactionData) (w : World) :
  (forall e, fst (train_spending_model to_datetime data w) = Raised e ->
     exists detail,
       e = HTTPException 500 detail /\
       logged (snd (train_spending_model to_datetime data w))
       = logged w ++ [(ERROR, ("Error training model: " ++ detail)%string)]) /\
  (forall e, fst (predict_expenses to_datetime data w) = Raised e ->
     exists detail,
       e = HTTPException 500 detail /\
       logged (snd (predict_expenses to_datetime data w))
       = logged w ++ [(ERROR, ("Error predicting expenses: " ++ detail)%string)]) /\
  (forall e, fst (detect_anomalies to_datetime data w) = Raised e ->
     exists detail,
       e = HTTPException 500 detail /\
       logged (snd (detect_anomalies to_datetime data w))
       = logged w ++ [(ERROR, ("Error detecting anomalies: " ++ detail)%string)]) /\
  (forall e, fst (forecast_income to_datetime data w) = Raised e ->
     exists detail,
       e = HTTPException 500 detail /\
       logged (snd (forecast_income to_datetime data w))
       = logged w ++ [(ERROR, ("Error forecasting income: " ++ detail)%string)]).
Proof.
  split; [|split; [|split]]; intros e.
  - apply wrapped_failure. intros df. apply train_spending_model_answers.
  - apply wrapped_failure. intros df. apply predict_expenses_answers.
  - apply wrapped_failure. intros df. apply detect_anomalies_answers.
  - apply wrapped_failure. intros df. apply forecast_income_answers.
Qed.

End Failures.

(** ** Shortfall responses *)

Section Shortfalls.

Variable to_datetime : list string -> string + list Timestamp.

Lemma unique_single {A} (eqb : A -> A -> bool) (l : list A) :
  (forall x y, eqb x y = true <-> x = y) ->
  (forall x y, In x l -> In y l -> x = y) ->
  (List.length (unique eqb l) <= 1)%nat.
Proof.
  intros Heq Hall.
  pose proof (unique_NoDup eqb Heq l) as Hnd.
  pose proof (unique_In eqb Heq l) as Hin.
  destruct (unique eqb l) as [|x [|y u]]; simpl; try lia.
  exfalso. inversion Hnd as [|? ? Hx _]; subst. apply Hx. left.
  apply Hall; apply Hin; simpl; auto.
Qed.

(** Rows that all fall in one month give a single monthly sum. *)
Lemma one_month (df rows : DataFrame) :
  Permutation df rows ->
  (forall a b, In a rows -> In b rows -> row_month a = row_month b) ->
  (List.length (groupby_month_sum df) <? 2)%nat = true.
Proof.
  intros Hp Hall. apply Nat.ltb_lt. rewrite groupby_month_sum_length.
  pose proof (unique_single Z.eqb (map row_month df) Z.eqb_eq) as H.
  enough (List.length (unique Z.eqb (map row_month df)) <= 1)%nat by lia.
  apply H. intros x y Hx Hy.
  apply in_map_iff in Hx, Hy.
  destruct Hx as (a & <- & Ha), Hy as (b & <- & Hb).
  apply Hall; eapply Permutation_in; eassumption.
Qed.

(** X3: train-spending-model answers a non-empty request whose dates parse
    with its first shortfall response when there are fewer than 3 expenses,
    and with its second one when there are at least 3 expenses that all fall
    in the same calendar month; neither is an error and neither is logged. *)
Theorem train_spending_model_shortfalls
        (data : TransactionData) (df : DataFrame) (w : World) :
  transactions data <> [] ->
  parse_dates to_datetime (transactions data) = inr df ->
  ((List.length (of_type "expense" df) < 3)%nat ->
   train_spending_model to_datetime data w
   = (Return {| predictions := [];
                model_accuracy := None;
                prediction_message :=
                  "Insufficient data for training. Need at least 3 transactions." |},
      w)) /\
  ((3 <= List.length (of_type "expense" df))%nat ->
   (forall a b, In a (of_type "expense" df) -> In b (of_type "expense" df) ->
                row_month a = row_month b) ->
   train_spending_model to_datetime data w
   = (Return {| predictions := [];
                model_accuracy := None;
                prediction_message := "Need at least 2 months of data for training" |},
      w)).
Proof.
  intros Hne Hp. unfold train_spending_model.
  rewrite (handler_prelude to_datetime data df) by assumption.
  assert (Hl : List.length (sort_values_date (of_type "expense" df))
               = List.length (of_type "expense" df)) by apply sort_by_length.
  split.
  - intros H. apply Nat.ltb_lt in H. rewrite Hl, H. reflexivity.
  - intros H Hall. apply Nat.ltb_ge in H. rewrite Hl, H.
    rewrite (one_month _ _ (sorted_rows_perm "expense" df) Hall). reflexivity.
Qed.

(** X4: forecast-income likewise: fewer than 3 incomes, or at least 3 incomes
    all in the same calendar month, give its two shortfall responses. *)
Theorem forecast_income_shortfalls
        (data : TransactionData) (df : DataFrame) (w : World) :
  transactions data <> [] ->
  parse_dates to_datetime (transactions data) = inr df ->
  ((List.length (of_type "income" df) < 3)%nat ->
   forecast_income to_datetime data w
   = (Return {| forecast := [];
                confidence_interval := None;
                forecast_message :=
                  "Insufficient income data for forecasting. Need at least 3 income transactions." |},
      w)) /\
  ((3 <= List.length (of_type "income" df))%nat ->
   (forall a b, In a (of_type "income" df) -> In b (of_type "income" df) ->
                row_month a = row_month b) ->
   forecast_income to_datetime data w
   = (Return {| forecast := [];
                confidence_interval := None;
                forecast_message := "Need at least 2 months of income data" |},
      w)).
Proof.
  intros Hne Hp. unfold forecast_income.
  rewrite (handler_prelude to_datetime data df) by assumption.
  assert (Hl : List.length (sort_values_date (of_type "income" df))
               = List.length (of_type "income" df)) by apply sort_by_length.
  split.
  - intros H. apply Nat.ltb_lt in H. rewrite Hl, H. reflexivity.
  - intros H Hall. apply Nat.ltb_ge in H. rewrite Hl, H.
    rewrite (one_month _ _ (sorted_rows_perm "income" df) Hall). reflexivity.
Qed.

(** X5: predict-expenses needs 3 expenses and detect-anomalies 5: below
    these counts a non-empty request whose dates parse gets the handler's
    shortfall response, without a draw of the generator and without a log
    entry. *)
Theorem predict_and_detect_shortfalls
        (data : TransactionData) (df : DataFrame) (w : World) :
  transactions data <> [] ->
  parse_dates to_datetime (transactions data) = inr df ->
  ((List.length (of_type "expense" df) < 3)%nat ->
   predict_expenses to_datetime data w
   = (Return {| predictions := [];
                model_accuracy := None;
                prediction_message :=
                  "Insufficient data for predictions. Need at least 3 transactions." |},
      w)) /\
  ((List.length (of_type "expense" df) < 5)%nat ->
   detect_anomalies to_datetime data w
   = (Return {| anomalies := [];
                total_anomalies := 0;
                anomaly_message := "Need at least 5 transactions for anomaly detection" |},
      w)).
Proof.
  intros Hne Hp. unfold predict_expenses, detect_anomalies.
  rewrite !(handler_prelude to_datetime data df) by assumption.
  assert (Hl : List.length (sort_values_date (of_type "expense" df))
               = List.length (of_type "expense" df)) by apply sort_by_length.
  split; intros H; apply Nat.ltb_lt in H; rewrite Hl, H; reflexivity.
Qed.

End Shortfalls.

(** ** The shape of the responses *)

Section Shapes.

Variable to_datetime : list string -> string + list Timestamp.

(** A handler that returned was given a non-empty request whose dates parse. *)
Lemma returned_frame {A} (data : TransactionData) (k : DataFrame -> Run A)
      (what : string) (w : World) (resp : A) :
  fst (try_except
         (require_transactions data ;;
          df <- load_frame to_datetime (transactions data) ;; k df)%run
         (server_error what) w) = Return resp ->
  exists df,
    transactions data <> [] /\
    parse_dates to_datetime (transactions data) = inr df /\
    fst (try_except (k df) (server_error what) w) = Return resp.
Proof.
  intros H.
  destruct (empty_or_not data) as [Et|Hne].
  { rewrite (handler_empty to_datetime) in H by exact Et. discriminate H. }
  destruct (parse_dates to_datetime (transactions data)) as [bad|df] eqn:Hp.
  { rewrite (handler_bad_date to_datetime data bad) in H by assumption.
    discriminate H. }
  exists df. rewrite (handler_prelude to_datetime data df) in H by assumption.
  auto.
Qed.

(** X6: a response carries either nothing or a full result.  In
    train-spending-model and predict-expenses [predictions] is empty exactly
    when [model_accuracy] is absent; otherwise train-spending-model returns
    one summary with accuracy and confidence 0.75, and predict-expenses three
    monthly projections with accuracy 0.80 that all list the same categories.
    forecast-income returns no point or three, and never fills
    [confidence_interval]. *)
Theorem responses_are_empty_or_full (data : TransactionData) (w : World) :
  (forall resp,
      fst (train_spending_model to_datetime data w) = Return resp ->
      (predictions resp = [] /\ model_accuracy resp = None) \/
      (exists avg recent,
          predictions resp = [SpendingSummary avg recent (75 / 100)%R] /\
          model_accuracy resp = Some (75 / 100)%R)) /\
  (forall resp,
      fst (predict_expenses to_datetime data w) = Return resp ->
      (predictions resp = [] /\ model_accuracy resp = None) \/
      (exists l1 t1 c1 l2 t2 c2 l3 t3 c3,
          predictions resp
          = [MonthProjection l1 t1 c1; MonthProjection l2 t2 c2;
             MonthProjection l3 t3 c3] /\
          map fst c1 = map fst c2 /\ map fst c2 = map fst c3 /\
          model_accuracy resp = Some (80 / 100)%R)) /\
  (forall resp,
      fst (forecast_income to_datetime data w) = Return resp ->
      confidence_interval resp = None /\
      (forecast resp = [] \/ List.length (forecast resp) = 3%nat)).
Proof.
  split; [|split]; intros resp H.
  - unfold train_spending_model in H.
    apply returned_frame in H. destruct H as (df & _ & _ & H).
    destruct (List.length (sort_values_date (of_type "expense" df)) <? 3)%nat;
      [|destruct (List.length (groupby_month_sum
                                 (sort_values_date (of_type "expense" df))) <? 2)%nat];
      rewrite ?try_ret, ?try_log_ret in H; injection H as <-; cbn; eauto.
  - pose proof H as H'. unfold predict_expenses in H'.
    apply returned_frame in H'. destruct H' as (df & Hne & Hp & H').
    destruct (List.length (sort_values_date (of_type "expense" df)) <? 3)%nat eqn:E3.
    + rewrite try_ret in H'. injection H' as <-. cbn. auto.
    + apply Nat.ltb_ge in E3. unfold sort_values_date in E3.
      rewrite sort_by_length in E3.
      destruct (predict_expenses_run to_datetime data df Hp E3)
        as (last & cats & _ & _ & _ & _ & _ & Hrun).
      rewrite Hrun in H. injection H as <-. right. unfold reported.
      do 9 eexists. cbn [predictions model_accuracy].
      split; [reflexivity|].
      rewrite !map_map. cbn [fst].
      assert (Hk : forall draws means,
                 map (fun x => fst x) (perturbed draws means) = map fst means).
      { intros draws means. revert draws.
        induction means as [|[c a] means IH]; intros draws; simpl;
          [reflexivity | now rewrite IH]. }
      rewrite !Hk. auto.
  - unfold forecast_income in H.
    apply returned_frame in H. destruct H as (df & _ & _ & H).
    destruct (List.length (sort_values_date (of_type "income" df)) <? 3)%nat;
      [|destruct (List.length (groupby_month_sum
                                 (sort_values_date (of_type "income" df))) <? 2)%nat];
      rewrite ?try_ret, ?try_log_ret in H; injection H as <-; cbn; auto.
Qed.

End Shapes.

(** ** More on train-spending-model and detect-anomalies *)

Section Analyses.

Variable to_datetime : list string -> string + list Timestamp.

Lemma unique_length_perm {A} (eqb : A -> A -> bool) (l l' : list A) :
  (forall x y, eqb x y = true <-> x = y) ->
  Permutation l l' ->
  List.length (unique eqb l) = List.length (unique eqb l').
Proof.
  intros Heq Hp. apply Permutation_length.
  apply NoDup_Permutation; try (apply unique_NoDup; exact Heq).
  intros x. rewrite !(unique_In eqb Heq).
  split; apply Permutation_in; [|apply Permutation_sym]; exact Hp.
Qed.

(** X7: while the expenses cover at most 3 distinct months, the recent trend
    that train-spending-model reports is its average monthly spending. *)
Theorem recent_trend_is_average_up_to_three_months
        (data : TransactionData) (df : DataFrame) (w : World) :
  parse_dates to_datetime (transactions data) = inr df ->
  (List.length (unique Z.eqb (map row_month (of_type "expense" df))) <= 3)%nat ->
  forall resp avg recent confidence,
    fst (train_spending_model to_datetime data w) = Return resp ->
    In (SpendingSummary avg recent confidence) (predictions resp) ->
    recent = avg.
Proof.
  intros Hp Hm resp avg recent confidence H Hin.
  unfold train_spending_model in H.
  apply returned_frame in H. destruct H as (df' & _ & Hp' & H).
  assert (df' = df) by congruence. subst df'.
  destruct (List.length (sort_values_date (of_type "expense" df)) <? 3)%nat;
    [|destruct (List.length (groupby_month_sum
                               (sort_values_date (of_type "expense" df))) <? 2)%nat];
    rewrite ?try_ret, ?try_log_ret in H; injection H as <-;
    cbn [predictions] in Hin; try contradiction.
  destruct Hin as [Hin|[]]. injection Hin as <- <- _.
  f_equal. unfold tail.
  replace (List.length (map snd (groupby_month_sum
                                   (sort_values_date (of_type "expense" df)))) - 3)%nat
    with 0%nat; [reflexivity|].
  rewrite length_map, groupby_month_sum_length.
  rewrite (unique_length_perm Z.eqb _ (map row_month (of_type "expense" df)) Z.eqb_eq).
  - lia.
  - apply Permutation_map, sorted_rows_perm.
Qed.

(** X8: every anomaly record is consistent with itself: its z-score exceeds
    2, its amount lies outside its own expected range, that range is not
    empty, and its severity is high exactly when the z-score exceeds 3. *)
Theorem anomaly_records_are_consistent
        (data : TransactionData) (w : World) (resp : AnomalyResponse) (r : Anomaly) :
  fst (detect_anomalies to_datetime data w) = Return resp ->
  In r (anomalies resp) ->
  (z_score r > 2)%R /\
  (anomaly_amount r < expected_min r \/ expected_max r < anomaly_amount r)%R /\
  (expected_min r < expected_max r)%R /\
  (severity r = high <-> (z_score r > 3)%R).
Proof.
  intros H Hin. pose proof H as H'. unfold detect_anomalies in H'.
  apply returned_frame in H'. destruct H' as (df & Hne & Hp & H').
  destruct (List.length (sort_values_date (of_type "expense" df)) <? 5)%nat eqn:E5.
  { rewrite try_ret in H'. injection H' as <-. destruct Hin. }
  apply Nat.ltb_ge in E5. unfold sort_values_date in E5. rewrite sort_by_length in E5.
  destruct (detect_anomalies_run to_datetime data df Hp E5) as (found & Hrun & Hchar).
  rewrite Hrun in H. injection H as <-. cbn [anomalies] in Hin.
  apply Hchar in Hin. destruct Hin as (t & (_ & _ & Hs & Hz) & ->).
  unfold anomaly_of. cbv zeta.
  cbn [z_score anomaly_amount expected_min expected_max severity].
  set (amounts := category_amounts (of_type "expense" df) (category t)) in *.
  assert (Hpos : (0 < pop_std amounts)%R).
  { pose proof (pop_std_nonneg amounts). lra. }
  assert (Hdev : (2 * pop_std amounts < Rabs (amount t - arith_mean amounts))%R).
  { unfold z_of in Hz. apply Rgt_lt in Hz.
    apply (Rmult_lt_compat_r (pop_std amounts)) in Hz; [|exact Hpos].
    unfold Rdiv in Hz. rewrite Rmult_assoc, Rinv_l, Rmult_1_r in Hz by lra.
    exact Hz. }
  split; [exact Hz|]. split; [|split].
  - unfold Rabs in Hdev. destruct (Rcase_abs (amount t - arith_mean amounts)); lra.
  - lra.
  - destruct (Rgt_dec (z_of amounts (amount t)) 3); split; intros; auto;
      [discriminate | contradiction].
Qed.

Lemma Rsum_constant (l : list R) (v : R) :
  (forall x, In x l -> x = v) -> Rsum l = (INR (List.length l) * v)%R.
Proof.
  induction l as [|x l IH]; intros H.
  - simpl. lra.
  - cbn [Rsum fold_right List.length]. fold (Rsum l).
    rewrite IH by (intros y Hy; apply H; now right).
    rewrite (H x) by now left. rewrite S_INR. lra.
Qed.

(** Equal amounts have no spread. *)
Lemma pop_std_constant (l : list R) :
  (forall x y, In x l -> In y l -> x = y) -> pop_std l = 0%R.
Proof.
  intros H. destruct l as [|v l].
  - unfold pop_std. simpl. unfold Rdiv. rewrite Rmult_0_l. apply sqrt_0.
  - assert (Hv : forall x, In x (v :: l) -> x = v).
    { intros x Hx. apply H; [exact Hx | now left]. }
    assert (Hn : (0 < INR (List.length (v :: l)))%R) by (apply lt_0_INR; simpl; lia).
    assert (Hm : arith_mean (v :: l) = v).
    { unfold arith_mean. rewrite (Rsum_constant _ v Hv). field. lra. }
    unfold pop_std. rewrite Hm.
    rewrite (Rsum_constant _ 0%R).
    + rewrite length_map. unfold Rdiv. rewrite Rmult_0_r, Rmult_0_l. apply sqrt_0.
    + intros x Hx. apply in_map_iff in Hx. destruct Hx as (y & <- & Hy).
      rewrite (Hv y Hy). lra.
Qed.

(** X9: a category whose expenses all have the same amount is never
    reported, however many expenses it has. *)
Theorem constant_category_is_never_flagged
        (data : TransactionData) (df : DataFrame) (w : World) (c : string) :
  parse_dates to_datetime (transactions data) = inr df ->
  (forall a b, In a (category_amounts (of_type "expense" df) c) ->
               In b (category_amounts (of_type "expense" df) c) -> a = b) ->
  match fst (detect_anomalies to_datetime data w) with
  | Return resp => forall r, In r (anomalies resp) -> anomaly_category r <> c
  | Raised _ => True
  end.
Proof.
  intros Hp Hconst.
  destruct (fst (detect_anomalies to_datetime data w)) as [resp|e] eqn:H; [|exact I].
  intros r Hin Hc.
  pose proof H as H'. unfold detect_anomalies in H'.
  apply returned_frame in H'. destruct H' as (df' & Hne & Hp' & H').
  assert (df' = df) by congruence. subst df'.
  destruct (List.length (sort_values_date (of_type "expense" df)) <? 5)%nat eqn:E5.
  { rewrite try_ret in H'. injection H' as <-. destruct Hin. }
  apply Nat.ltb_ge in E5. unfold sort_values_date in E5. rewrite sort_by_length in E5.
  destruct (detect_anomalies_run to_datetime data df Hp E5) as (found & Hrun & Hchar).
  rewrite Hrun in H. injection H as <-. cbn [anomalies] in Hin.
  apply Hchar in Hin. destruct Hin as (t & (_ & _ & Hs & _) & ->).
  cbn [anomaly_of anomaly_category] in Hc. rewrite Hc in Hs.
  apply Hs, pop_std_constant, Hconst.
Qed.

(** *** How many expenses can be flagged *)

Local Open Scope R_scope.

Lemma Rsum_filter_le {A} (g : A -> R) (p : A -> bool) (l : list A) :
  (forall y, 0 <= g y) -> Rsum (map g (filter p l)) <= Rsum (map g l).
Proof.
  intros Hg. induction l as [|y l IH]; simpl; [lra|].
  pose proof (Hg y). destruct (p y); simpl; unfold Rsum in *; lra.
Qed.

Lemma Rsum_at_least {A} (g : A -> R) (c : R) (l : list A) :
  (forall y, In y l -> c <= g y) -> INR (List.length l) * c <= Rsum (map g l).
Proof.
  induction l as [|y l IH]; intros H.
  - simpl. lra.
  - cbn [map Rsum fold_right List.length]. fold (Rsum (map g l)).
    rewrite S_INR. pose proof (H y (or_introl eq_refl)).
    assert (INR (List.length l) * c <= Rsum (map g l))
      by (apply IH; intros z Hz; apply H; now right).
    lra.
Qed.

(** Chebyshev's bound at two standard deviations: fewer than a quarter of
    the values have a z-score above 2. *)
Lemma quarter_bound (l : list R) :
  pop_std l <> 0 ->
  (4 * List.length
         (filter (fun x => if Rgt_dec (z_of l x) 2 then true else false) l)
   <= List.length l)%nat.
Proof.
  intros Hs.
  assert (Hpos : 0 < pop_std l) by (pose proof (pop_std_nonneg l); lra).
  assert (Hne : l <> []).
  { intros ->. unfold pop_std in Hs. simpl in Hs. unfold Rdiv in Hs.
    rewrite Rmult_0_l, sqrt_0 in Hs. now apply Hs. }
  assert (Hn : 0 < INR (List.length l)).
  { destruct l; [contradiction|]. apply lt_0_INR. simpl. lia. }
  set (g := fun y => (y - arith_mean l) * (y - arith_mean l)).
  set (flagged := filter (fun x => if Rgt_dec (z_of l x) 2 then true else false) l).
  pose proof (squares_nonneg (fun y => y - arith_mean l) l) as Hq. cbv beta in Hq.
  assert (Hss : pop_std l * pop_std l = Rsum (map g l) / INR (List.length l)).
  { unfold pop_std. apply sqrt_def.
    apply Rmult_le_pos; [exact Hq|]. left. now apply Rinv_0_lt_compat. }
  assert (Hlow : INR (List.length flagged) * (4 * (pop_std l * pop_std l))
                 <= Rsum (map g flagged)).
  { apply Rsum_at_least. intros y Hy. apply filter_In in Hy. destruct Hy as [_ Hy].
    destruct (Rgt_dec (z_of l y) 2) as [Hz|]; [|discriminate].
    unfold z_of in Hz. apply Rgt_lt in Hz.
    apply (Rmult_lt_compat_r (pop_std l)) in Hz; [|exact Hpos].
    unfold Rdiv in Hz. rewrite Rmult_assoc, Rinv_l, Rmult_1_r in Hz by lra.
    unfold g. set (d := y - arith_mean l) in *.
    assert (Habs : Rabs d * Rabs d = d * d)
      by (unfold Rabs; destruct (Rcase_abs d); ring).
    rewrite <- Habs. pose proof (Rabs_pos d). nra. }
  assert (Hup : Rsum (map g flagged) <= Rsum (map g l)).
  { apply Rsum_filter_le. intros y. unfold g.
    pose proof (Rle_0_sqr (y - arith_mean l)) as Hsq. unfold Rsqr in Hsq. exact Hsq. }
  assert (Hk : INR (4 * List.length flagged) <= INR (List.length l)).
  { rewrite mult_INR. replace (INR 4) with 4 by (simpl; lra).
    assert (HS : Rsum (map g l) = INR (List.length l) * (pop_std l * pop_std l)).
    { rewrite Hss. field. lra. }
    assert (Hv : 0 < pop_std l * pop_std l) by nra.
    apply (Rmult_le_reg_r (pop_std l * pop_std l)); [exact Hv|]. lra. }
  apply INR_le in Hk. exact Hk.
Qed.

Local Close Scope R_scope.

Lemma filter_map_length {A B} (f : A -> B) (p : B -> bool) (l : list A) :
  List.length (filter (fun a => p (f a)) l) = List.length (filter p (map f l)).
Proof.
  induction l as [|a l IH]; simpl; [reflexivity|].
  destruct (p (f a)); simpl; now rewrite IH.
Qed.

(** One category adds at most a quarter of its rows to the anomalies. *)
Lemma scan_category_quarter (df : DataFrame) (c : string) :
  exists found : list Anomaly,
    (forall acc w, scan_category df c acc w = (Return (acc ++ found), w)) /\
    (4 * List.length found
     <= List.length (filter (fun r => (category r =? c)%string) df))%nat.
Proof.
  unfold scan_category.
  set (cdf := filter (fun r => (category r =? c)%string) df).
  destruct (List.length cdf <? 3)%nat.
  { exists []. split; [intros; unfold ret; now rewrite app_nil_r | simpl; lia]. }
  destruct (Req_dec_T (np.std (map amount cdf)) 0) as [E0|E0].
  { exists []. split; [intros; unfold ret; now rewrite app_nil_r | simpl; lia]. }
  set (zf := fun t : Row =>
               Rabs ((amount t - np.mean (map amount cdf))
                     / np.std (map amount cdf))%R).
  eexists. split.
  - intros acc w. unfold np_divide.
    destruct (Req_dec_T (np.std (map amount cdf)) 0) as [E0'|_]; [contradiction|].
    unfold bind, ret, enumerate. cbv beta iota.
    rewrite !map_map, length_map.
    apply (flag_outliers_run cdf _ _ zf cdf 0 acc w). reflexivity.
  - rewrite length_map.
    assert (Hz : forall t, zf t = z_of (map amount cdf) (amount t)).
    { intros t. unfold zf, z_of. rewrite np_mean_arith, np_std_pop.
      apply abs_quotient; [apply pop_std_nonneg | now rewrite <- np_std_pop]. }
    assert (Hf : filter (fun t => if Rgt_dec (zf t) 2 then true else false) cdf
                 = filter (fun t => (fun x => if Rgt_dec (z_of (map amount cdf) x) 2
                                              then true else false) (amount t)) cdf)
      by (apply filter_ext; intros t; now rewrite Hz).
    pose proof (filter_map_length
                  amount
                  (fun x => if Rgt_dec (z_of (map amount cdf) x) 2 then true else false)
                  cdf) as Hl.
    cbv beta in Hf, Hl. rewrite Hf, Hl.
    assert (Hc : List.length cdf = List.length (map amount cdf))
      by (symmetry; apply length_map).
    rewrite Hc. apply quarter_bound. now rewrite <- np_std_pop.
Qed.

(** The rows of distinct categories are distinct rows. *)
Lemma category_counts (df : DataFrame) (cats : list string) :
  NoDup cats ->
  (list_sum (map (fun c => List.length (filter (fun r => (category r =? c)%string) df)) cats)
   <= List.length df)%nat.
Proof.
  intros Hnd. induction df as [|r df IH].
  - induction cats as [|c cats IHc]; simpl; [lia|].
    inversion Hnd; subst. specialize (IHc H2). simpl in IHc. lia.
  - assert (H : forall cs, NoDup cs ->
                list_sum (map (fun c => List.length
                                          (filter (fun r0 => (category r0 =? c)%string) (r :: df))) cs)
                = ((if existsb (String.eqb (category r)) cs then 1 else 0)
                   + list_sum (map (fun c => List.length
                                               (filter (fun r0 => (category r0 =? c)%string) df)) cs))%nat).
    { clear. induction cs as [|c cs IHc]; intros Hnd; [reflexivity|].
      inversion Hnd as [|? ? Hc Hnd']; subst.
      rewrite !map_cons. cbn [list_sum fold_right]. fold (@list_sum).
      unfold list_sum in *. rewrite (IHc Hnd'). cbn [existsb filter].
      destruct (String.eqb_spec (category r) c) as [E|E].
      - assert (Hex : existsb (String.eqb (category r)) cs = false).
        { apply not_true_is_false. intros Hex. apply existsb_exists in Hex.
          destruct Hex as (x & Hx & Ex). apply String.eqb_eq in Ex.
          apply Hc. congruence. }
        rewrite Hex. cbn [orb List.length]. lia.
      - cbn [orb]. lia. }
    rewrite (H cats Hnd). cbn [List.length].
    destruct (existsb (String.eqb (category r)) cats); lia.
Qed.

Lemma scan_categories_quarter (df : DataFrame) (cats : list string) :
  exists found : list Anomaly,
    (forall acc w, scan_categories df cats acc w = (Return (acc ++ found), w)) /\
    (4 * List.length found
     <= list_sum (map (fun c => List.length (filter (fun r => (category r =? c)%string) df))
                      cats))%nat.
Proof.
  induction cats as [|c cats (rest & Hrun & Hlen)].
  - exists []. split; [|simpl; lia].
    intros acc w. simpl. unfold ret. now rewrite app_nil_r.
  - destruct (scan_category_quarter df c) as (here & Hrun1 & Hlen1).
    exists (here ++ rest). split.
    + intros acc w. cbn [scan_categories]. unfold bind.
      rewrite Hrun1, Hrun, app_assoc. reflexivity.
    + rewrite length_app, map_cons.
      change (list_sum (?x :: ?l)) with (x + list_sum l)%nat. lia.
Qed.

(** X11: detect-anomalies reports at most a quarter of the expenses (in
    each category fewer than a quarter have a z-score above 2). *)
Theorem at_most_a_quarter_is_flagged
        (data : TransactionData) (w : World) (resp : AnomalyResponse) :
  fst (detect_anomalies to_datetime data w) = Return resp ->
  exists df : DataFrame,
    parse_dates to_datetime (transactions data) = inr df /\
    (4 * total_anomalies resp <= List.length (of_type "expense" df))%nat.
Proof.
  intros H. unfold detect_anomalies in H.
  apply returned_frame in H. destruct H as (df & Hne & Hp & H).
  exists df. split; [exact Hp|].
  destruct (List.length (sort_values_date (of_type "expense" df)) <? 5)%nat eqn:E5.
  { rewrite try_ret in H. injection H as <-. simpl. lia. }
  destruct (scan_categories_quarter
              (sort_values_date (of_type "expense" df))
              (unique String.eqb
                      (map category (sort_values_date (of_type "expense" df)))))
    as (found & Hrun & Hlen).
  unfold try_except, bind in H. rewrite Hrun in H.
  injection H as <-. cbn [total_anomalies app].
  pose proof (category_counts
                (sort_values_date (of_type "expense" df))
                (unique String.eqb
                        (map category (sort_values_date (of_type "expense" df))))
                (unique_NoDup String.eqb String.eqb_eq _)) as Hc.
  unfold sort_values_date in Hc at 3. rewrite sort_by_length in Hc. lia.
Qed.

End Analyses.

(** ** More on predict-expenses *)

Section Projections.

Variable to_datetime : list string -> string + list Timestamp.

(** X12: a projecting call of predict-expenses takes exactly three draws per
    category from numpy's global generator, one for each month and category,
    leaves the warnings alone and logs one line; the next user of the
    generator sees the draw that follows. *)
Theorem predict_expenses_draws
        (data : TransactionData) (df : DataFrame) (w : World) :
  parse_dates to_datetime (transactions data) = inr df ->
  (3 <= List.length (of_type "expense" df))%nat ->
  exists cats : list string,
    NoDup cats /\
    (forall c, In c cats <->
               exists r, In r (of_type "expense" df) /\ category r = c) /\
    (forall k, random_state (snd (predict_expenses to_datetime data w)) k
               = random_state w (3 * List.length cats + k)%nat) /\
    warned (snd (predict_expenses to_datetime data w)) = warned w /\
    logged (snd (predict_expenses to_datetime data w))
    = logged w ++ [(INFO, "Generated predictions for 3 months")].
Proof.
  intros Hp Hlen.
  pose proof (sorted_rows_perm "expense" df) as Hperm.
  destruct (groupby_category_mean_spec _ _ Hperm) as (cats & Hnd & Hin & Hg).
  exists cats. split; [exact Hnd|]. split; [exact Hin|].
  unfold predict_expenses.
  rewrite (handler_prelude to_datetime data df) by (eauto using nonempty_of_rows).
  assert (H3 : (3 <= List.length (sort_values_date (of_type "expense" df)))%nat).
  { unfold sort_values_date. now rewrite sort_by_length. }
  apply Nat.ltb_ge in H3.
  unfold try_except. unfold bind at 1. rewrite H3.
  assert (Hk : NoDup (map fst (groupby_category_mean
                                 (sort_values_date (of_type "expense" df))))).
  { rewrite Hg, map_map. cbn [fst]. now rewrite map_id. }
  cbn [for_each]. unfold bind.
  rewrite !project_month_run by exact Hk.
  unfold ret, logger, after_draws.
  cbn [fst snd random_state warned logged List.length].
  rewrite Hg, length_map.
  repeat split. intros k. f_equal. lia.
Qed.

Lemma rounded_sum_error (xs : list R) :
  (Rabs (Rsum (map round2 xs) - Rsum xs) <= INR (List.length xs) * (5 / 1000))%R.
Proof.
  induction xs as [|x xs IH].
  - simpl. rewrite Rminus_diag, Rabs_R0. lra.
  - cbn [map Rsum fold_right List.length]. fold (Rsum xs). fold (Rsum (map round2 xs)).
    rewrite S_INR. pose proof (round2_error x) as Hx.
    apply Rabs_le_bounds in Hx, IH. apply Rabs_le. lra.
Qed.

(** X13: in every month predict-expenses reports, the total and the sum of
    the per-category amounts differ by at most half a cent for each category
    and half a cent for the total. *)
Theorem reported_total_is_close_to_the_sum
        (data : TransactionData) (w : World) (resp : PredictionResponse)
        (label : string) (total : R) (by_category : list (string * R)) :
  fst (predict_expenses to_datetime data w) = Return resp ->
  In (MonthProjection label total by_category) (predictions resp) ->
  (Rabs (total - Rsum (map snd by_category))
   <= (INR (List.length by_category) + 1) * (5 / 1000))%R.
Proof.
  intros H Hin.
  destruct (predict_expenses_reported to_datetime data w resp _ H Hin)
    as (df & label' & amounts & w' & _ & _ & E).
  injection E as _ -> ->.
  rewrite map_map. cbn [snd]. rewrite length_map.
  rewrite <- (map_map snd round2).
  pose proof (rounded_sum_error (map snd amounts)) as H1.
  pose proof (round2_error (Rsum (map snd amounts))) as H2.
  rewrite length_map in H1.
  apply Rabs_le_bounds in H1, H2. apply Rabs_le. lra.
Qed.

End Projections.

(** ** More on forecast-income *)

Section Forecasts.

Variable to_datetime : list string -> string + list Timestamp.

Local Open Scope R_scope.

Lemma round_half_even_mono (x y : R) :
  x <= y -> (round_half_even x <= round_half_even y)%Z.
Proof.
  intros Hxy.
  pose proof (Zfloor_le x y Hxy) as Hf.
  pose proof (Zfloor_bound x) as [Hx1 Hx2].
  pose proof (Zfloor_bound y) as [Hy1 Hy2].
  assert (Hlo : forall t, (Zfloor t <= round_half_even t <= Zfloor t + 1)%Z).
  { intros t. unfold round_half_even.
    destruct (Rlt_dec (t - IZR (Zfloor t)) (1 / 2));
      [|destruct (Rlt_dec (1 / 2) (t - IZR (Zfloor t)));
        [|destruct (Z.even (Zfloor t))]]; lia. }
  destruct (Z.eq_dec (Zfloor x) (Zfloor y)) as [E|E].
  - unfold round_half_even. rewrite E in *.
    destruct (Rlt_dec (x - IZR (Zfloor y)) (1 / 2)) as [Hx|Hx].
    + destruct (Rlt_dec (y - IZR (Zfloor y)) (1 / 2));
        [|destruct (Rlt_dec (1 / 2) (y - IZR (Zfloor y)));
          [|destruct (Z.even (Zfloor y))]]; lia.
    + destruct (Rlt_dec (1 / 2) (x - IZR (Zfloor y))) as [Hx'|Hx'].
      * destruct (Rlt_dec (y - IZR (Zfloor y)) (1 / 2)); [lra|].
        destruct (Rlt_dec (1 / 2) (y - IZR (Zfloor y))); [lia | lra].
      * destruct (Rlt_dec (y - IZR (Zfloor y)) (1 / 2)); [lra|].
        destruct (Rlt_dec (1 / 2) (y - IZR (Zfloor y)));
          destruct (Z.even (Zfloor y)); lia.
  - pose proof (Hlo x). pose proof (Hlo y). lia.
Qed.

(** Rounding to cents keeps the order. *)
Lemma round2_mono (x y : R) : x <= y -> round2 x <= round2 y.
Proof.
  intros H. unfold round2.
  assert (Hz : (round_half_even (x * 100) <= round_half_even (y * 100))%Z)
    by (apply round_half_even_mono; lra).
  apply IZR_le in Hz. lra.
Qed.

Lemma np_sum_nonneg (l : list R) : (forall x, In x l -> 0 <= x) -> 0 <= np.sum l.
Proof.
  intros H. rewrite np_sum_Rsum. apply Rsum_nonneg. now apply Forall_forall.
Qed.

Lemma np_mean_nonneg (l : list R) : (forall x, In x l -> 0 <= x) -> 0 <= np.mean l.
Proof.
  intros H. unfold np.mean. pose proof (np_sum_nonneg l H).
  destruct l as [|y l].
  - unfold np.sum. simpl. unfold Rdiv. rewrite Rmult_0_l. lra.
  - apply Rmult_le_pos; [assumption|]. left. apply Rinv_0_lt_compat.
    apply lt_0_INR. simpl. lia.
Qed.

(** X14: when no income amount is negative, every forecast point has
    [confidence_lower <= predicted_income <= confidence_upper], also after
    rounding. *)
Theorem forecast_bounds_enclose_the_prediction
        (data : TransactionData) (df : DataFrame) (w : World) :
  parse_dates to_datetime (transactions data) = inr df ->
  (forall r, In r (of_type "income" df) -> 0 <= amount r) ->
  forall resp p,
    fst (forecast_income to_datetime data w) = Return resp ->
    In p (forecast resp) ->
    confidence_lower p <= predicted_income p <= confidence_upper p.
Proof.
  intros Hp Hpos resp p H Hin.
  unfold forecast_income in H.
  apply returned_frame in H. destruct H as (df' & _ & Hp' & H).
  assert (df' = df) by congruence. subst df'.
  destruct (List.length (sort_values_date (of_type "income" df)) <? 3)%nat;
    [|destruct (List.length (groupby_month_sum
                               (sort_values_date (of_type "income" df))) <? 2)%nat];
    rewrite ?try_ret, ?try_log_ret in H; injection H as <-;
    cbn [forecast] in Hin; try contradiction.
  set (sums := map snd (groupby_month_sum (sort_values_date (of_type "income" df)))) in *.
  assert (Hmean : 0 <= np.mean sums).
  { apply np_mean_nonneg. intros x Hx. unfold sums, groupby_month_sum in Hx.
    rewrite map_map in Hx. cbn [snd] in Hx. apply in_map_iff in Hx.
    destruct Hx as (m & <- & _). apply np_sum_nonneg.
    intros a Ha. apply in_map_iff in Ha. destruct Ha as (r & <- & Hr).
    apply filter_In in Hr. destruct Hr as [Hr _].
    apply Hpos. eapply Permutation_in; [apply sorted_rows_perm | exact Hr]. }
  destruct Hin as [<-|[<-|[<-|[]]]];
    unfold forecast_point; cbv zeta;
    cbn [confidence_lower predicted_income confidence_upper];
    split; apply round2_mono; lra.
Qed.

(** *** Incomes on a straight line *)

Lemma Rsum_snoc (l : list R) (x : R) : Rsum (l ++ [x]) = Rsum l + x.
Proof. induction l as [|y l IH]; simpl; [lra | unfold Rsum in *; rewrite IH; lra]. Qed.

Lemma sum_indices (n : nat) : 2 * Rsum (indices n) = INR n * (INR n - 1).
Proof.
  unfold indices. induction n as [|n IH].
  - simpl. lra.
  - rewrite seq_S, map_app. cbn [map Nat.add]. rewrite Rsum_snoc.
    rewrite S_INR. unfold Rsum in *. lra.
Qed.

Lemma mean_indices (n : nat) : (0 < n)%nat -> arith_mean (indices n) = (INR n - 1) / 2.
Proof.
  intros Hn. unfold arith_mean. rewrite indices_length.
  pose proof (sum_indices n). assert (0 < INR n) by now apply lt_0_INR.
  apply (Rmult_eq_reg_l (2 * INR n)); [|lra]. field_simplify; lra.
Qed.

Lemma arith_mean_affine (xs : list R) (a b : R) :
  xs <> [] -> arith_mean (map (fun x => a + b * x) xs) = a + b * arith_mean xs.
Proof.
  intros Hne.
  assert (Hn : 0 < INR (List.length xs)).
  { destruct xs; [contradiction|]. apply lt_0_INR. simpl. lia. }
  assert (H : Rsum (map (fun x => a + b * x) xs)
              = INR (List.length xs) * a + b * Rsum xs).
  { clear. induction xs as [|x xs IH].
    - simpl. lra.
    - cbn [map Rsum fold_right List.length]. unfold Rsum in *.
      rewrite IH, S_INR. lra. }
  unfold arith_mean. rewrite length_map, H. field. lra.
Qed.

(** The least-squares slope of points on a line is the slope of the line. *)
Lemma ols_slope_linear (n : nat) (a b : R) :
  (2 <= n)%nat -> ols_slope (map (fun x => a + b * x) (indices n)) = b.
Proof.
  intros Hn. unfold ols_slope. rewrite length_map, indices_length.
  assert (Hne : indices n <> []).
  { intros E. apply (f_equal (@List.length R)) in E.
    rewrite indices_length in E. simpl in E. lia. }
  rewrite arith_mean_affine by exact Hne.
  pose proof (indices_spread n (arith_mean (indices n)) Hn) as Hpos.
  set (xs := indices n) in *. set (m := arith_mean xs) in *.
  assert (Hnum : forall (l : list R) (c : R),
             Rsum (map (fun p => (fst p - c) * (snd p - (a + b * c)))
                       (combine l (map (fun x => a + b * x) l)))
             = b * Rsum (map (fun x => (x - c) * (x - c)) l)).
  { clear. intros l c. induction l as [|x l IH].
    - simpl. lra.
    - cbn [map combine Rsum fold_right fst snd]. unfold Rsum in *.
      rewrite IH. lra. }
  rewrite (Hnum xs m). field. lra.
Qed.

(** X15: when the monthly income totals lie exactly on a line,
    [a + b * k] for the k-th month (k from 0), the fitted trend is [b] and
    the forecast [i] months ahead is the line's own value [a + b * (n - 1 + i)]
    plus [b * (n + 1) / 2], rounded to cents: the global mean is added to the
    trend taken at [n + i], as the code writes it. *)
Theorem forecast_of_linear_income
        (data : TransactionData) (df : DataFrame) (w : World) (n : nat) (a b : R) :
  parse_dates to_datetime (transactions data) = inr df ->
  (3 <= List.length (of_type "income" df))%nat ->
  (2 <= n)%nat ->
  map snd (groupby_month_sum (sort_values_date (of_type "income" df)))
  = map (fun x => a + b * x) (indices n) ->
  exists resp,
    fst (forecast_income to_datetime data w) = Return resp /\
    map predicted_income (forecast resp)
    = map (fun i => round2 (a + b * (INR n - 1 + IZR i) + b * (INR n + 1) / 2))
          [1; 2; 3]%Z.
Proof.
  intros Hp Hlen Hn Hlin. unfold forecast_income.
  rewrite (handler_prelude to_datetime data df) by (eauto using nonempty_of_rows).
  assert (H3 : (3 <= List.length (sort_values_date (of_type "income" df)))%nat).
  { unfold sort_values_date. now rewrite sort_by_length. }
  apply Nat.ltb_ge in H3. rewrite H3.
  assert (Hlen' : List.length (groupby_month_sum
                                 (sort_values_date (of_type "income" df))) = n).
  { rewrite <- (length_map snd), Hlin, length_map. apply indices_length. }
  assert (H2 : (List.length (groupby_month_sum
                               (sort_values_date (of_type "income" df))) <? 2)%nat
               = false) by (apply Nat.ltb_ge; lia).
  rewrite H2, try_log_ret. eexists. split; [reflexivity|].
  cbn [fst forecast map predicted_income forecast_point].
  assert (Hsl : fst (np.polyfit1
                       (np.arange (List.length
                                     (map snd (groupby_month_sum
                                                 (sort_values_date (of_type "income" df))))))
                       (map snd (groupby_month_sum
                                   (sort_values_date (of_type "income" df))))) = b).
  { rewrite polyfit1_slope by (rewrite length_map; lia).
    rewrite Hlin. apply ols_slope_linear. exact Hn. }
  rewrite Hsl, np_mean_arith, length_map, Hlen', Hlin.
  assert (Hne : indices n <> []).
  { intros E. apply (f_equal (@List.length R)) in E.
    rewrite indices_length in E. simpl in E. lia. }
  rewrite arith_mean_affine, mean_indices by (assumption || lia).
  f_equal; [f_equal; field|]. f_equal; [f_equal; field|].
  f_equal. f_equal. field.
Qed.

End Forecasts.

(** ** Months *)


Section Months.

Variable to_datetime : list string -> string + list Timestamp.


End Months.

Section Totals.

Variable to_datetime : list string -> string + list Timestamp.

Local Open Scope R_scope.




End Totals.

(** ** The further properties on the sample requests *)

Lemma train_spending_model_shortfalls_witness :
  train_spending_model iso_dates lone_expense quiet_world
  = (Return {| predictions := [];
               model_accuracy := None;
               prediction_message :=
                 "Insufficient data for training. Need at least 3 transactions." |},
     quiet_world) /\
  train_spending_model iso_dates groceries quiet_world
  = (Return {| predictions := [];
               model_accuracy := None;
               prediction_message := "Need at least 2 months of data for training" |},
     quiet_world).
Proof.
  split.
  - destruct (train_spending_model_shortfalls
                iso_dates lone_expense lone_expense_frame quiet_world) as [H _];
      [discriminate | reflexivity |].
    apply H. cbn. lia.
  - destruct (train_spending_model_shortfalls
                iso_dates groceries groceries_frame quiet_world) as [_ H];
      [discriminate | reflexivity |].
    apply H; [cbn; lia|].
    intros a b Ha Hb. cbn in Ha, Hb.
    repeat (destruct Ha as [<-|Ha]; [repeat (destruct Hb as [<-|Hb]; [reflexivity|]);
                                     destruct Hb|]).
    destruct Ha.
Defined.

Lemma forecast_income_shortfalls_witness :
  forecast_income iso_dates household quiet_world
  = (Return {| forecast := [];
               confidence_interval := None;
               forecast_message :=
                 "Insufficient income data for forecasting. Need at least 3 income transactions." |},
     quiet_world).
Proof.
  destruct (forecast_income_shortfalls
              iso_dates household household_frame quiet_world) as [H _];
    [discriminate | reflexivity |].
  apply H. cbn. lia.
Defined.

Lemma predict_and_detect_shortfalls_witness :
  predict_expenses iso_dates lone_expense quiet_world
  = (Return {| predictions := [];
               model_accuracy := None;
               prediction_message :=
                 "Insufficient data for predictions. Need at least 3 transactions." |},
     quiet_world) /\
  detect_anomalies iso_dates household quiet_world
  = (Return {| anomalies := [];
               total_anomalies := 0;
               anomaly_message := "Need at least 5 transactions for anomaly detection" |},
     quiet_world).
Proof.
  split.
  - destruct (predict_and_detect_shortfalls
                iso_dates lone_expense lone_expense_frame quiet_world) as [H _];
      [discriminate | reflexivity |].
    apply H. cbn. lia.
  - destruct (predict_and_detect_shortfalls
                iso_dates household household_frame quiet_world) as [_ H];
      [discriminate | reflexivity |].
    apply H. cbn. lia.
Defined.

Lemma recent_trend_is_average_up_to_three_months_witness :
  exists resp avg recent confidence,
    fst (train_spending_model iso_dates household quiet_world) = Return resp /\
    In (SpendingSummary avg recent confidence) (predictions resp) /\
    recent = avg.
Proof.
  do 4 eexists. split; [run_handler; reflexivity|]. split; [left; reflexivity|].
  eapply (recent_trend_is_average_up_to_three_months
            iso_dates household household_frame quiet_world).
  - reflexivity.
  - cbn. lia.
  - run_handler. reflexivity.
  - left. reflexivity.
Defined.


Lemma anomaly_records_are_consistent_witness :
  let r := anomaly_of (category_amounts (of_type "expense" groceries_frame) "food")
                      (on_day 100 2024 1 6 "food" "expense") in
  (z_score r > 2)%R /\
  (anomaly_amount r < expected_min r \/ expected_max r < anomaly_amount r)%R /\
  (expected_min r < expected_max r)%R /\
  (severity r = high <-> (z_score r > 3)%R).
Proof.
  destruct groceries_anomaly_reported as (resp & H & Hin).
  exact (anomaly_records_are_consistent iso_dates groceries quiet_world resp _ H Hin).
Defined.

Lemma at_most_a_quarter_is_flagged_witness :
  exists (resp : AnomalyResponse) (df : DataFrame),
    fst (detect_anomalies iso_dates groceries quiet_world) = Return resp /\
    parse_dates iso_dates (transactions groceries) = inr df /\
    (4 * total_anomalies resp <= List.length (of_type "expense" df))%nat.
Proof.
  destruct groceries_anomaly_reported as (resp & H & _).
  destruct (at_most_a_quarter_is_flagged iso_dates groceries quiet_world resp H)
    as (df & Hp & Hq).
  exists resp, df. auto.
Defined.

Lemma constant_category_is_never_flagged_witness :
  match fst (detect_anomalies iso_dates rents quiet_world) with
  | Return resp => forall r, In r (anomalies resp) -> anomaly_category r <> "rent"
  | Raised _ => True
  end.
Proof.
  apply (constant_category_is_never_flagged iso_dates rents rents_frame quiet_world).
  - reflexivity.
  - intros a b Ha Hb. cbn in Ha, Hb.
    repeat (destruct Ha as [<-|Ha]; [repeat (destruct Hb as [<-|Hb]; [reflexivity|]);
                                     destruct Hb|]).
    destruct Ha.
Defined.

Lemma predict_expenses_draws_witness :
  exists cats : list string,
    NoDup cats /\
    (forall c, In c cats <->
               exists r, In r (of_type "expense" household_frame) /\ category r = c) /\
    (forall k, random_state (snd (predict_expenses iso_dates household quiet_world)) k
               = random_state quiet_world (3 * List.length cats + k)%nat) /\
    warned (snd (predict_expenses iso_dates household quiet_world)) = warned quiet_world /\
    logged (snd (predict_expenses iso_dates household quiet_world))
    = logged quiet_world ++ [(INFO, "Generated predictions for 3 months")].
Proof.
  apply (predict_expenses_draws iso_dates household household_frame quiet_world).
  - reflexivity.
  - cbn. lia.
Defined.

Lemma reported_total_is_close_to_the_sum_witness :
  (Rabs (1 / 100 - Rsum (map snd [("a", 0 / 100); ("b", 0 / 100); ("c", 0 / 100)]))
   <= (INR 3 + 1) * (5 / 1000))%R.
Proof.
  apply (reported_total_is_close_to_the_sum
           iso_dates small_amounts quiet_world _ "2024-02" (1 / 100)%R
           [("a", (0 / 100)%R); ("b", (0 / 100)%R); ("c", (0 / 100)%R)]
           small_amounts_projection).
  left. reflexivity.
Defined.

Lemma forecast_bounds_enclose_the_prediction_witness :
  (350 / 100 <= 367 / 100 <= 383 / 100)%R.
Proof.
  apply (forecast_bounds_enclose_the_prediction
           iso_dates rising_income rising_income_frame quiet_world
           rising_income_parses) with
      (resp := {| forecast :=
                    [{| forecast_month := "2024-04";
                        predicted_income := (367 / 100)%R;
                        confidence_lower := (350 / 100)%R;
                        confidence_upper := (383 / 100)%R |};
                     {| forecast_month := "2024-05";
                        predicted_income := (417 / 100)%R;
                        confidence_lower := (400 / 100)%R;
                        confidence_upper := (433 / 100)%R |};
                     {| forecast_month := "2024-06";
                        predicted_income := (467 / 100)%R;
                        confidence_lower := (450 / 100)%R;
                        confidence_upper := (483 / 100)%R |}];
                  confidence_interval := None;
                  forecast_message := "Income forecast generated successfully" |})
      (p := {| forecast_month := "2024-04";
               predicted_income := (367 / 100)%R;
               confidence_lower := (350 / 100)%R;
               confidence_upper := (383 / 100)%R |}).
  - intros r Hr. cbn in Hr. destruct Hr as [<-|[<-|[<-|[]]]]; cbn; lra.
  - apply rising_income_forecast.
  - left. reflexivity.
Defined.

Lemma forecast_of_linear_income_witness :
  exists resp,
    fst (forecast_income iso_dates steady_income quiet_world) = Return resp /\
    map predicted_income (forecast resp)
    = map (fun i => round2 (100 + 100 * (INR 3 - 1 + IZR i) + 100 * (INR 3 + 1) / 2)%R)
          [1; 2; 3]%Z.
Proof.
  apply (forecast_of_linear_income
           iso_dates steady_income steady_income_frame quiet_world 3 100 100).
  - reflexivity.
  - cbn. lia.
  - lia.
  - cbv -[Rplus Rmult IZR INR].
    f_equal; [simpl; lra|]. f_equal; [simpl; lra|]. f_equal. simpl; lra.
Defined.

(** ** Noise and order in predict-expenses *)

Section Noise.

Variable to_datetime : list string -> string + list Timestamp.

Lemma perturbed_in (draws : nat -> R) (means : list (string * R)) (c : string) (a : R) :
  In (c, a) (perturbed draws means) ->
  exists avg k, In (c, avg) means /\ a = (avg * (1 + (0 + 1 / 10 * draws k)))%R.
Proof.
  revert draws. induction means as [|[c0 avg0] means IH]; intros draws Hin.
  - destruct Hin.
  - cbn [perturbed] in Hin. destruct Hin as [E|Hin].
    + injection E as <- <-. exists avg0, 0%nat. split; [now left | reflexivity].
    + destruct (IH _ Hin) as (avg & k & Hm & ->).
      exists avg, (S k). split; [now right | reflexivity].
Qed.

(** X18: the noise is relative.  When every draw of the generator lies
    within [B] standard normal units, each amount reported by
    predict-expenses for a category is within [B / 10] of that category's
    mean, relative to the mean, plus half a cent of rounding. *)
Theorem reported_amounts_stay_near_the_means
        (data : TransactionData) (df : DataFrame) (w : World) (B : R) :
  parse_dates to_datetime (transactions data) = inr df ->
  (3 <= List.length (of_type "expense" df))%nat ->
  (forall k, Rabs (random_state w k) <= B)%R ->
  forall resp label total by_category c v,
    fst (predict_expenses to_datetime data w) = Return resp ->
    In (MonthProjection label total by_category) (predictions resp) ->
    In (c, v) by_category ->
    let mean := arith_mean (category_amounts (of_type "expense" df) c) in
    (Rabs (v - mean) <= B / 10 * Rabs mean + 5 / 1000)%R.
Proof.
  intros Hp Hlen HB resp label total by_category c v H Hin Hcv.
  destruct (predict_expenses_run to_datetime data df Hp Hlen)
    as (last & cats & _ & _ & _ & _ & _ & Hrun).
  cbv zeta in Hrun. rewrite Hrun in H. injection H as <-.
  cbn [predictions] in Hin. unfold reported in Hin.
  assert (Hnear : forall draws,
             (forall k, Rabs (draws k) <= B)%R ->
             In (c, v) (map (fun kv => (fst kv, round2 (snd kv)))
                            (perturbed draws
                               (map (fun c0 => (c0, arith_mean
                                                      (category_amounts
                                                         (of_type "expense" df) c0)))
                                    cats))) ->
             (Rabs (v - arith_mean (category_amounts (of_type "expense" df) c))
              <= B / 10 * Rabs (arith_mean (category_amounts (of_type "expense" df) c))
                 + 5 / 1000)%R).
  { intros draws Hd Hv. apply in_map_iff in Hv.
    destruct Hv as ([c' a] & E & Ha). cbn [fst snd] in E. injection E as -> <-.
    apply perturbed_in in Ha. destruct Ha as (avg & k & Hm & ->).
    apply in_map_iff in Hm. destruct Hm as (c0 & E & _). injection E as -> <-.
    set (m := arith_mean (category_amounts (of_type "expense" df) c)).
    pose proof (round2_error (m * (1 + (0 + 1 / 10 * draws k)))) as Hr.
    apply Rabs_le_bounds in Hr.
    pose proof (Hd k) as Hk. apply Rabs_le_bounds in Hk.
    assert (Hmul : (Rabs (m * (1 + (0 + 1 / 10 * draws k)) - m) <= B / 10 * Rabs m)%R).
    { replace (m * (1 + (0 + 1 / 10 * draws k)) - m)%R
        with (m * (draws k / 10))%R by field.
      rewrite Rabs_mult. pose proof (Rabs_pos m).
      assert (Rabs (draws k / 10) <= B / 10)%R by (apply Rabs_le; lra).
      pose proof (Rabs_pos (draws k / 10)). nra. }
    apply Rabs_le_bounds in Hmul. apply Rabs_le. lra. }
  destruct Hin as [E|[E|[E|[]]]]; injection E as _ _ <-;
    (eapply Hnear; [|exact Hcv]); intros k; apply HB.
Qed.

Lemma insert_by_sorted {A} (leb : A -> A -> bool) (x : A) (l : list A) :
  (forall a b, leb a b = true \/ leb b a = true) ->
  Sorted (fun a b => leb a b = true) l ->
  Sorted (fun a b => leb a b = true) (insert_by leb x l).
Proof.
  intros Htot. induction 1 as [|y l Hs IH Hy]; simpl.
  - repeat constructor.
  - destruct (leb x y) eqn:E.
    + constructor; [now constructor | now constructor].
    + constructor; [exact IH|].
      assert (Hyx : leb y x = true) by (destruct (Htot x y); congruence).
      destruct l as [|z l]; simpl.
      * now constructor.
      * destruct (leb x z); constructor; [exact Hyx | now inversion Hy].
Qed.

Lemma sort_by_sorted {A} (leb : A -> A -> bool) (l : list A) :
  (forall a b, leb a b = true \/ leb b a = true) ->
  Sorted (fun a b => leb a b = true) (sort_by leb l).
Proof.
  intros Htot. induction l as [|x l IH]; simpl; [constructor|].
  now apply insert_by_sorted.
Qed.

(** X19: every month reported by predict-expenses lists its categories in
    ascending order, each once. *)
Theorem by_category_is_sorted
        (data : TransactionData) (w : World) (resp : PredictionResponse)
        (label : string) (total : R) (by_category : list (string * R)) :
  fst (predict_expenses to_datetime data w) = Return resp ->
  In (MonthProjection label total by_category) (predictions resp) ->
  Sorted (fun a b => String.leb a b = true) (map fst by_category) /\
  NoDup (map fst by_category).
Proof.
  intros H Hin.
  destruct (predict_expenses_reported to_datetime data w resp _ H Hin)
    as (df & label' & amounts & w' & _ & Hloop & E).
  injection E as _ _ ->.
  set (sorted := sort_values_date (of_type "expense" df)) in *.
  assert (Hkeys : map fst (groupby_category_mean sorted)
                  = sort_by String.leb (unique String.eqb (map category sorted))).
  { unfold groupby_category_mean. rewrite map_map. cbn [fst]. apply map_id. }
  assert (Hnd : NoDup (map fst (groupby_category_mean sorted))).
  { rewrite Hkeys. eapply Permutation_NoDup; [apply Permutation_sym, sort_by_perm|].
    apply unique_NoDup, String.eqb_eq. }
  rewrite project_categories_run in Hloop by (auto; intros c _ []).
  cbn [fst app] in Hloop. injection Hloop as <- _.
  rewrite map_map. cbn [fst].
  assert (Hk : forall draws means,
             map (fun x => fst x) (perturbed draws means) = map fst means).
  { intros draws means. revert draws.
    induction means as [|[c a] means IH]; intros draws; simpl;
      [reflexivity | now rewrite IH]. }
  rewrite Hk, Hkeys. split.
  - apply sort_by_sorted, String.leb_total.
  - rewrite <- Hkeys. exact Hnd.
Qed.

End Noise.

Lemma reported_amounts_stay_near_the_means_witness :
  exists resp label total by_category c v,
    fst (predict_expenses iso_dates household quiet_world) = Return resp /\
    In (MonthProjection label total by_category) (predictions resp) /\
    In (c, v) by_category /\
    (Rabs (v - arith_mean (category_amounts (of_type "expense" household_frame) c))
     <= 0 / 10 * Rabs (arith_mean (category_amounts (of_type "expense" household_frame) c))
        + 5 / 1000)%R.
Proof.
  do 6 eexists. split; [run_handler; reflexivity|].
  split; [left; reflexivity|]. split; [left; reflexivity|].
  eapply (reported_amounts_stay_near_the_means
            iso_dates household household_frame quiet_world 0%R).
  - reflexivity.
  - cbn. lia.
  - intros k. cbn [quiet_world random_state]. rewrite Rabs_R0. lra.
  - run_handler. reflexivity.
  - left. reflexivity.
  - left. reflexivity.
Defined.

Lemma by_category_is_sorted_witness :
  Sorted (fun a b => String.leb a b = true)
         (map fst [("a", (0 / 100)%R); ("b", (0 / 100)%R); ("c", (0 / 100)%R)]) /\
  NoDup (map fst [("a", (0 / 100)%R); ("b", (0 / 100)%R); ("c", (0 / 100)%R)]).
Proof.
  apply (by_category_is_sorted
           iso_dates small_amounts quiet_world _ "2024-02" (1 / 100)%R
           [("a", (0 / 100)%R); ("b", (0 / 100)%R); ("c", (0 / 100)%R)]
           small_amounts_projection).
  left. reflexivity.
Defined.

(** ** Reordering the request *)

(** Two sorted lists with the same elements are the same list. *)
Lemma sorted_perm_eq {A} (le : A -> A -> Prop) (l l' : list A) :
  (forall a b, le a b -> le b a -> a = b) ->
  StronglySorted le l -> StronglySorted le l' -> Permutation l l' -> l = l'.
Proof.
  intros Hanti Hs. revert l'.
  induction Hs as [|a l Hs IH Ha]; intros l' Hs' Hp.
  - now apply Permutation_nil in Hp.
  - destruct Hs' as [|b l' Hs' Hb].
    { apply Permutation_sym, Permutation_nil in Hp. discriminate. }
    assert (E : a = b).
    { assert (Hin : In a (b :: l'))
        by (eapply Permutation_in; [exact Hp | now left]).
      assert (Hin' : In b (a :: l))
        by (eapply Permutation_in; [apply Permutation_sym; exact Hp | now left]).
      destruct Hin as [E|Hin]; [now symmetry|].
      destruct Hin' as [E|Hin']; [exact E|].
      rewrite Forall_forall in Ha, Hb.
      apply Hanti; [apply Ha, Hin' | apply Hb, Hin]. }
    subst b. f_equal. apply IH; [exact Hs'|].
    eapply Permutation_cons_inv; exact Hp.
Qed.

Lemma string_leb_trans (a b c : string) :
  String.leb a b = true -> String.leb b c = true -> String.leb a c = true.
Proof.
  unfold String.leb.
  destruct (String.compare a b) eqn:E1; try discriminate;
    destruct (String.compare b c) eqn:E2; try discriminate; intros _ _.
  - apply String.compare_eq_iff in E1. subst b. now rewrite E2.
  - apply String.compare_eq_iff in E1. subst b. now rewrite E2.
  - apply String.compare_eq_iff in E2. subst c. now rewrite E1.
  - apply OrderedTypeEx.String_as_OT.cmp_lt in E1, E2.
    pose proof (OrderedTypeEx.String_as_OT.lt_trans _ _ _ E1 E2) as H.
    apply OrderedTypeEx.String_as_OT.cmp_lt in H.
    unfold OrderedTypeEx.String_as_OT.cmp in H. now rewrite H.
Qed.

(** Sorting by a total order gives the same list for every arrangement of
    the input. *)
Lemma sort_by_perm_eq {A} (leb : A -> A -> bool) (l l' : list A) :
  (forall a b, leb a b = true \/ leb b a = true) ->
  (forall a b, leb a b = true -> leb b a = true -> a = b) ->
  (forall a b c, leb a b = true -> leb b c = true -> leb a c = true) ->
  Permutation l l' -> sort_by leb l = sort_by leb l'.
Proof.
  intros Htot Hanti Htrans Hp.
  apply (sorted_perm_eq (fun a b => leb a b = true)); [exact Hanti| | |].
  - apply Sorted_StronglySorted; [|now apply sort_by_sorted].
    intros a b c H1 H2. eapply Htrans; eassumption.
  - apply Sorted_StronglySorted; [|now apply sort_by_sorted].
    intros a b c H1 H2. eapply Htrans; eassumption.
  - eapply perm_trans; [apply sort_by_perm|].
    eapply perm_trans; [exact Hp|]. apply Permutation_sym, sort_by_perm.
Qed.

Lemma unique_perm {A} (eqb : A -> A -> bool) (l l' : list A) :
  (forall x y, eqb x y = true <-> x = y) ->
  Permutation l l' -> Permutation (unique eqb l) (unique eqb l').
Proof.
  intros Heq Hp.
  apply NoDup_Permutation; try (apply unique_NoDup; exact Heq).
  intros x. rewrite !(unique_In eqb Heq).
  split; apply Permutation_in; [|apply Permutation_sym]; exact Hp.
Qed.

Lemma groupby_month_sum_perm (df df' : DataFrame) :
  Permutation df df' -> groupby_month_sum df = groupby_month_sum df'.
Proof.
  intros Hp. unfold groupby_month_sum.
  rewrite (sort_by_perm_eq Z.leb (unique Z.eqb (map row_month df))
                           (unique Z.eqb (map row_month df'))).
  - apply map_ext. intros m. f_equal. rewrite !np_sum_Rsum.
    apply Rsum_perm, Permutation_map, filter_perm, Hp.
  - intros a b. destruct (Z.leb_spec a b); [now left|right].
    apply Z.leb_le. lia.
  - intros a b Hab Hba. apply Z.leb_le in Hab, Hba. lia.
  - intros a b c Hab Hbc. apply Z.leb_le in Hab, Hbc. apply Z.leb_le. lia.
  - apply unique_perm; [apply Z.eqb_eq | now apply Permutation_map].
Qed.

Lemma groupby_category_mean_perm (df df' : DataFrame) :
  Permutation df df' -> groupby_category_mean df = groupby_category_mean df'.
Proof.
  intros Hp. unfold groupby_category_mean.
  rewrite (sort_by_perm_eq String.leb (unique String.eqb (map category df))
                           (unique String.eqb (map category df'))).
  - apply map_ext. intros c. f_equal. rewrite !np_mean_arith.
    apply arith_mean_perm, Permutation_map, filter_perm, Hp.
  - apply String.leb_total.
  - apply String.leb_antisym.
  - apply string_leb_trans.
  - apply unique_perm; [apply String.eqb_eq | now apply Permutation_map].
Qed.

Lemma month_max_perm (df df' : DataFrame) :
  Permutation df df' -> month_max df = month_max df'.
Proof.
  intros Hp. destruct df' as [|r0 df0] eqn:E.
  - apply Permutation_sym, Permutation_nil in Hp. now subst df.
  - rewrite <- E in *.
    assert (Hne : df' <> []) by (rewrite E; discriminate).
    destruct (month_max_spec df df' Hp Hne) as [(r1 & Hr1 & E1) Hle1].
    destruct (month_max_spec df' df' (Permutation_refl _) Hne)
      as [(r2 & Hr2 & E2) Hle2].
    pose proof (Hle1 r2 Hr2). pose proof (Hle2 r1 Hr1). lia.
Qed.

(** The records of one category, as the loops build them. *)
Lemma scan_category_records (df : DataFrame) (c : string)
      (acc : list Anomaly) (w : World) :
  scan_category df c acc w = (Return (acc ++ category_records df c), w).
Proof.
  unfold scan_category, category_records, flagged_rows, category_amounts.
  set (cdf := filter (fun r => category r =? c) df).
  rewrite length_map, <- np_std_pop.
  destruct (List.length cdf <? 3)%nat; [unfold ret; now rewrite app_nil_r|].
  destruct (Req_dec_T (np.std (map amount cdf)) 0) as [E0|E0];
    [unfold ret; now rewrite app_nil_r|].
  unfold np_divide.
  destruct (Req_dec_T (np.std (map amount cdf)) 0) as [E0'|_]; [contradiction|].
  unfold bind, ret, enumerate. cbv beta iota.
  rewrite !map_map, length_map.
  set (zf := fun t : Row =>
               Rabs ((amount t - np.mean (map amount cdf))
                     / np.std (map amount cdf))%R).
  rewrite (flag_outliers_run cdf _ _ zf cdf 0 acc w eq_refl).
  assert (Hz : forall t, zf t = z_of (map amount cdf) (amount t)).
  { intros t. unfold zf, z_of. rewrite np_mean_arith, np_std_pop.
    apply abs_quotient; [apply pop_std_nonneg | now rewrite <- np_std_pop]. }
  do 3 f_equal.
  rewrite (filter_ext (fun t : Row => if Rgt_dec (zf t) 2 then true else false)
                      (fun t => if Rgt_dec (z_of (map amount cdf) (amount t)) 2
                                then true else false))
    by (intros t; now rewrite Hz).
  apply map_ext. intros t. unfold anomaly_of. cbv zeta.
  now rewrite Hz, np_mean_arith, np_std_pop.
Qed.

Lemma scan_categories_records (df : DataFrame) (cats : list string) :
  forall (acc : list Anomaly) (w : World),
    scan_categories df cats acc w
    = (Return (acc ++ flat_map (category_records df) cats), w).
Proof.
  induction cats as [|c cats IH]; intros acc w.
  - simpl. unfold ret. now rewrite app_nil_r.
  - cbn [scan_categories flat_map]. unfold bind.
    rewrite scan_category_records, IH, app_assoc. reflexivity.
Qed.

Lemma category_records_perm (df df' : DataFrame) (c : string) :
  Permutation df df' ->
  Permutation (category_records df c) (category_records df' c).
Proof.
  intros Hp.
  assert (Ha : Permutation (category_amounts df c) (category_amounts df' c))
    by (apply Permutation_map, filter_perm, Hp).
  assert (Hr : forall t, anomaly_of (category_amounts df c) t
                         = anomaly_of (category_amounts df' c) t).
  { intros t. unfold anomaly_of, z_of.
    now rewrite (arith_mean_perm _ _ Ha), (pop_std_perm _ _ Ha). }
  unfold category_records, flagged_rows. cbv zeta.
  rewrite (Permutation_length Ha), (pop_std_perm _ _ Ha).
  destruct (List.length (category_amounts df' c) <? 3)%nat; [constructor|].
  destruct (Req_dec_T (pop_std (category_amounts df' c)) 0); [constructor|].
  rewrite (map_ext _ _ Hr).
  apply Permutation_map.
  rewrite (filter_ext _ (fun t => if Rgt_dec (z_of (category_amounts df' c) (amount t)) 2
                                  then true else false)).
  - apply filter_perm, filter_perm, Hp.
  - intros t. unfold z_of.
    now rewrite (arith_mean_perm _ _ Ha), (pop_std_perm _ _ Ha).
Qed.

Lemma flat_map_perm {A B} (f g : A -> list B) (l l' : list A) :
  (forall x, Permutation (f x) (g x)) -> Permutation l l' ->
  Permutation (flat_map f l) (flat_map g l').
Proof.
  intros Hfg Hp. apply perm_trans with (flat_map g l).
  - clear Hp. induction l as [|x l IH]; simpl; [constructor|].
    now apply Permutation_app.
  - now apply Permutation_flat_map.
Qed.

Section Reordering.

Variable to_datetime : string -> option Timestamp.

(** Reading the column string by string: the first string that does not
    parse ends the parse, otherwise the row gets its timestamp. *)
Lemma parse_dates_each_cons (t : Transaction) (ts : list Transaction) :
  parse_dates (each to_datetime) (t :: ts)
  = match to_datetime (date t) with
    | None => inl ("Unknown datetime string format, unable to parse: " ++ date t)%string
    | Some d =>
        match parse_dates (each to_datetime) ts with
        | inl msg => inl msg
        | inr df =>
            inr ({| amount := amount t; date := d;
                    category := category t; type := type t |} :: df)
        end
    end.
Proof.
  unfold parse_dates. simpl.
  destruct (to_datetime (date t)); [|reflexivity].
  destruct (each to_datetime (map date ts)); reflexivity.
Qed.

Lemma parse_dates_perm (ts ts' : list Transaction) :
  Permutation ts ts' ->
  forall df, parse_dates (each to_datetime) ts = inr df ->
  exists df', parse_dates (each to_datetime) ts' = inr df' /\ Permutation df df'.
Proof.
  induction 1 as [| t ts ts' _ IH | t u ts | ts ts' ts'' _ IH1 _ IH2];
    intros df Hdf.
  - exists []. cbv in Hdf. injection Hdf as <-. split; [reflexivity | constructor].
  - rewrite parse_dates_each_cons in *.
    destruct (to_datetime (date t)) as [d|]; [|discriminate].
    destruct (parse_dates (each to_datetime) ts) as [bad|df0]; [discriminate|].
    injection Hdf as <-. destruct (IH df0 eq_refl) as (df' & -> & Hp).
    eexists. split; [reflexivity|]. now apply perm_skip.
  - rewrite !parse_dates_each_cons in *.
    destruct (to_datetime (date t)) as [d|], (to_datetime (date u)) as [e|];
      try discriminate.
    destruct (parse_dates (each to_datetime) ts) as [bad|df0]; [discriminate|].
    injection Hdf as <-. eexists. split; [reflexivity|]. apply perm_swap.
  - destruct (IH1 df Hdf) as (df1 & H1 & Hp1).
    destruct (IH2 df1 H1) as (df2 & H2 & Hp2).
    exists df2. split; [exact H2|]. now apply perm_trans with df1.
Qed.

(** X20: what the handlers compute does not depend on the order in which
    the request lists its transactions, when pandas reads each date string
    on its own.  For two requests with the same transactions in different
    orders (all dates parsing), train-spending-model, predict-expenses (from
    the same generator state) and forecast-income give the same response and
    leave the same log and generator; detect-anomalies gives the same
    records up to their order, the same count and the same message. *)
Theorem reordering_the_request (data data' : TransactionData) (w : World) :
  Permutation (transactions data) (transactions data') ->
  all_dates_parse (each to_datetime) (transactions data) = true ->
  train_spending_model (each to_datetime) data w
  = train_spending_model (each to_datetime) data' w /\
  predict_expenses (each to_datetime) data w = predict_expenses (each to_datetime) data' w /\
  forecast_income (each to_datetime) data w = forecast_income (each to_datetime) data' w /\
  match fst (detect_anomalies (each to_datetime) data w),
        fst (detect_anomalies (each to_datetime) data' w) with
  | Return resp, Return resp' =>
      Permutation (anomalies resp) (anomalies resp') /\
      total_anomalies resp = total_anomalies resp' /\
      anomaly_message resp = anomaly_message resp'
  | Raised e, Raised e' => e = e'
  | _, _ => False
  end.
Proof.
  intros Hperm Hall.
  pose proof (all_dates_parse_frame (each to_datetime) (transactions data)) as Hf.
  rewrite Hall in Hf. destruct Hf as (df & Hdf).
  destruct (parse_dates_perm _ _ Hperm df Hdf) as (df' & Hdf' & Hp).
  destruct (empty_or_not data) as [Et|Hne].
  { assert (Et' : transactions data' = []).
    { rewrite Et in Hperm. now apply Permutation_nil in Hperm. }
    unfold train_spending_model, predict_expenses, forecast_income, detect_anomalies.
    rewrite !(handler_empty (each to_datetime) data) by exact Et.
    rewrite !(handler_empty (each to_datetime) data') by exact Et'.
    repeat split. }
  assert (Hne' : transactions data' <> []).
  { intros E. rewrite E in Hperm.
    apply Permutation_sym, Permutation_nil in Hperm. contradiction. }
  assert (Hs : forall kind,
             Permutation (sort_values_date (of_type kind df))
                         (sort_values_date (of_type kind df'))).
  { intros kind. eapply perm_trans; [apply sorted_rows_perm|].
    eapply perm_trans; [apply filter_perm, Hp|].
    apply Permutation_sym, sorted_rows_perm. }
  split; [|split; [|split]].
  - unfold train_spending_model.
    rewrite (handler_prelude (each to_datetime) data df),
            (handler_prelude (each to_datetime) data' df') by assumption.
    rewrite (Permutation_length (Hs "expense")),
            (groupby_month_sum_perm _ _ (Hs "expense")).
    reflexivity.
  - unfold predict_expenses.
    rewrite (handler_prelude (each to_datetime) data df),
            (handler_prelude (each to_datetime) data' df') by assumption.
    rewrite (Permutation_length (Hs "expense")),
            (groupby_category_mean_perm _ _ (Hs "expense")),
            (month_max_perm _ _ (Hs "expense")).
    reflexivity.
  - unfold forecast_income.
    rewrite (handler_prelude (each to_datetime) data df),
            (handler_prelude (each to_datetime) data' df') by assumption.
    rewrite (Permutation_length (Hs "income")),
            (groupby_month_sum_perm _ _ (Hs "income")).
    reflexivity.
  - unfold detect_anomalies.
    rewrite (handler_prelude (each to_datetime) data df),
            (handler_prelude (each to_datetime) data' df') by assumption.
    rewrite (Permutation_length (Hs "expense")).
    unfold try_except, bind.
    destruct (List.length (sort_values_date (of_type "expense" df')) <? 5)%nat.
    { cbn. repeat split. constructor. }
    rewrite !scan_categories_records. unfold logger, ret.
    cbn [fst app anomalies total_anomalies anomaly_message].
    assert (Hfound :
              Permutation
                (flat_map (category_records (sort_values_date (of_type "expense" df)))
                   (unique String.eqb
                      (map category (sort_values_date (of_type "expense" df)))))
                (flat_map (category_records (sort_values_date (of_type "expense" df')))
                   (unique String.eqb
                      (map category (sort_values_date (of_type "expense" df')))))).
    { apply flat_map_perm.
      - intros c. apply category_records_perm, Hs.
      - apply unique_perm; [apply String.eqb_eq | apply Permutation_map, Hs]. }
    split; [exact Hfound|].
    rewrite (Permutation_length Hfound). split; reflexivity.
Qed.

End Reordering.

Lemma reordering_the_request_witness :
  train_spending_model iso_dates household quiet_world
  = train_spending_model iso_dates household_reversed quiet_world /\
  predict_expenses iso_dates household quiet_world
  = predict_expenses iso_dates household_reversed quiet_world /\
  forecast_income iso_dates household quiet_world
  = forecast_income iso_dates household_reversed quiet_world /\
  match fst (detect_anomalies iso_dates household quiet_world),
        fst (detect_anomalies iso_dates household_reversed quiet_world) with
  | Return resp, Return resp' =>
      Permutation (anomalies resp) (anomalies resp') /\
      total_anomalies resp = total_anomalies resp' /\
      anomaly_message resp = anomaly_message resp'
  | Raised e, Raised e' => e = e'
  | _, _ => False
  end.
Proof.
  apply (reordering_the_request iso_date household household_reversed quiet_world).
  - apply Permutation_rev.
  - reflexivity.
Defined.
